(** * runscan: a shallow embedding of [src/runscan/runscan.py]

    The client of the scan service is modelled function by function.

    - Values decoded from JSON are terms of [json]; the records of a result
      document ([HostResult], [Vulnerability]) carry the typed fields the
      code reads and keep every other key in an association list.
    - The network, standard output and standard error are an explicit
      [World] threaded through a state-and-exception monad [M]; every HTTP
      call appends the request to [sent] and obtains its response from an
      oracle that sees the history.
    - Library entry points that are not code of this program ([json.loads],
      [json.dumps], [int], set and dict iteration order, the clock, the
      file system, and netaddr's parsers) are the fields of the classes
      [Runtime] and [Netaddr]: the properties hold for every instance, and
      [Fixture] gives a concrete one on which the functions compute. *)

From Stdlib Require Import ZArith String Ascii List Bool Lia Permutation.
From stdpp Require Import base list strings pretty.

Import ListNotations.
Local Open Scope string_scope.
Local Open Scope Z_scope.

#[local] Set Warnings "-register-all".

(** ** Values *)

Inductive json : Type :=
| JNull
| JBool (b : bool)
| JInt (z : Z)
| JStr (s : string)
| JList (l : list json)
| JDict (kv : list (string * json)).

(** Python exceptions the modelled code can raise. [RequestFailed c] is
    [Exception('request failed with status code c')]. *)
Inductive exn : Type :=
| ValueError (msg : string)
| RequestFailed (status_code : Z)
| AddrFormatError
| OtherError (msg : string)
| IOError
| KeyError (key : string)
| TypeError.

Inductive result (A : Type) : Type :=
| Ok (a : A)
| Raise (e : exn).
Arguments Ok {A} a.
Arguments Raise {A} e.

Definition is_ok {A} (r : result A) : bool :=
  match r with Ok _ => true | Raise _ => false end.

(** [d[k]] on a decoded value: only a dict can be indexed by a string. *)
Fixpoint assoc (k : string) (kv : list (string * json)) : option json :=
  match kv with
  | [] => None
  | (k', v) :: rest => if String.eqb k k' then Some v else assoc k rest
  end.

Definition getitem (j : json) (k : string) : result json :=
  match j with
  | JDict kv => match assoc k kv with Some v => Ok v | None => Raise (KeyError k) end
  | _ => Raise TypeError
  end.

(** ** The result document *)

Record Vulnerability : Type := {
  name : string;
  risk : string;
  vfields : list (string * json)
}.

Record HostResult : Type := {
  hostname : string;
  ipaddress : string;
  os : string;
  vulnerabilities : list Vulnerability;
  scan_start : string;
  scan_end : string;
  credentialed_checks : bool;
  owner : option json;
  exempt_vulnerabilities : option json;
  hfields : list (string * json)
}.

Record ScanResultDocument : Type := {
  zone : string;
  details : list HostResult;
  completed : bool
}.

(** ** Severity summary of one host ([execute_indicators], lines 147-193) *)

Record Details : Type := {
  maximum : Z;
  high : Z;
  medium : Z;
  low : Z;
  coverage : bool
}.

Definition details0 : Details :=
  {| maximum := 0; high := 0; medium := 0; low := 0; coverage := false |}.

Definition incr_maximum (d : Details) : Details :=
  {| maximum := maximum d + 1; high := high d; medium := medium d;
     low := low d; coverage := coverage d |}.
Definition incr_high (d : Details) : Details :=
  {| maximum := maximum d; high := high d + 1; medium := medium d;
     low := low d; coverage := coverage d |}.
Definition incr_medium (d : Details) : Details :=
  {| maximum := maximum d; high := high d; medium := medium d + 1;
     low := low d; coverage := coverage d |}.
Definition incr_low (d : Details) : Details :=
  {| maximum := maximum d; high := high d; medium := medium d;
     low := low d + 1; coverage := coverage d |}.
Definition set_coverage (d : Details) : Details :=
  {| maximum := maximum d; high := high d; medium := medium d;
     low := low d; coverage := true |}.

(** The four bucket counts, without the coverage flag. *)
Definition buckets (d : Details) : Z * Z * Z * Z :=
  (maximum d, high d, medium d, low d).

(** The local variables of the loop over [x['vulnerabilities']]. *)
Record Tally : Type := {
  level : Z;
  seentitles : list string;
  counts : Details
}.

Definition tally0 : Tally :=
  {| level := 1; seentitles := []; counts := details0 |}.

(** [v['name'] in seentitles] *)
Definition seen (n : string) (titles : list string) : bool :=
  existsb (String.eqb n) titles.

(** The ordinal [tv] assigned to a risk label. *)
Definition ordinal (r : string) : Z :=
  if String.eqb r "critical" then 4
  else if String.eqb r "high" then 3
  else if String.eqb r "medium" then 2
  else if String.eqb r "low" then 1
  else 0.

(** One iteration of [for v in x['vulnerabilities']]. *)
Definition scan_vulnerability (t : Tally) (v : Vulnerability) : Tally :=
  let fresh := negb (seen (name v) (seentitles t)) in
  let d := counts t in
  let '(tv, d') :=
    if String.eqb (risk v) "critical" then
      (4, if fresh then incr_maximum d else d)
    else if String.eqb (risk v) "high" then
      (3, if fresh then incr_high d else d)
    else if String.eqb (risk v) "medium" then
      (2, if fresh then incr_medium d else d)
    else if String.eqb (risk v) "low" then
      (1, if fresh then incr_low d else d)
    else (0, d) in
  {| level := if Z.gtb tv (level t) then tv else level t;
     seentitles := seentitles t ++ [name v];
     counts := d' |}.

Definition scan_vulnerabilities (vs : list Vulnerability) (t : Tally) : Tally :=
  fold_left scan_vulnerability vs t.

(** Lines 182-193: the label and the coverage flag. *)
Definition lind_of (credentialed : bool) (lvl : Z) : string :=
  if credentialed then
    if Z.eqb lvl 4 then "maximum"
    else if Z.eqb lvl 3 then "high"
    else if Z.eqb lvl 2 then "medium"
    else "low"
  else "unknown".

Definition host_tally (x : HostResult) : Tally :=
  scan_vulnerabilities (vulnerabilities x) tally0.

Definition host_details (x : HostResult) : Details :=
  let d := counts (host_tally x) in
  if credentialed_checks x then set_coverage d else d.

Definition host_lind (x : HostResult) : string :=
  lind_of (credentialed_checks x) (level (host_tally x)).

Definition details_json (d : Details) : json :=
  JDict [("maximum", JInt (maximum d)); ("high", JInt (high d));
         ("medium", JInt (medium d)); ("low", JInt (low d));
         ("coverage", JBool (coverage d))].

(** The [ind] dict of lines 194-203. *)
Definition indicator (zone_ : string) (timestamp : string) (x : HostResult) : json :=
  JDict [("asset_type", JStr "hostname");
         ("asset_identifier", JStr (hostname x));
         ("zone", JStr zone_);
         ("description", JStr "scanapi vulnerability result");
         ("timestamp_utc", JStr timestamp);
         ("event_source_name", JStr "scanapi");
         ("likelihood_indicator", JStr (host_lind x));
         ("details", details_json (host_details x))].

(** A host entry that carries only what indicator computation reads. *)
Definition mk_vuln (n r : string) : Vulnerability :=
  {| name := n; risk := r; vfields := [] |}.

Definition mk_host (h : string) (vs : list Vulnerability) (cc : bool) : HostResult :=
  {| hostname := h; ipaddress := ""; os := ""; vulnerabilities := vs;
     scan_start := ""; scan_end := ""; credentialed_checks := cc;
     owner := None; exempt_vulnerabilities := None; hfields := [] |}.

(** ** The world: HTTP traffic, standard streams *)

Inductive payload : Type :=
| NoData
| Form (fields : list (string * json))
| Raw (s : string).

Record Request : Type := {
  verb : string;
  url : string;
  headers : list (string * string);
  params : list (string * json);
  data : payload;
  verify : bool
}.

Record Response : Type := {
  status_code : Z;
  text : string
}.

Record World : Type := {
  sent : list Request;
  stdout : list string;
  stderr : list string
}.

Definition world0 : World := {| sent := []; stdout := []; stderr := [] |}.

(** What the program takes from its libraries and its surroundings. *)
Class Runtime : Type := {
  (** [json.loads] and [Response.json]: a failure is a [ValueError]. *)
  json_loads : string -> option json;
  (** [json.dumps], with its [indent] argument. *)
  json_dumps : option Z -> json -> string;
  (** [int(s)] on a string: a failure is a [ValueError]. *)
  py_int : string -> option Z;
  (** The remote services: the response to a request, given the requests
      already made. *)
  respond : list Request -> Request -> Response;
  (** [datetime.utcnow()], localized and in ISO format. *)
  utcnow : World -> string;
  (** The order in which [set(l)] is iterated. *)
  set_iter : list string -> list string;
  (** The order in which a dict whose keys were inserted as [ks] is iterated. *)
  dict_iter : list string -> list string;
  (** [open(path, 'r').readlines()]. *)
  readlines : string -> result (list string)
}.

(** What Python guarantees of set and dict iteration. *)
Class RuntimeLaws (R : Runtime) : Prop := {
  set_iter_NoDup : forall l, List.NoDup (set_iter l);
  set_iter_In : forall l x, In x (set_iter l) <-> In x l;
  dict_iter_In : forall ks x, In x (dict_iter ks) <-> In x ks
}.

(** ** State and exceptions *)

Definition M (A : Type) : Type := World -> result A * World.

Definition ret {A} (a : A) : M A := fun w => (Ok a, w).

Definition bind {A B} (m : M A) (k : A -> M B) : M B :=
  fun w => match m w with
           | (Ok a, w') => k a w'
           | (Raise e, w') => (Raise e, w')
           end.

Definition raise {A} (e : exn) : M A := fun w => (Raise e, w).

Definition lift {A} (r : result A) : M A := fun w => (r, w).

Declare Scope m_scope.
Delimit Scope m_scope with M.
Notation "'do' x <- m ; k" := (bind m (fun x => k))
  (at level 10, x name, m at level 100, k at level 200) : m_scope.
Local Open Scope m_scope.

Fixpoint for_each {A} (l : list A) (body : A -> M unit) : M unit :=
  match l with
  | [] => ret tt
  | x :: rest => do _ <- body x; for_each rest body
  end.

Fixpoint fold_m {A S} (l : list A) (body : S -> A -> M S) (s : S) : M S :=
  match l with
  | [] => ret s
  | x :: rest => do s' <- body s x; fold_m rest body s'
  end.

Definition http `{Runtime} (req : Request) : M Response :=
  fun w => (Ok (respond (sent w) req),
            {| sent := sent w ++ [req]; stdout := stdout w; stderr := stderr w |}).

Definition write_stdout (s : string) : M unit :=
  fun w => (Ok tt, {| sent := sent w; stdout := stdout w ++ [s]; stderr := stderr w |}).

Definition write_stderr (s : string) : M unit :=
  fun w => (Ok tt, {| sent := sent w; stdout := stdout w; stderr := stderr w ++ [s] |}).

Definition now `{Runtime} : M string := fun w => (Ok (utcnow w), w).

Definition nl : string := String (ascii_of_nat 10) EmptyString.

(** ** [ScanAPIRequestor] *)

Record ScanAPIRequestor : Type := {
  _url : string;
  _key : string;
  _baseurl : string;
  _verify : bool;
  body : json
}.

Module Requestor.

(** [__init__]; [body = None] is [JNull]. *)
Definition init (url_ key : string) (noverify : bool) : ScanAPIRequestor :=
  {| _url := url_; _key := key; _baseurl := url_ ++ "/api/v1";
     _verify := if noverify then false else true; body := JNull |}.

Definition _urlfrombase (self : ScanAPIRequestor) (ep : string) : string :=
  _baseurl self ++ "/" ++ ep.

Definition set_body (self : ScanAPIRequestor) (b : json) : ScanAPIRequestor :=
  {| _url := _url self; _key := _key self; _baseurl := _baseurl self;
     _verify := _verify self; body := b |}.

(** [ScanAPIAuth] puts the key in the [SCANAPIKEY] header. *)
Definition auth (self : ScanAPIRequestor) : list (string * string) :=
  [("SCANAPIKEY", _key self)].

(** The call made for a request method, lines 41-49. *)
Definition call (self : ScanAPIRequestor) (ep method : string)
    (data_ : payload) (params_ : list (string * json)) : option Request :=
  if String.eqb method "get" then
    Some {| verb := "GET"; url := _urlfrombase self ep; headers := auth self;
            params := params_; data := NoData; verify := _verify self |}
  else if String.eqb method "delete" then
    Some {| verb := "DELETE"; url := _urlfrombase self ep; headers := auth self;
            params := params_; data := NoData; verify := _verify self |}
  else if String.eqb method "post" then
    Some {| verb := "POST"; url := _urlfrombase self ep; headers := auth self;
            params := []; data := data_; verify := _verify self |}
  else None.

(** [request], lines 40-57; returns the requestor with [body] assigned. *)
Definition request `{Runtime} (self : ScanAPIRequestor) (ep method : string)
    (data_ : payload) (params_ : list (string * json)) (jsonresponse : bool)
    : M ScanAPIRequestor :=
  do r <- match call self ep method data_ params_ with
          | Some req => http req
          | None => raise (ValueError "invalid request method")
          end;
  if negb (Z.eqb (status_code r) 200) then
    raise (RequestFailed (status_code r))
  else if jsonresponse then
    match json_loads (text r) with
    | Some j => ret (set_body self j)
    | None => raise (ValueError "No JSON object could be decoded")
    end
  else ret (set_body self (JStr (text r))).

(** [purge_scans], lines 59-61: [int(seconds)] is evaluated first. *)
Definition purge_scans `{Runtime} (self : ScanAPIRequestor) (seconds : string)
    : M (ScanAPIRequestor * json) :=
  match py_int seconds with
  | None => raise (ValueError "invalid literal for int()")
  | Some n =>
      do self' <- request self "scan/purge" "delete" NoData
                    [("olderthan", JInt n)] true;
      ret (self', body self')
  end.

End Requestor.

(** Top-level [purge_scans], lines 264-265, on the global [requestor]. *)
Definition purge_scans `{Runtime} (requestor : ScanAPIRequestor) (seconds : string)
    : M ScanAPIRequestor :=
  do p <- Requestor.purge_scans requestor seconds;
  do _ <- write_stdout (json_dumps (Some 4) (snd p) ++ nl);
  ret (fst p).

(** ** [ScanAPIServices] *)

Record ScanAPIServices : Type := {
  _content : ScanResultDocument;
  _sapiurl : string;
  _sapikey : string
}.

(** [entry['owner'] = o] on a host entry. *)
Definition set_owner (x : HostResult) (o : json) : HostResult :=
  {| hostname := hostname x; ipaddress := ipaddress x; os := os x;
     vulnerabilities := vulnerabilities x; scan_start := scan_start x;
     scan_end := scan_end x; credentialed_checks := credentialed_checks x;
     owner := Some o; exempt_vulnerabilities := exempt_vulnerabilities x;
     hfields := hfields x |}.

(** [d[k] = v] on a dict kept in insertion order. *)
Fixpoint dict_set (k : string) (v : json) (kv : list (string * json))
    : list (string * json) :=
  match kv with
  | [] => [(k, v)]
  | (k', v') :: rest =>
      if String.eqb k k' then (k', v) :: rest else (k', v') :: dict_set k v rest
  end.

Module Services.

Definition set_details (self : ScanAPIServices) (ds : list HostResult)
    : ScanAPIServices :=
  {| _content := {| zone := zone (_content self); details := ds;
                    completed := completed (_content self) |};
     _sapiurl := _sapiurl self; _sapikey := _sapikey self |}.

Definition indicator_request `{Runtime} (self : ScanAPIServices) (ind : json)
    : Request :=
  {| verb := "POST"; url := _sapiurl self ++ "/api/v1/indicator";
     headers := [("SERVICEAPIKEY", _sapikey self)]; params := [];
     data := Raw (json_dumps None ind); verify := true |}.

(** The body of the loop of [execute_indicators], lines 144-207. *)
Definition submit_indicator `{Runtime} (self : ScanAPIServices) (x : HostResult)
    : M unit :=
  do ts <- now;
  let ind := indicator (zone (_content self)) ts x in
  do r <- http (indicator_request self ind);
  if negb (Z.eqb (status_code r) 200) then
    write_stderr ("warning: serviceapi indicator post failed with code "
                  ++ pretty (status_code r) ++ nl)
  else ret tt.

Definition execute_indicators `{Runtime} (self : ScanAPIServices) : M unit :=
  for_each (details (_content self)) (submit_indicator self).

Definition owner_request (self : ScanAPIServices) (x : string) : Request :=
  {| verb := "GET"; url := _sapiurl self ++ "/api/v1/owner/hostname";
     headers := [("SERVICEAPIKEY", _sapikey self)];
     params := [("hostname", JStr x)]; data := NoData; verify := true |}.

Definition unset_info : json :=
  JDict [("operator", JStr "unset"); ("team", JStr "unset");
         ("triagekey", JStr "unset-unset")].

(** One iteration of [for x in hosts], lines 212-223. *)
Definition lookup_owner `{Runtime} (self : ScanAPIServices)
    (respmap : list (string * json)) (x : string) : M (list (string * json)) :=
  do r <- http (owner_request self x);
  if Z.eqb (status_code r) 200 then
    match json_loads (text r) with
    | Some j => ret (dict_set x j respmap)
    | None => raise (ValueError "No JSON object could be decoded")
    end
  else ret (dict_set x unset_info respmap).

(** The dict literal of lines 228-232, values evaluated in order. *)
Definition owner_object (info : json) : result json :=
  match getitem info "operator" with
  | Raise e => Raise e
  | Ok op =>
      match getitem info "team" with
      | Raise e => Raise e
      | Ok tm =>
          match getitem info "triagekey" with
          | Raise e => Raise e
          | Ok tk => Ok (JDict [("operator", op); ("team", tm); ("v2bkey", tk)])
          end
      end
  end.

(** One iteration of [for y in range(len(details))], lines 226-232. *)
Definition annotate_at (respmap : list (string * json)) (x : string)
    (ds : list HostResult) (y : nat) : M (list HostResult) :=
  match ds !! y with
  | None => raise (OtherError "list index out of range")
  | Some entry =>
      if negb (String.eqb (hostname entry) x) then ret ds
      else
        match assoc x respmap with
        | None => raise (KeyError x)
        | Some info =>
            do o <- lift (owner_object info);
            ret (<[y := set_owner entry o]> ds)
        end
  end.

(** One iteration of [for x in respmap], lines 225-232. *)
Definition annotate_host (respmap : list (string * json))
    (ds : list HostResult) (x : string) : M (list HostResult) :=
  fold_m (seq 0 (length ds)) (annotate_at respmap x) ds.

Definition execute_ownership `{Runtime} (self : ScanAPIServices)
    : M ScanAPIServices :=
  let hosts := set_iter (map hostname (details (_content self))) in
  do respmap <- fold_m hosts (lookup_owner self) [];
  do ds <- fold_m (dict_iter (map fst respmap)) (annotate_host respmap)
                  (details (_content self));
  ret (set_details self ds).

Definition execute `{Runtime} (self : ScanAPIServices) : M ScanResultDocument :=
  do _ <- execute_indicators self;
  do self' <- execute_ownership self;
  ret (_content self').

End Services.

(** ** Target filtering *)

(** netaddr: [IPAddress(s)], [IPNetwork(s)] and [ip in network]. *)
Class Netaddr : Type := {
  ip : Type;
  network : Type;
  IPAddress : string -> result ip;
  IPNetwork : string -> result network;
  contains : ip -> network -> bool
}.

Definition load_subnet_filters `{Runtime} (path : option string)
    : result (list string) :=
  match path with
  | None => Ok []
  | Some p => readlines p
  end.

(** The loop of lines 289-292. *)
Fixpoint in_filters `{Netaddr} (a : ip) (filters : list string) : result bool :=
  match filters with
  | [] => Ok false
  | i :: rest =>
      match IPNetwork i with
      | Raise e => Raise e
      | Ok n => if contains a n then Ok true else in_filters a rest
      end
  end.

Definition target_filter `{Netaddr} (t : string) (filters : list string)
    : result bool :=
  match IPAddress t with
  | Raise AddrFormatError => Ok false
  | Raise e => Raise e
  | Ok a => in_filters a filters
  end.

(** [[x for x in targets if not target_filter(x, filters)]], line 354. *)
Fixpoint filter_targets `{Netaddr} (targets filters : list string)
    : result (list string) :=
  match targets with
  | [] => Ok []
  | x :: rest =>
      match target_filter x filters with
      | Raise e => Raise e
      | Ok drop =>
          match filter_targets rest filters with
          | Raise e => Raise e
          | Ok kept => Ok (if negb drop then x :: kept else kept)
          end
      end
  end.

(** [s.split(',')] and [','.join(l)]. *)
Fixpoint split (sep : ascii) (s : string) : list string :=
  match s with
  | EmptyString => [EmptyString]
  | String c s' =>
      if Ascii.eqb c sep then EmptyString :: split sep s'
      else match split sep s' with
           | [] => [String c EmptyString]
           | w :: ws => String c w :: ws
           end
  end.

Fixpoint join (sep : string) (l : list string) : string :=
  match l with
  | [] => ""
  | [x] => x
  | x :: rest => x ++ sep ++ join sep rest
  end.

(** Lines 353-354 of [domain]. *)
Definition domain_filter `{Runtime} `{Netaddr} (targets : string)
    (filter_subnets : option string) : result string :=
  match load_subnet_filters filter_subnets with
  | Raise e => Raise e
  | Ok filters =>
      match filter_targets (split "," targets) filters with
      | Raise e => Raise e
      | Ok kept => Ok (join "," kept)
      end
  end.

(** ** A concrete runtime, for closed examples

    [int] on signed decimal numbers, a compact [json.dumps], a [json.loads]
    that recognises the documents of a given table, first-occurrence set
    order, insertion dict order, and IPv4 addresses with [address/prefix]
    networks. *)

Module Fixture.

Definition digit (c : ascii) : option Z :=
  let n := Z.of_nat (nat_of_ascii c) in
  if (48 <=? n) && (n <=? 57) then Some (n - 48) else None.

Fixpoint decimal_from (acc : Z) (s : string) : option Z :=
  match s with
  | EmptyString => Some acc
  | String c s' =>
      match digit c with
      | Some d => decimal_from (10 * acc + d) s'
      | None => None
      end
  end.

(** Non-empty strings of decimal digits. *)
Definition decimal (s : string) : option Z :=
  match s with
  | EmptyString => None
  | _ => decimal_from 0 s
  end.

(** [int(s)]: decimal digits after an optional sign, surrounding white
    space allowed. *)
Definition is_space (c : ascii) : bool :=
  existsb (Nat.eqb (nat_of_ascii c)) [32; 9; 10; 13; 11; 12]%nat.

Fixpoint ltrim (s : string) : string :=
  match s with
  | String c s' => if is_space c then ltrim s' else s
  | EmptyString => EmptyString
  end.

Fixpoint rtrim (s : string) : string :=
  match s with
  | EmptyString => EmptyString
  | String c s' =>
      match rtrim s' with
      | EmptyString => if is_space c then EmptyString else String c EmptyString
      | t => String c t
      end
  end.

Definition int_ws (s : string) : option Z :=
  match rtrim (ltrim s) with
  | String c t =>
      if Ascii.eqb c "-" then option_map Z.opp (decimal t)
      else if Ascii.eqb c "+" then decimal t
      else decimal (String c t)
  | EmptyString => None
  end.

Definition quote (s : string) : string :=
  String (ascii_of_nat 34) (s ++ String (ascii_of_nat 34) EmptyString).

Fixpoint dumps (j : json) : string :=
  match j with
  | JNull => "null"
  | JBool true => "true"
  | JBool false => "false"
  | JInt z => pretty z
  | JStr s => quote s
  | JList l => "[" ++ join ", " (map dumps l) ++ "]"
  | JDict kv =>
      "{" ++ join ", " (map (fun '(k, v) => quote k ++ ": " ++ dumps v) kv) ++ "}"
  end.

Definition loads (known : list json) (s : string) : option json :=
  find (fun j => String.eqb (dumps j) s) known.

Definition first_occurrences (l : list string) : list string :=
  rev (nodup string_dec (rev l)).

(** The runtime with remote services [svc], JSON documents [known] and
    files [files]. *)
Definition runtime (svc : list Request -> Request -> Response)
    (known : list json) (files : list (string * list string)) : Runtime :=
  {| json_loads := loads known;
     json_dumps := fun _ => dumps;
     py_int := int_ws;
     respond := svc;
     utcnow := fun _ => "2017-06-01T00:00:00+00:00";
     set_iter := first_occurrences;
     dict_iter := fun ks => ks;
     readlines := fun p =>
       match find (fun f => String.eqb (fst f) p) files with
       | Some f => Ok (snd f)
       | None => Raise IOError
       end |}.

(** IPv4 addresses as 32-bit numbers, networks as (address, prefix length). *)
Definition pack (a b c d : Z) : option Z :=
  if forallb (fun o => (0 <=? o) && (o <=? 255)) [a; b; c; d]
  then Some (Z.lor (Z.shiftl a 24) (Z.lor (Z.shiftl b 16) (Z.lor (Z.shiftl c 8) d)))
  else None.

(** A strict dotted quad of decimal numbers (netaddr's [INET_PTON] reading;
    the abbreviated, octal and hexadecimal forms of its legacy reading are
    no addresses here). *)
Definition octets (s : string) : option Z :=
  match map decimal (split "." s) with
  | [Some a; Some b; Some c; Some d] => pack a b c d
  | _ => None
  end.

Definition of_option {A} (o : option A) : result A :=
  match o with Some a => Ok a | None => Raise AddrFormatError end.

Definition has_slash (s : string) : bool :=
  existsb (Ascii.eqb "/") (list_ascii_of_string s).

(** [IPAddress(s)]: a string with a prefix is refused by a [ValueError], any
    other string that is no address by an [AddrFormatError]. *)
Definition address (s : string) : result Z :=
  if has_slash s then
    Raise (ValueError
             "IPAddress() does not support netmasks or subnet prefixes! See documentation for details.")
  else of_option (octets s).

(** The address of a network: one to four numbers, each read by [int] and
    the missing ones taken as 0, as netaddr expands a partial address; so a
    line that ends in a newline is read like the line without it. *)
Definition partial (s : string) : option Z :=
  match map int_ws (split "." s) with
  | [Some a] => pack a 0 0 0
  | [Some a; Some b] => pack a b 0 0
  | [Some a; Some b; Some c] => pack a b c 0
  | [Some a; Some b; Some c; Some d] => pack a b c d
  | _ => None
  end.

(** [addr.split('/', 1)] *)
Definition cut (s : string) : string * option string :=
  match split "/" s with
  | a :: b :: rest => (a, Some (join "/" (b :: rest)))
  | _ => (s, None)
  end.

(** The prefix length a netmask or, failing that, a hostmask stands for. *)
Definition prefix_of_mask (m : Z) : option Z :=
  let lengths := map Z.of_nat (seq 0 33) in
  match find (fun k => m =? 2 ^ 32 - 2 ^ (32 - k)) lengths with
  | Some k => Some k
  | None => find (fun k => m =? 2 ^ (32 - k) - 1) lengths
  end.

(** What follows the slash: a number read by [int], or else a mask. *)
Definition prefix (p : string) : result Z :=
  match int_ws p with
  | Some n => Ok n
  | None =>
      match address p with
      | Ok m => of_option (prefix_of_mask m)
      | Raise e => Raise e
      end
  end.

Definition cidr (s : string) : result (Z * Z) :=
  match partial (fst (cut s)) with
  | None => Raise AddrFormatError
  | Some v =>
      match snd (cut s) with
      | None => Ok (v, 32)
      | Some p =>
          match prefix p with
          | Ok n => if (0 <=? n) && (n <=? 32) then Ok (v, n)
                    else Raise AddrFormatError
          | Raise e => Raise e
          end
      end
  end.

Definition ipv4 : Netaddr :=
  {| ip := Z; network := Z * Z;
     IPAddress := address;
     IPNetwork := cidr;
     contains := fun a n =>
       Z.eqb (Z.shiftr a (32 - snd n)) (Z.shiftr (fst n) (32 - snd n)) |}.

(** Services: the owner of [h1] is known, every other owner lookup is a
    404; purging answers 200 with an empty list of scans; indicator posts
    are accepted. *)
Definition owner_h1 : json :=
  JDict [("operator", JStr "opsA"); ("team", JStr "teamA");
         ("triagekey", JStr "opsA-teamA")].

Definition has_param (k : string) (v : json) (r : Request) : bool :=
  match assoc k (params r) with
  | Some (JStr s) => match v with JStr s' => String.eqb s s' | _ => false end
  | _ => false
  end.

Definition services (_ : list Request) (r : Request) : Response :=
  if String.eqb (url r) "https://sapi/api/v1/owner/hostname" then
    if has_param "hostname" (JStr "h1") r
    then {| status_code := 200; text := dumps owner_h1 |}
    else {| status_code := 404; text := "not found" |}
  else if String.eqb (url r) "https://sapi/api/v1/indicator" then
    {| status_code := 200; text := "" |}
  else if String.eqb (url r) "https://scan/api/v1/scan/purge" then
    {| status_code := 200; text := "[]" |}
  else if String.eqb (url r) "https://scan/api/v1/policies" then
    {| status_code := 204; text := "" |}
  else {| status_code := 500; text := "" |}.

Definition rt : Runtime :=
  runtime services [owner_h1; JList []]
          [("subnets.txt", ["10.0.0.0/8" ++ nl; "not-a-subnet" ++ nl])].

Definition requestor : ScanAPIRequestor :=
  Requestor.init "https://scan" "secret" false.

Definition host (h : string) (addr : string) : HostResult :=
  {| hostname := h; ipaddress := addr; os := "linux";
     vulnerabilities := [mk_vuln "A" "high"; mk_vuln "B" "low"];
     scan_start := "t0"; scan_end := "t1"; credentialed_checks := true;
     owner := None; exempt_vulnerabilities := None;
     hfields := [("port", JInt 22)] |}.

Definition services_of (ds : list HostResult) : ScanAPIServices :=
  {| _content := {| zone := "dmz"; details := ds; completed := true |};
     _sapiurl := "https://sapi"; _sapikey := "k" |}.

End Fixture.

(** ** The rest of the client *)

(** [sys.exit(code)] raises [SystemExit], which nothing in the program
    catches. *)
Definition SystemExit (code : Z) : exn :=
  OtherError ("SystemExit: " ++ pretty code).

(** The truth value of a decoded value, as [not v] and [while not v] use it. *)
Definition truthy (j : json) : bool :=
  match j with
  | JNull => false
  | JBool b => b
  | JInt z => negb (Z.eqb z 0)
  | JStr s => negb (String.eqb s "")
  | JList l => match l with [] => false | _ => true end
  | JDict kv => match kv with [] => false | _ => true end
  end.

(** [for x in v]: the elements of a list, the keys of a dict, the characters
    of a string; other values are not iterable. *)
Definition iterate (j : json) : result (list json) :=
  match j with
  | JList l => Ok l
  | JDict kv => Ok (map (fun p => JStr (fst p)) kv)
  | JStr s => Ok (map (fun c => JStr (String c EmptyString)) (list_ascii_of_string s))
  | _ => Raise TypeError
  end.

(** A list comprehension whose element expression can raise. *)
Fixpoint map_result {A B} (f : A -> result B) (l : list A) : result (list B) :=
  match l with
  | [] => Ok []
  | x :: rest =>
      match f x with
      | Raise e => Raise e
      | Ok y =>
          match map_result f rest with
          | Raise e => Raise e
          | Ok ys => Ok (y :: ys)
          end
      end
  end.

(** [None] or a string, as a request parameter. *)
Definition opt_json (o : option string) : json :=
  match o with Some s => JStr s | None => JNull end.

(** Python functions whose result depends on the interpreter: [str.format]
    of a decoded value, [str.strip], and the text of
    [parser.print_help()]. *)
Class Pylib : Type := {
  py_str : json -> string;
  py_strip : string -> string;
  help_text : string
}.

(** *** [ScanAPIRequestor], lines 63-89 *)

Definition request_results `{Runtime} (self : ScanAPIRequestor) (scanid : json)
    (mincvss : option string) (nooutput : bool) : M (ScanAPIRequestor * json) :=
  let noflag := if nooutput then JStr "1" else JNull in
  do self' <- Requestor.request self "scan/results" "get" NoData
                [("scanid", scanid); ("mincvss", opt_json mincvss);
                 ("nooutput", noflag)] true;
  ret (self', body self').

Definition request_scan_completed `{Runtime} (self : ScanAPIRequestor)
    (scanid : json) : M (ScanAPIRequestor * json) :=
  do p <- request_results self scanid None false;
  do c <- lift (getitem (snd p) "completed");
  ret (fst p, c).

Definition request_results_csv `{Runtime} (self : ScanAPIRequestor)
    (scanid : json) : M (ScanAPIRequestor * json) :=
  do self' <- Requestor.request self "scan/results/csv" "get" NoData
                [("scanid", scanid)] false;
  ret (self', body self').

Definition start_scan `{Runtime} (self : ScanAPIRequestor)
    (targets policy : string) : M (ScanAPIRequestor * json) :=
  do self' <- Requestor.request self "scan" "post"
                (Form [("targets", JStr targets); ("policy", JStr policy)]) [] true;
  ret (self', body self').

Definition request_policies `{Runtime} (self : ScanAPIRequestor)
    : M (ScanAPIRequestor * json) :=
  do self' <- Requestor.request self "policies" "get" NoData [] true;
  ret (self', body self').

(** *** [ScanAPIMozDef], lines 91-128 *)

Record Asset : Type := {
  a_hostname : string;
  a_ipaddress : string;
  a_os : string;
  a_owner : option json
}.

Record SecurityEvent : Type := {
  ev_description : string;
  ev_sourcename : string;
  ev_zone : string;
  ev_version : Z;
  ev_utctimestamp : string;
  ev_asset : Asset;
  ev_vulnerabilities : list Vulnerability;
  ev_scan_start : string;
  ev_scan_end : string;
  ev_credentialed_checks : bool;
  ev_exempt_vulnerabilities : option json
}.

Record ScanAPIMozDef : Type := {
  _sourcename : string;
  _mozdef_url : string;
  _events : list SecurityEvent;
  _use_stdout : bool
}.

(** The typed records stand for decoded JSON objects: how a decoded result
    payload is read as a document (a payload that is no result document
    makes the code fail where it first misses a key; the model fails on
    reading it), and the objects a document and an event are dumped as. *)
Class Schema : Type := {
  read_document : json -> result ScanResultDocument;
  document_json : ScanResultDocument -> json;
  event_json : SecurityEvent -> json
}.

Fixpoint map_m {A B} (f : A -> M B) (l : list A) : M (list B) :=
  match l with
  | [] => ret []
  | x :: rest => do y <- f x; do ys <- map_m f rest; ret (y :: ys)
  end.

Module MozDef.

(** [_parse_result], lines 107-128: the optional keys are copied when the
    host entry has them. *)
Definition _parse_result `{Runtime} (sourcename : string) (result : HostResult)
    (zone_ : string) : M SecurityEvent :=
  do ts <- now;
  ret {| ev_description := "scanapi runscan mozdef emitter";
         ev_sourcename := sourcename;
         ev_zone := zone_;
         ev_version := 2;
         ev_utctimestamp := ts;
         ev_asset := {| a_hostname := hostname result;
                        a_ipaddress := ipaddress result;
                        a_os := os result;
                        a_owner := owner result |};
         ev_vulnerabilities := vulnerabilities result;
         ev_scan_start := scan_start result;
         ev_scan_end := scan_end result;
         ev_credentialed_checks := credentialed_checks result;
         ev_exempt_vulnerabilities := exempt_vulnerabilities result |}.

(** [__init__] with the default source name. *)
Definition init `{Runtime} (resp : ScanResultDocument) (mozdef : string)
    : M ScanAPIMozDef :=
  do events <- map_m (fun x => _parse_result "scanapi" x (zone resp)) (details resp);
  ret {| _sourcename := "scanapi"; _mozdef_url := mozdef; _events := events;
         _use_stdout := String.eqb mozdef "stdout" |}.

Definition event_request `{Runtime} `{Schema} (self : ScanAPIMozDef)
    (x : SecurityEvent) : Request :=
  {| verb := "POST"; url := _mozdef_url self; headers := []; params := [];
     data := Raw (json_dumps None (event_json x)); verify := true |}.

(** [post], lines 100-105: the responses are not looked at. *)
Definition post `{Runtime} `{Schema} (self : ScanAPIMozDef) : M unit :=
  if _use_stdout self then
    write_stdout (json_dumps (Some 4) (JList (map event_json (_events self))) ++ nl)
  else
    for_each (_events self) (fun x => do _ <- http (event_request self x); ret tt).

End MozDef.

(** *** The commands, lines 236-274 and 294-299 *)

Definition policy_line `{Pylib} (x : json) : result string :=
  match getitem x "id" with
  | Raise e => Raise e
  | Ok i =>
      match getitem x "name" with
      | Raise e => Raise e
      | Ok n =>
          match getitem x "description" with
          | Raise e => Raise e
          | Ok d =>
              Ok ("id=" ++ py_str i ++ " name='" ++ py_str n
                  ++ "' description='" ++ py_str d ++ "'" ++ nl)
          end
      end
  end.

Definition get_policies `{Runtime} `{Pylib} (requestor : ScanAPIRequestor)
    : M ScanAPIRequestor :=
  do p <- request_policies requestor;
  do xs <- lift (iterate (snd p));
  do _ <- for_each xs (fun x => do line <- lift (policy_line x); write_stdout line);
  ret (fst p).

(** [policy in names] for a string [policy]: a string equals no value of
    another type. *)
Definition policy_in (policy : string) (names : list json) : bool :=
  existsb (fun n => match n with JStr s => String.eqb policy s | _ => false end)
          names.

Definition run_scan `{Runtime} (requestor : ScanAPIRequestor)
    (targets policy : string) : M (ScanAPIRequestor * json) :=
  do p <- request_policies requestor;
  do xs <- lift (iterate (snd p));
  do names <- lift (map_result (fun x => getitem x "name") xs);
  if negb (policy_in policy names) then
    do _ <- write_stderr ("Error: policy " ++ policy ++ " not found" ++ nl);
    raise (SystemExit 1)
  else
    do q <- start_scan (fst p) targets policy;
    do scanid <- lift (getitem (snd q) "scanid");
    ret (fst q, scanid).

Definition get_results `{Runtime} `{Schema} (getenv : string -> option string)
    (requestor : ScanAPIRequestor) (scanid : json) (mozdef mincvss
    serviceapi : option string) (csv nooutput : bool) : M ScanAPIRequestor :=
  do sapikey <-
    match serviceapi with
    | None => ret ""
    | Some _ =>
        match getenv "SERVICEAPIKEY" with
        | Some k => ret k
        | None =>
            do _ <- write_stderr
                      ("Error: serviceapi integration requested but SERVICEAPIKEY not found in environment"
                       ++ nl);
            raise (SystemExit 1)
        end
    end;
  do c <- request_scan_completed requestor scanid;
  if negb (truthy (snd c)) then
    do _ <- write_stdout ("Scan incomplete" ++ nl);
    ret (fst c)
  else if csv then
    do t <- request_results_csv (fst c) scanid;
    do _ <- match snd t with
            | JStr s => write_stdout s
            | _ => raise TypeError
            end;
    ret (fst t)
  else
    do r <- request_results (fst c) scanid mincvss nooutput;
    do _ <-
      match serviceapi with
      | None =>
          match mozdef with
          | None => write_stdout (json_dumps (Some 4) (snd r) ++ nl)
          | Some dest =>
              do doc <- lift (read_document (snd r));
              do m <- MozDef.init doc dest;
              MozDef.post m
          end
      | Some sapi =>
          do doc <- lift (read_document (snd r));
          do doc' <- Services.execute
                       {| _content := doc; _sapiurl := sapi; _sapikey := sapikey |};
          match mozdef with
          | None => write_stdout (json_dumps (Some 4) (document_json doc') ++ nl)
          | Some dest =>
              do m <- MozDef.init doc' dest;
              MozDef.post m
          end
      end;
    ret (fst r).

(** [config_from_env]: [str] of the [KeyError] is the quoted name. *)
Definition config_from_env (environ : string -> option string)
    : M (string * string) :=
  let missing := fun v =>
    do _ <- write_stderr ("Error: environment variable '" ++ v ++ "' not found" ++ nl);
    raise (SystemExit 1) in
  match environ "SCANAPIURL" with
  | None => missing "SCANAPIURL"
  | Some apiurl =>
      match environ "SCANAPIKEY" with
      | None => missing "SCANAPIKEY"
      | Some apikey => ret (apiurl, apikey)
      end
  end.

(** *** [domain], lines 301-367 *)

(** The namespace [parse_args] returns. *)
Record Args : Type := {
  noverify : bool;
  csv : bool;
  filter_subnets : option string;
  mozdef : option string;
  mincvss : option string;
  nooutput : bool;
  serviceapi : option string;
  s : option string;
  p : option string;
  D : option string;
  f : bool;
  P : bool;
  r : option string
}.

(** [[x for x in lines if x[0] != '#']], the strip left to the caller. *)
Fixpoint uncommented (lines : list string) : result (list string) :=
  match lines with
  | [] => Ok []
  | x :: rest =>
      match x with
      | EmptyString => Raise (OtherError "IndexError: string index out of range")
      | String c _ =>
          match uncommented rest with
          | Raise e => Raise e
          | Ok kept => Ok (if Ascii.eqb c "#" then kept else x :: kept)
          end
      end
  end.

(** Lines 346-352: the targets are the lines of the file named by [-s], or
    the argument itself when no such file can be opened. *)
Definition read_targets `{Runtime} `{Pylib} (arg : string) : result string :=
  match readlines arg with
  | Ok lines =>
      match uncommented lines with
      | Ok kept => Ok (join "," (map py_strip kept))
      | Raise e => Raise e
      end
  | Raise IOError => Ok arg
  | Raise e => Raise e
  end.

(** [while not requestor.request_scan_completed(scanid): time.sleep(15)],
    bounded by [fuel] polls; the sleep changes nothing in the world of
    requests and streams.  [None] when the fuel runs out. *)
Fixpoint wait_completed `{Runtime} (fuel : nat) (requestor : ScanAPIRequestor)
    (scanid : json) : M (option ScanAPIRequestor) :=
  match fuel with
  | O => ret None
  | S n =>
      do c <- request_scan_completed requestor scanid;
      if negb (truthy (snd c)) then wait_completed n (fst c) scanid
      else ret (Some (fst c))
  end.

(** The [-s] branch, lines 343-362.  [false] when the fuel runs out. *)
Definition scan_command `{Runtime} `{Netaddr} `{Pylib} `{Schema}
    (environ : string -> option string) (fuel : nat)
    (requestor : ScanAPIRequestor) (args : Args) (targets_arg : string) : M bool :=
  match p args with
  | None =>
      do _ <- write_stderr ("Error: policy must be specified with -p" ++ nl);
      raise (SystemExit 1)
  | Some policy =>
      do targets <- lift (read_targets targets_arg);
      do targets <- lift (domain_filter targets (filter_subnets args));
      do started <- run_scan requestor targets policy;
      if f args then
        do waited <- wait_completed fuel (fst started) (snd started);
        match waited with
        | None => ret false
        | Some requestor' =>
            do _ <- get_results environ requestor' (snd started) (mozdef args)
                      (mincvss args) (serviceapi args) (csv args) (nooutput args);
            ret true
        end
      else
        match snd started with
        | JStr scanid => do _ <- write_stdout (scanid ++ nl); ret true
        | _ => raise TypeError
        end
  end.

(** [domain] after [parse_args].  It leaves through [sys.exit]; it returns
    only when the polling fuel runs out. *)
Definition domain `{Runtime} `{Netaddr} `{Pylib} `{Schema}
    (environ : string -> option string) (fuel : nat) (args : Args) : M unit :=
  do ecfg <- config_from_env environ;
  let requestor := Requestor.init (fst ecfg) (snd ecfg) (noverify args) in
  do finished <-
    (if P args then do _ <- get_policies requestor; ret true
     else match r args with
          | Some scanid =>
              do _ <- get_results environ requestor (JStr scanid) (mozdef args)
                        (mincvss args) (serviceapi args) (csv args) (nooutput args);
              ret true
          | None =>
              match D args with
              | Some seconds => do _ <- purge_scans requestor seconds; ret true
              | None =>
                  match s args with
                  | Some targets_arg =>
                      scan_command environ fuel requestor args targets_arg
                  | None =>
                      do _ <- write_stdout ("Must specify something to do" ++ nl ++ nl);
                      do _ <- write_stdout help_text;
                      raise (SystemExit 1)
                  end
              end
          end);
  if (finished : bool) then raise (SystemExit 0) else ret tt.

(** What [parser.parse_args()] (line 332) does with the command line:
    it returns the namespace of the options, or leaves through [sys.exit]
    after writing to standard output and standard error (the help text and
    status 0 for [-h], the usage and the error with status 2 for a command
    line it rejects). *)
Inductive Parsed : Type :=
| Namespace (args : Args)
| Exits (code : Z) (out err : list string).

Definition parse_args (parsed : Parsed) : M Args :=
  match parsed with
  | Namespace args => ret args
  | Exits code out err =>
      do _ <- for_each out write_stdout;
      do _ <- for_each err write_stderr;
      raise (SystemExit code)
  end.

(** [domain] from its first effect on: the command line is parsed (line
    332) before the environment is read (line 333). *)
Definition domain_of_command_line `{Runtime} `{Netaddr} `{Pylib} `{Schema}
    (environ : string -> option string) (fuel : nat) (parsed : Parsed)
    : M unit :=
  do args <- parse_args parsed;
  domain environ fuel args.

(** *** The calls these functions make, and the pure part of an event *)

Definition results_request (self : ScanAPIRequestor) (scanid : json)
    (mincvss : option string) (nooutput : bool) : Request :=
  {| verb := "GET"; url := Requestor._urlfrombase self "scan/results";
     headers := Requestor.auth self;
     params := [("scanid", scanid); ("mincvss", opt_json mincvss);
                ("nooutput", if nooutput then JStr "1" else JNull)];
     data := NoData; verify := _verify self |}.

Definition csv_request (self : ScanAPIRequestor) (scanid : json) : Request :=
  {| verb := "GET"; url := Requestor._urlfrombase self "scan/results/csv";
     headers := Requestor.auth self; params := [("scanid", scanid)];
     data := NoData; verify := _verify self |}.

Definition policies_request (self : ScanAPIRequestor) : Request :=
  {| verb := "GET"; url := Requestor._urlfrombase self "policies";
     headers := Requestor.auth self; params := [];
     data := NoData; verify := _verify self |}.

Definition scan_request (self : ScanAPIRequestor) (targets policy : string)
    : Request :=
  {| verb := "POST"; url := Requestor._urlfrombase self "scan";
     headers := Requestor.auth self; params := [];
     data := Form [("targets", JStr targets); ("policy", JStr policy)];
     verify := _verify self |}.

(** The event [_parse_result] builds at time [ts]. *)
Definition event_of (sourcename ts zone_ : string) (x : HostResult)
    : SecurityEvent :=
  {| ev_description := "scanapi runscan mozdef emitter";
     ev_sourcename := sourcename;
     ev_zone := zone_;
     ev_version := 2;
     ev_utctimestamp := ts;
     ev_asset := {| a_hostname := hostname x; a_ipaddress := ipaddress x;
                    a_os := os x; a_owner := owner x |};
     ev_vulnerabilities := vulnerabilities x;
     ev_scan_start := scan_start x;
     ev_scan_end := scan_end x;
     ev_credentialed_checks := credentialed_checks x;
     ev_exempt_vulnerabilities := exempt_vulnerabilities x |}.

(** A 200 answer whose body decodes to [j]. *)
Definition answers `{Runtime} (hist : list Request) (req : Request) (j : json)
    : Prop :=
  status_code (respond hist req) = 200
  /\ json_loads (text (respond hist req)) = Some j.

(** Every entry of a policy list has the keys [get_policies] prints. *)
Definition printable `{Pylib} (ps : list json) : Prop :=
  Forall (fun x => is_ok (policy_line x) = true) ps.

(** ** A scan service for closed examples

    Two policies; a scan is reported complete from the third poll on; the
    ownership service of [Fixture]; an event collector that answers 503. *)

Module Station.

Definition policies : json :=
  JList [JDict [("id", JInt 1); ("name", JStr "default");
                ("description", JStr "Default policy")];
         JDict [("id", JInt 2); ("name", JStr "deep");
                ("description", JStr "Deep scan")]].

Definition started : json := JDict [("scanid", JStr "scan-7")].

Definition pending : json := JDict [("completed", JBool false)].

Definition document : ScanResultDocument :=
  {| zone := "dmz";
     details := [Fixture.host "h1" "10.0.0.1"; Fixture.host "h2" "10.0.0.2";
                 Fixture.host "h1" "10.0.0.3"];
     completed := true |}.

(** The typed records as the JSON objects they stand for.  A key the
    enrichment adds ([owner]) comes last, as in a Python dict. *)
Definition optional (k : string) (o : option json) : list (string * json) :=
  match o with Some v => [(k, v)] | None => [] end.

Definition vuln_json (v : Vulnerability) : json :=
  JDict ([("name", JStr (name v)); ("risk", JStr (risk v))] ++ vfields v).

Definition host_json (x : HostResult) : json :=
  JDict ([("hostname", JStr (hostname x)); ("ipaddress", JStr (ipaddress x));
          ("os", JStr (os x));
          ("vulnerabilities", JList (map vuln_json (vulnerabilities x)));
          ("scan_start", JStr (scan_start x)); ("scan_end", JStr (scan_end x));
          ("credentialed_checks", JBool (credentialed_checks x))]
         ++ optional "exempt_vulnerabilities" (exempt_vulnerabilities x)
         ++ hfields x
         ++ optional "owner" (owner x)).

Definition doc_json (d : ScanResultDocument) : json :=
  JDict [("completed", JBool (completed d));
         ("results", JDict [("zone", JStr (zone d));
                            ("details", JList (map host_json (details d)))])].

(** The answer of the scan service for the finished scan: the three host
    entries of [document], each with its address, system, vulnerabilities,
    scan times, credential flag and port. *)
Definition finished : json := Eval cbv in doc_json document.

Definition polls (hist : list Request) : nat :=
  length (List.filter
            (fun q => String.eqb (url q) "https://scan/api/v1/scan/results") hist).

Definition services (hist : list Request) (q : Request) : Response :=
  if String.eqb (url q) "https://scan/api/v1/policies" then
    {| status_code := 200; text := Fixture.dumps policies |}
  else if String.eqb (url q) "https://scan/api/v1/scan" then
    {| status_code := 200; text := Fixture.dumps started |}
  else if String.eqb (url q) "https://scan/api/v1/scan/results" then
    {| status_code := 200;
       text := Fixture.dumps (if Nat.ltb (polls hist) 2 then pending else finished) |}
  else if String.eqb (url q) "https://scan/api/v1/scan/results/csv" then
    {| status_code := 200; text := "host,name,risk" |}
  else if String.eqb (url q) "https://mozdef/events" then
    {| status_code := 503; text := "" |}
  else Fixture.services hist q.

Definition rt : Runtime :=
  Fixture.runtime services
    [policies; started; pending; finished; Fixture.owner_h1]
    [("targets.txt", ["# lab hosts" ++ nl; "10.1.1.1" ++ nl; nl;
                      "  # web" ++ nl; "web.example"]);
     ("subnets.txt", ["10.0.0.0/8" ++ nl])].

Definition is_space (c : ascii) : bool :=
  existsb (Nat.eqb (nat_of_ascii c)) [32; 9; 10; 13; 11; 12]%nat.

Fixpoint lstrip (s : string) : string :=
  match s with
  | String c s' => if is_space c then lstrip s' else s
  | EmptyString => EmptyString
  end.

Fixpoint rstrip (s : string) : string :=
  match s with
  | EmptyString => EmptyString
  | String c s' =>
      match rstrip s' with
      | EmptyString => if is_space c then EmptyString else String c EmptyString
      | t => String c t
      end
  end.

Definition lib : Pylib :=
  {| py_str := fun j => match j with
                        | JStr s => s
                        | JInt z => pretty z
                        | _ => Fixture.dumps j
                        end;
     py_strip := fun s => rstrip (lstrip s);
     help_text := "usage: runscan [-h] ..." |}.

(** Reading a decoded payload as the typed records: a missing key is the
    [KeyError] of that key, a value of another type than the record has is
    a [TypeError]. *)
Definition and_then {A B} (r : result A) (k : A -> result B) : result B :=
  match r with Ok a => k a | Raise e => Raise e end.

Definition as_str (j : json) : result string :=
  match j with JStr x => Ok x | _ => Raise TypeError end.

Definition as_bool (j : json) : result bool :=
  match j with JBool b => Ok b | _ => Raise TypeError end.

Definition as_list (j : json) : result (list json) :=
  match j with JList l => Ok l | _ => Raise TypeError end.

Definition items (j : json) : result (list (string * json)) :=
  match j with JDict kv => Ok kv | _ => Raise TypeError end.

Definition without (ks : list string) (kv : list (string * json))
    : list (string * json) :=
  List.filter (fun e => negb (existsb (String.eqb (fst e)) ks)) kv.

Fixpoint read_each {A} (f : json -> result A) (l : list json)
    : result (list A) :=
  match l with
  | [] => Ok []
  | j :: rest =>
      and_then (f j) (fun a =>
      and_then (read_each f rest) (fun others => Ok (a :: others)))
  end.

Definition read_vuln (j : json) : result Vulnerability :=
  and_then (items j) (fun kv =>
  and_then (and_then (getitem j "name") as_str) (fun n =>
  and_then (and_then (getitem j "risk") as_str) (fun k =>
  Ok {| name := n; risk := k; vfields := without ["name"; "risk"] kv |}))).

Definition read_host (j : json) : result HostResult :=
  and_then (items j) (fun kv =>
  and_then (and_then (getitem j "hostname") as_str) (fun h =>
  and_then (and_then (getitem j "ipaddress") as_str) (fun a =>
  and_then (and_then (getitem j "os") as_str) (fun o =>
  and_then (and_then (and_then (getitem j "vulnerabilities") as_list)
                     (read_each read_vuln)) (fun vs =>
  and_then (and_then (getitem j "scan_start") as_str) (fun t0 =>
  and_then (and_then (getitem j "scan_end") as_str) (fun t1 =>
  and_then (and_then (getitem j "credentialed_checks") as_bool) (fun cc =>
  Ok {| hostname := h; ipaddress := a; os := o; vulnerabilities := vs;
        scan_start := t0; scan_end := t1; credentialed_checks := cc;
        owner := assoc "owner" kv;
        exempt_vulnerabilities := assoc "exempt_vulnerabilities" kv;
        hfields := without ["hostname"; "ipaddress"; "os"; "vulnerabilities";
                            "scan_start"; "scan_end"; "credentialed_checks";
                            "owner"; "exempt_vulnerabilities"] kv |})))))))).

Definition read_doc (j : json) : result ScanResultDocument :=
  and_then (getitem j "results") (fun res =>
  and_then (and_then (getitem res "zone") as_str) (fun z =>
  and_then (and_then (and_then (getitem res "details") as_list)
                     (read_each read_host)) (fun ds =>
  and_then (and_then (getitem j "completed") as_bool) (fun c =>
  Ok {| zone := z; details := ds; completed := c |})))).

(** The event of [_parse_result], keys in the order of lines 108-127. *)
Definition ev_json (e : SecurityEvent) : json :=
  JDict ([("description", JStr (ev_description e));
          ("sourcename", JStr (ev_sourcename e));
          ("zone", JStr (ev_zone e));
          ("version", JInt (ev_version e));
          ("utctimestamp", JStr (ev_utctimestamp e));
          ("asset",
           JDict ([("hostname", JStr (a_hostname (ev_asset e)));
                   ("ipaddress", JStr (a_ipaddress (ev_asset e)));
                   ("os", JStr (a_os (ev_asset e)))]
                  ++ optional "owner" (a_owner (ev_asset e))));
          ("vulnerabilities", JList (map vuln_json (ev_vulnerabilities e)));
          ("scan_start", JStr (ev_scan_start e));
          ("scan_end", JStr (ev_scan_end e));
          ("credentialed_checks", JBool (ev_credentialed_checks e))]
         ++ optional "exempt_vulnerabilities" (ev_exempt_vulnerabilities e)).

Definition schema : Schema :=
  {| read_document := read_doc;
     document_json := doc_json;
     event_json := ev_json |}.

Definition requestor : ScanAPIRequestor :=
  Requestor.init "https://scan" "secret" false.

Definition environ (v : string) : option string :=
  if String.eqb v "SCANAPIURL" then Some "https://scan"
  else if String.eqb v "SCANAPIKEY" then Some "secret"
  else if String.eqb v "SERVICEAPIKEY" then Some "k"
  else None.

Definition no_args : Args :=
  {| noverify := false; csv := false; filter_subnets := None; mozdef := None;
     mincvss := None; nooutput := false; serviceapi := None; s := None;
     p := None; D := None; f := false; P := false; r := None |}.

End Station.

(** The world after [lines] were written to standard output, and after
    [msgs] were written to standard error. *)
Definition prints (w : World) (lines : list string) : World :=
  {| sent := sent w; stdout := stdout w ++ lines; stderr := stderr w |}.

Definition warns (w : World) (msgs : list string) : World :=
  {| sent := sent w; stdout := stdout w; stderr := stderr w ++ msgs |}.

(** The call [post] makes for an event sent to [dest]. *)
Definition event_post `{Runtime} `{Schema} (dest : string) (x : SecurityEvent)
    : Request :=
  {| verb := "POST"; url := dest; headers := []; params := [];
     data := Raw (json_dumps None (event_json x)); verify := true |}.

(** What an event takes over from its host entry. *)
Definition carries (x : HostResult) (ev : SecurityEvent) : Prop :=
  a_hostname (ev_asset ev) = hostname x
  /\ a_ipaddress (ev_asset ev) = ipaddress x
  /\ a_os (ev_asset ev) = os x
  /\ a_owner (ev_asset ev) = owner x
  /\ ev_vulnerabilities ev = vulnerabilities x
  /\ ev_scan_start ev = scan_start x
  /\ ev_scan_end ev = scan_end x
  /\ ev_credentialed_checks ev = credentialed_checks x
  /\ ev_exempt_vulnerabilities ev = exempt_vulnerabilities x.

(** The answer to a completion poll is a decoded object whose [completed]
    value has the truth value [b]. *)
Definition poll_says `{Runtime} (hist : list Request) (req : Request) (b : bool)
    : Prop :=
  exists j c, answers hist req j /\ getitem j "completed" = Ok c /\ truthy c = b.

(** A filter entry parses and contains the address. *)
Definition matches `{Netaddr} (a : ip) (i : string) : bool :=
  match IPNetwork i with
  | Ok n => contains a n
  | Raise _ => false
  end.

(** ** Notions used to state the properties *)

(** A risk label with a bucket of its own. *)
Definition recognized (r : string) : bool :=
  existsb (String.eqb r) ["critical"; "high"; "medium"; "low"].

(** The entries whose name does not occur earlier in the list ([earlier]
    holds the names met so far). *)
Fixpoint first_entries_from (earlier : list string) (vs : list Vulnerability)
    : list Vulnerability :=
  match vs with
  | [] => []
  | v :: rest =>
      if seen (name v) earlier then first_entries_from (name v :: earlier) rest
      else v :: first_entries_from (name v :: earlier) rest
  end.

Definition first_entries (vs : list Vulnerability) : list Vulnerability :=
  first_entries_from [] vs.

(** How many entries carry the risk label [r]. *)
Definition count_risk (r : string) (vs : list Vulnerability) : Z :=
  Z.of_nat (length (List.filter (fun v => String.eqb (risk v) r) vs)).

(** The largest ordinal among all the entries, and at least the initial 1. *)
Definition max_ordinal (vs : list Vulnerability) : Z :=
  fold_right (fun v m => Z.max (ordinal (risk v)) m) 1 vs.

(** The bucket of a risk label incremented. *)
Definition count_in (r : string) (d : Details) : Details :=
  if String.eqb r "critical" then incr_maximum d
  else if String.eqb r "high" then incr_high d
  else if String.eqb r "medium" then incr_medium d
  else if String.eqb r "low" then incr_low d
  else d.

(** The OwnerInfo a lookup response stands for: the decoded body of a 200,
    the unset default of anything else. *)
Definition info_of `{Runtime} (r : Response) : option json :=
  if Z.eqb (status_code r) 200 then json_loads (text r)
  else Some Services.unset_info.

Definition unset_owner : json :=
  JDict [("operator", JStr "unset"); ("team", JStr "unset");
         ("v2bkey", JStr "unset-unset")].

(** The response to the lookup of [h] made when its turn comes in the loop
    over [hosts], [hist] being the requests made before the loop. *)
Fixpoint lookup_answer `{Runtime} (self : ScanAPIServices) (hist : list Request)
    (hosts : list string) (h : string) : Response :=
  match hosts with
  | [] => respond hist (Services.owner_request self h)
  | x :: rest =>
      if String.eqb x h then respond hist (Services.owner_request self x)
      else lookup_answer self (hist ++ [Services.owner_request self x]) rest h
  end.

(** Every 200 answer of the ownership service decodes to an object with
    the keys [operator], [team] and [triagekey]. *)
Definition owner_service_ok `{Runtime} (self : ScanAPIServices) : Prop :=
  forall hist h,
    status_code (respond hist (Services.owner_request self h)) = 200 ->
    exists j o,
      json_loads (text (respond hist (Services.owner_request self h))) = Some j
      /\ Services.owner_object j = Ok o.

(** The owner object built from a lookup response. *)
Definition owner_of_answer `{Runtime} (r : Response) : json :=
  match info_of r with
  | Some info =>
      match Services.owner_object info with
      | Ok o => o
      | Raise _ => JNull
      end
  | None => JNull
  end.

(** The world after the requests [reqs] have been made. *)
Definition sends (w : World) (reqs : list Request) : World :=
  {| sent := sent w ++ reqs; stdout := stdout w; stderr := stderr w |}.

(** A host entry after the annotation pass for the key [x], and after the
    passes for all the keys [ks], [own] giving the owner object of a key. *)
Definition annotated (own : string -> json) (x : string) (e : HostResult)
    : HostResult :=
  if String.eqb (hostname e) x then set_owner e (own x) else e.

Definition annotated_all (own : string -> json) (ks : list string)
    (e : HostResult) : HostResult :=
  if seen (hostname e) ks then set_owner e (own (hostname e)) else e.

(** The call [purge_scans] makes for the integer [n]. *)
Definition purge_request (self : ScanAPIRequestor) (n : Z) : Request :=
  {| verb := "DELETE"; url := Requestor._urlfrombase self "scan/purge";
     headers := Requestor.auth self; params := [("olderthan", JInt n)];
     data := NoData; verify := _verify self |}.

(** A target is excluded when the filter answers [True] for it. *)
Definition excluded `{Netaddr} (filters : list string) (t : string) : bool :=
  match target_filter t filters with
  | Ok true => true
  | _ => false
  end.

(** A filter entry that parses and does not contain the address. *)
Definition passes `{Netaddr} (a : ip) (i : string) : Prop :=
  exists n, IPNetwork i = Ok n /\ contains a n = false.

(** The address of a target parses, or fails the way [target_filter]
    catches. *)
Definition plain_target `{Netaddr} (t : string) : Prop :=
  match IPAddress t with
  | Ok _ => True
  | Raise AddrFormatError => True
  | Raise _ => False
  end.

(** * Properties *)

(** ** Indicator computation *)

Section Indicators.

Lemma scan_vulnerability_spec (t : Tally) (v : Vulnerability) :
  scan_vulnerability t v =
    {| level := Z.max (level t) (ordinal (risk v));
       seentitles := seentitles t ++ [name v];
       counts := if seen (name v) (seentitles t) then counts t
                 else count_in (risk v) (counts t) |}.
Proof.
  unfold scan_vulnerability, ordinal, count_in.
  destruct (seen (name v) (seentitles t)); cbn [negb];
    repeat (destruct (String.eqb (risk v) _));
    f_equal;
    match goal with
    | |- context [Z.gtb ?a ?b] => destruct (Z.gtb_spec a b); lia
    end.
Qed.

Lemma scan_app (vs ws : list Vulnerability) (t : Tally) :
  scan_vulnerabilities (vs ++ ws) t
  = scan_vulnerabilities ws (scan_vulnerabilities vs t).
Proof. apply fold_left_app. Qed.

Lemma seen_app (n : string) (l1 l2 : list string) :
  seen n (l1 ++ l2) = seen n l1 || seen n l2.
Proof. apply existsb_app. Qed.

Lemma seen_In (n : string) (l : list string) : seen n l = true <-> In n l.
Proof.
  unfold seen. rewrite existsb_exists. split.
  - intros (m & Hm & E). apply String.eqb_eq in E. now subst.
  - intros Hn. exists n. split; [assumption | apply String.eqb_refl].
Qed.

Lemma ordinal_range (r : string) : 0 <= ordinal r <= 4.
Proof. unfold ordinal. repeat (destruct (String.eqb r _)); lia. Qed.

Lemma ordinal_unrecognized (r : string) :
  recognized r = false -> ordinal r = 0 /\ forall d, count_in r d = d.
Proof.
  unfold recognized, ordinal, count_in. cbn.
  repeat (destruct (String.eqb r _); cbn; try discriminate). auto.
Qed.

(** The running level is a maximum over every entry, in whatever state
    the names are. *)
Lemma level_scan (vs : list Vulnerability) (t : Tally) (b : Z) :
  b <= level t ->
  level (scan_vulnerabilities vs t)
  = Z.max (level t) (fold_right (fun v m => Z.max (ordinal (risk v)) m) b vs).
Proof.
  revert t. induction vs as [|v vs IH]; intros t Hb; cbn.
  - lia.
  - unfold scan_vulnerabilities in IH. rewrite IH.
    + rewrite scan_vulnerability_spec. cbn. lia.
    + rewrite scan_vulnerability_spec. cbn. lia.
Qed.

Lemma max_ordinal_ge (vs : list Vulnerability) : 1 <= max_ordinal vs.
Proof. unfold max_ordinal. induction vs; cbn; lia. Qed.

Lemma level_host_tally (x : HostResult) :
  level (host_tally x) = max_ordinal (vulnerabilities x).
Proof.
  unfold host_tally. rewrite (level_scan _ _ 1) by (cbn; lia).
  fold (max_ordinal (vulnerabilities x)).
  pose proof (max_ordinal_ge (vulnerabilities x)). cbn. lia.
Qed.

Lemma counts_scan (vs : list Vulnerability) (t : Tally) (earlier : list string) :
  (forall n, seen n earlier = seen n (seentitles t)) ->
  counts (scan_vulnerabilities vs t)
  = fold_left (fun d v => count_in (risk v) d)
              (first_entries_from earlier vs) (counts t).
Proof.
  revert t earlier. induction vs as [|v vs IH]; intros t earlier Hsame; cbn.
  - reflexivity.
  - unfold scan_vulnerabilities in IH.
    rewrite (IH _ (name v :: earlier)).
    + rewrite scan_vulnerability_spec. cbn [counts].
      rewrite <- Hsame. now destruct (seen (name v) earlier).
    + intros n. rewrite scan_vulnerability_spec. cbn [seentitles].
      rewrite seen_app, <- Hsame. cbn. rewrite orb_false_r. apply orb_comm.
Qed.

Lemma count_in_fold (l : list Vulnerability) (d : Details) :
  let d' := fold_left (fun d v => count_in (risk v) d) l d in
  maximum d' = maximum d + count_risk "critical" l
  /\ high d' = high d + count_risk "high" l
  /\ medium d' = medium d + count_risk "medium" l
  /\ low d' = low d + count_risk "low" l
  /\ coverage d' = coverage d.
Proof.
  revert d. unfold count_risk.
  induction l as [|v l IH]; intros d; cbn zeta.
  - cbn. repeat split; lia.
  - cbn [fold_left List.filter].
    specialize (IH (count_in (risk v) d)). cbn zeta in IH.
    destruct IH as (E1 & E2 & E3 & E4 & E5).
    rewrite E1, E2, E3, E4, E5. clear E1 E2 E3 E4 E5. unfold count_in.
    destruct (String.eqb_spec (risk v) "critical") as [E|_];
      [rewrite ?E; cbn; repeat split; lia|].
    destruct (String.eqb_spec (risk v) "high") as [E|_];
      [rewrite ?E; cbn; repeat split; lia|].
    destruct (String.eqb_spec (risk v) "medium") as [E|_];
      [rewrite ?E; cbn; repeat split; lia|].
    destruct (String.eqb_spec (risk v) "low") as [E|_];
      [rewrite ?E; cbn; repeat split; lia|].
    repeat split; lia.
Qed.

Lemma buckets_host_tally (x : HostResult) :
  let firsts := first_entries (vulnerabilities x) in
  buckets (counts (host_tally x))
  = (count_risk "critical" firsts, count_risk "high" firsts,
     count_risk "medium" firsts, count_risk "low" firsts)
  /\ coverage (counts (host_tally x)) = false.
Proof.
  cbn zeta. unfold host_tally, first_entries.
  rewrite (counts_scan _ _ []) by reflexivity.
  destruct (count_in_fold (first_entries_from [] (vulnerabilities x))
                          (counts tally0)) as (E1 & E2 & E3 & E4 & E5).
  unfold buckets. rewrite E1, E2, E3, E4, E5. split; reflexivity.
Qed.

Lemma buckets_set_coverage (d : Details) : buckets (set_coverage d) = buckets d.
Proof. reflexivity. Qed.

Lemma buckets_host_details (x : HostResult) :
  buckets (host_details x) = buckets (counts (host_tally x)).
Proof. unfold host_details. now destruct (credentialed_checks x). Qed.

End Indicators.

(** C1. In every host, a bucket is incremented only by an entry whose name
    has not been met before in that host (so each bucket holds the number of
    first-occurrence entries of its risk), whereas the running level is the
    maximum over every entry, repeats included.  On
    [A/high, A/high, B/low] with credentialed checks the details are
    maximum 0, high 1, medium 0, low 1, coverage true and the indicator is
    "high". *)
Theorem C1_dedup_counts_not_level :
  (forall t v,
      counts (scan_vulnerability t v)
      = (if seen (name v) (seentitles t) then counts t
         else count_in (risk v) (counts t))
      /\ level (scan_vulnerability t v) = Z.max (level t) (ordinal (risk v))
      /\ seentitles (scan_vulnerability t v) = (seentitles t ++ [name v])%list)
  /\ (forall x : HostResult,
        let firsts := first_entries (vulnerabilities x) in
        buckets (host_details x)
        = (count_risk "critical" firsts, count_risk "high" firsts,
           count_risk "medium" firsts, count_risk "low" firsts)
        /\ level (host_tally x) = max_ordinal (vulnerabilities x)
        /\ host_lind x
           = lind_of (credentialed_checks x) (max_ordinal (vulnerabilities x)))
  /\ (let x := mk_host "h" [mk_vuln "A" "high"; mk_vuln "A" "high";
                            mk_vuln "B" "low"] true in
      host_details x
      = {| maximum := 0; high := 1; medium := 0; low := 1; coverage := true |}
      /\ host_lind x = "high").
Proof.
  split; [|split].
  - intros t v. rewrite scan_vulnerability_spec. cbn. auto.
  - intros x firsts. split; [|split].
    + rewrite buckets_host_details. apply buckets_host_tally.
    + apply level_host_tally.
    + unfold host_lind. now rewrite level_host_tally.
  - cbn zeta. split; reflexivity.
Qed.

Section Indicator_cases.

Lemma seentitles_scan (vs : list Vulnerability) (t : Tally) :
  seentitles (scan_vulnerabilities vs t) = (seentitles t ++ map name vs)%list.
Proof.
  revert t. induction vs as [|v vs IH]; intros t; cbn.
  - now rewrite app_nil_r.
  - unfold scan_vulnerabilities in IH. rewrite IH, scan_vulnerability_spec.
    cbn. now rewrite <- app_assoc.
Qed.

Lemma scan_unrecognized (vs : list Vulnerability) (t : Tally) :
  Forall (fun v => recognized (risk v) = false) vs ->
  0 <= level t ->
  counts (scan_vulnerabilities vs t) = counts t
  /\ level (scan_vulnerabilities vs t) = level t.
Proof.
  intros Hall. revert t.
  induction Hall as [|v vs Hv _ IH]; intros t Hlvl; cbn; [auto|].
  destruct (ordinal_unrecognized _ Hv) as [Hord Hcount].
  unfold scan_vulnerabilities in IH.
  destruct (IH (scan_vulnerability t v)) as [E1 E2].
  - rewrite scan_vulnerability_spec. cbn. lia.
  - rewrite E1, E2, scan_vulnerability_spec. cbn.
    rewrite Hcount, Hord. split; [now destruct (seen _ _) | lia].
Qed.

(** Dropping the entries named [n] once [n] has been met changes nothing
    in the first occurrences. *)
Lemma seen_cons (m a : string) (l : list string) :
  seen m (a :: l) = String.eqb m a || seen m l.
Proof. reflexivity. Qed.

Lemma first_entries_without (n : string) (post : list Vulnerability)
      (e1 e2 : list string) :
  (forall m, seen m e1 = String.eqb m n || seen m e2) ->
  first_entries_from e1 post
  = first_entries_from e2
      (List.filter (fun w => negb (String.eqb (name w) n)) post).
Proof.
  revert e1 e2. induction post as [|w post IH]; intros e1 e2 Hrel.
  - reflexivity.
  - cbn [first_entries_from List.filter].
    destruct (String.eqb (name w) n) eqn:E; cbn [negb].
    + rewrite Hrel, E. cbn [orb]. apply IH. intros m.
      rewrite seen_cons, Hrel. apply String.eqb_eq in E. rewrite E.
      now destruct (String.eqb m n).
    + cbn [first_entries_from]. rewrite Hrel, E. cbn [orb].
      rewrite (IH (name w :: e1) (name w :: e2)).
      * reflexivity.
      * intros m. rewrite !seen_cons, Hrel.
        destruct (String.eqb m (name w)), (String.eqb m n); reflexivity.
Qed.

End Indicator_cases.

(** C5. The indicator of a host is "unknown" exactly when its credentialed
    checks are false, whatever its vulnerabilities; the coverage flag is the
    credentialed-checks flag, so it stays false in that case; this label is
    the one carried by the indicator record that is posted. *)
Theorem C5_unknown_iff_not_credentialed (x : HostResult) :
  (host_lind x = "unknown" <-> credentialed_checks x = false)
  /\ coverage (host_details x) = credentialed_checks x
  /\ (forall z ts, getitem (indicator z ts x) "likelihood_indicator"
                   = Ok (JStr (host_lind x))).
Proof.
  split; [|split].
  - unfold host_lind, lind_of. destruct (credentialed_checks x).
    + split; [|discriminate].
      repeat (destruct (Z.eqb _ _)); discriminate.
    + split; reflexivity.
  - unfold host_details.
    destruct (buckets_host_tally x) as [_ Hcov].
    destruct (credentialed_checks x); [reflexivity | exact Hcov].
  - reflexivity.
Qed.

(** C8. A name is recorded as seen whatever the risk of its entry.  When
    the first entry with some name has an unrecognized risk, no entry with
    that name is counted in any bucket: the counts are those of the list
    without the later entries of that name; the running level is still the
    maximum over every entry.  On [A/other, A/critical] with credentialed
    checks all buckets are 0 and the indicator is "maximum". *)
Theorem C8_unrecognized_first_mention
    (x : HostResult) (pre post : list Vulnerability) (v : Vulnerability) :
  vulnerabilities x = (pre ++ v :: post)%list ->
  ~ In (name v) (map name pre) ->
  recognized (risk v) = false ->
  let later_dropped :=
    (pre ++ List.filter (fun w => negb (String.eqb (name w) (name v))) post)%list in
  In (name v) (seentitles (scan_vulnerabilities (pre ++ [v]) tally0))
  /\ counts (host_tally x) = counts (scan_vulnerabilities later_dropped tally0)
  /\ level (host_tally x) = max_ordinal (vulnerabilities x)
  /\ (let y := mk_host "h" [mk_vuln "A" "other"; mk_vuln "A" "critical"] true in
      buckets (host_details y) = (0, 0, 0, 0) /\ host_lind y = "maximum").
Proof.
  intros Hvs Hfirst Hrisk later_dropped. split; [|split; [|split]].
  - rewrite seentitles_scan. apply in_or_app. right.
    rewrite map_app. apply in_or_app. right. now left.
  - unfold host_tally, later_dropped. rewrite Hvs, !scan_app.
    set (t := scan_vulnerabilities pre tally0).
    rewrite (counts_scan (v :: post) t (seentitles t)) by reflexivity.
    rewrite (counts_scan (List.filter _ post) t (seentitles t)) by reflexivity.
    assert (Hnew : seen (name v) (seentitles t) = false).
    { destruct (seen (name v) (seentitles t)) eqn:E; [|reflexivity].
      apply seen_In in E. unfold t in E. rewrite seentitles_scan in E.
      now elim Hfirst. }
    cbn [first_entries_from]. rewrite Hnew. cbn [fold_left].
    destruct (ordinal_unrecognized _ Hrisk) as [_ Hcount]. rewrite Hcount.
    f_equal. apply first_entries_without. intros m. reflexivity.
  - apply level_host_tally.
  - cbn zeta. split; reflexivity.
Qed.

Lemma C8_unrecognized_first_mention_witness :
  let x := mk_host "h" [mk_vuln "B" "low"; mk_vuln "A" "other";
                        mk_vuln "C" "medium"; mk_vuln "A" "critical"] true in
  counts (host_tally x)
  = counts (scan_vulnerabilities [mk_vuln "B" "low"; mk_vuln "C" "medium"] tally0)
  /\ level (host_tally x) = 4.
Proof.
  pose proof (C8_unrecognized_first_mention
                (mk_host "h" [mk_vuln "B" "low"; mk_vuln "A" "other";
                              mk_vuln "C" "medium"; mk_vuln "A" "critical"] true)
                [mk_vuln "B" "low"]
                [mk_vuln "C" "medium"; mk_vuln "A" "critical"]
                (mk_vuln "A" "other")) as H.
  cbn zeta in *.
  destruct H as (_ & Hcounts & Hlevel & _).
  - reflexivity.
  - cbn. intros [E | []]. discriminate E.
  - reflexivity.
  - split; [exact Hcounts | exact Hlevel].
Defined.

(** C9. A host with credentialed checks whose vulnerabilities are none, or
    all of unrecognized risk, gets coverage true, the four buckets at 0 and
    the indicator "low". *)
Theorem C9_no_recognized_entry (x : HostResult) :
  credentialed_checks x = true ->
  Forall (fun v => recognized (risk v) = false) (vulnerabilities x) ->
  host_details x
  = {| maximum := 0; high := 0; medium := 0; low := 0; coverage := true |}
  /\ host_lind x = "low"
  /\ level (host_tally x) = 1.
Proof.
  intros Hcc Hall.
  destruct (scan_unrecognized (vulnerabilities x) tally0 Hall) as [Hc Hl];
    [cbn; lia|].
  unfold host_details, host_lind, host_tally.
  rewrite Hcc, Hc, Hl. repeat split.
Qed.

Lemma C9_no_recognized_entry_witness :
  (host_details (mk_host "h" [] true)
   = {| maximum := 0; high := 0; medium := 0; low := 0; coverage := true |}
   /\ host_lind (mk_host "h" [] true) = "low"
   /\ level (host_tally (mk_host "h" [] true)) = 1)
  /\ (host_details (mk_host "h" [mk_vuln "A" "info"; mk_vuln "B" "none"] true)
      = {| maximum := 0; high := 0; medium := 0; low := 0; coverage := true |}
      /\ host_lind (mk_host "h" [mk_vuln "A" "info"; mk_vuln "B" "none"] true) = "low"
      /\ level (host_tally (mk_host "h" [mk_vuln "A" "info"; mk_vuln "B" "none"] true)) = 1).
Proof.
  split.
  - apply (C9_no_recognized_entry (mk_host "h" [] true)).
    + reflexivity.
    + constructor.
  - apply (C9_no_recognized_entry
             (mk_host "h" [mk_vuln "A" "info"; mk_vuln "B" "none"] true)).
    + reflexivity.
    + repeat constructor.
Defined.

(** ** The requestor *)

Section Requests.

Context {R : Runtime}.

Lemma call_methods (self : ScanAPIRequestor) (ep method : string)
      (data_ : payload) (params_ : list (string * json)) :
  In method ["get"; "post"; "delete"] ->
  exists req, Requestor.call self ep method data_ params_ = Some req.
Proof.
  intros [E | [E | [E | []]]]; subst method; cbn; eauto.
Qed.

(** What one call of [request] does, given the call it makes. *)
Lemma request_run (self : ScanAPIRequestor) (ep method : string)
      (data_ : payload) (params_ : list (string * json)) (jsonresponse : bool)
      (req : Request) (w : World) :
  Requestor.call self ep method data_ params_ = Some req ->
  Requestor.request self ep method data_ params_ jsonresponse w
  = (let r := respond (sent w) req in
     if negb (Z.eqb (status_code r) 200) then Raise (RequestFailed (status_code r))
     else if jsonresponse then
       match json_loads (text r) with
       | Some j => Ok (Requestor.set_body self j)
       | None => Raise (ValueError "No JSON object could be decoded")
       end
     else Ok (Requestor.set_body self (JStr (text r))),
     {| sent := sent w ++ [req]; stdout := stdout w; stderr := stderr w |}).
Proof.
  intros Hcall. unfold Requestor.request, bind, http. rewrite Hcall. cbn.
  destruct (Z.eqb (status_code (respond (sent w) req)) 200); cbn; [|reflexivity].
  destruct jsonresponse; [|reflexivity].
  now destruct (json_loads (text (respond (sent w) req))).
Qed.

End Requests.

(** C3, as the code has it.  [purge_scans] compares its argument with
    nothing: whenever [int] accepts the argument, below 300 or not, exactly
    one DELETE scan/purge request carrying that integer is issued; a 200
    answer with a JSON body is printed with indent 4, any other status is a
    [RequestFailed] with nothing printed. *)
Theorem C3_purge_delegates_unchecked
    (R : Runtime) (requestor : ScanAPIRequestor) (seconds : string) (n : Z)
    (w : World) :
  py_int seconds = Some n ->
  let req := purge_request requestor n in
  let r := respond (sent w) req in
  let out := purge_scans requestor seconds w in
  sent (snd out) = (sent w ++ [req])%list
  /\ (forall j, status_code r = 200 -> json_loads (text r) = Some j ->
                fst out = Ok (Requestor.set_body requestor j)
                /\ stdout (snd out) = (stdout w ++ [(json_dumps (Some 4) j ++ nl)%string])%list)
  /\ (status_code r <> 200 ->
      fst out = Raise (RequestFailed (status_code r))
      /\ stdout (snd out) = stdout w).
Proof.
  intros Hint req r out.
  assert (Hout : out =
    match Requestor.request requestor "scan/purge" "delete" NoData
            [("olderthan", JInt n)] true w with
    | (Ok self', w') =>
        (Ok self',
         {| sent := sent w'; stderr := stderr w';
            stdout := stdout w' ++ [json_dumps (Some 4) (body self') ++ nl] |})
    | (Raise e, w') => (Raise e, w')
    end).
  { unfold out, purge_scans, Requestor.purge_scans, bind. rewrite Hint.
    destruct (Requestor.request _ _ _ _ _ _ w) as [[self'|e] w']; reflexivity. }
  rewrite (request_run _ _ _ _ _ _ req) in Hout by reflexivity.
  cbn zeta in Hout. fold r in Hout. rewrite Hout. clear Hout.
  destruct (Z.eqb_spec (status_code r) 200) as [E|E]; cbn [negb].
  - split; [|split].
    + now destruct (json_loads (text r)).
    + intros j _ Hj. rewrite Hj. cbn. auto.
    + intros Hne. now elim Hne.
  - split; [reflexivity|split].
    + intros j Heq. now elim E.
    + intros _. cbn. auto.
Qed.

(** The purge of scans older than 100 seconds is sent and its answer printed. *)
Lemma C3_purge_below_300_is_sent :
  100 < 300
  /\ Fixture.decimal "100" = Some 100
  /\ @purge_scans Fixture.rt Fixture.requestor "100" world0
     = (Ok (Requestor.set_body Fixture.requestor (JList [])),
        {| sent := [@purge_request Fixture.requestor 100];
           stdout := ["[]" ++ nl]; stderr := [] |}).
Proof. split; [lia | split; reflexivity]. Qed.

Lemma C3_purge_delegates_unchecked_witness :
  sent (snd (@purge_scans Fixture.rt Fixture.requestor "100" world0))
  = [purge_request Fixture.requestor 100]
  /\ fst (@purge_scans Fixture.rt Fixture.requestor "100" world0)
     = Ok (Requestor.set_body Fixture.requestor (JList [])).
Proof.
  destruct (C3_purge_delegates_unchecked Fixture.rt Fixture.requestor "100" 100
              world0 eq_refl) as (Hsent & Hok & _).
  split; [exact Hsent|].
  exact (proj1 (Hok (JList []) eq_refl eq_refl)).
Defined.

(** C4, as the code has it.  A get, post or delete makes exactly one call;
    it fails with [RequestFailed] carrying the status exactly when the
    status differs from 200 (a 201 or 204 fails as well); a 200 gives the
    decoded JSON body, or the raw text when [jsonresponse] is off. *)
Theorem C4_request_fails_unless_200
    (R : Runtime) (self : ScanAPIRequestor) (ep method : string)
    (data_ : payload) (params_ : list (string * json)) (jsonresponse : bool)
    (w : World) :
  In method ["get"; "post"; "delete"] ->
  exists req,
    Requestor.call self ep method data_ params_ = Some req
    /\ let r := respond (sent w) req in
       let out := Requestor.request self ep method data_ params_ jsonresponse w in
       sent (snd out) = (sent w ++ [req])%list
       /\ ((exists c, fst out = Raise (RequestFailed c)) <-> status_code r <> 200)
       /\ (status_code r <> 200 -> fst out = Raise (RequestFailed (status_code r)))
       /\ (status_code r = 200 ->
           fst out =
             if jsonresponse then
               match json_loads (text r) with
               | Some j => Ok (Requestor.set_body self j)
               | None => Raise (ValueError "No JSON object could be decoded")
               end
             else Ok (Requestor.set_body self (JStr (text r)))).
Proof.
  intros Hm.
  destruct (call_methods self ep method data_ params_ Hm) as [req Hcall].
  exists req. split; [exact Hcall|]. cbn zeta.
  rewrite (request_run _ _ _ _ _ _ req w Hcall). cbn zeta. cbn [fst snd sent].
  split; [reflexivity|].
  destruct (Z.eqb_spec (status_code (respond (sent w) req)) 200) as [E|E];
    cbn [negb].
  - split; [|split].
    + split; [|intros Hne; now elim Hne].
      intros [c Hc]. destruct jsonresponse; [|discriminate].
      destruct (json_loads _); discriminate.
    + intros Hne. now elim Hne.
    + reflexivity.
  - split; [|split].
    + split; [intros _; exact E | intros _; eauto].
    + reflexivity.
    + intros Heq. now elim E.
Qed.

(** A 204 answer, a success status other than 200, makes [request] fail. *)
Lemma C4_status_204_fails :
  200 <= 204 < 300
  /\ status_code (Fixture.services []
        {| verb := "GET"; url := "https://scan/api/v1/policies";
           headers := [("SCANAPIKEY", "secret")]; params := [];
           data := NoData; verify := true |}) = 204
  /\ fst (@Requestor.request Fixture.rt Fixture.requestor "policies" "get"
            NoData [] true world0)
     = Raise (RequestFailed 204).
Proof. split; [lia | split; reflexivity]. Qed.

Lemma C4_request_fails_unless_200_witness :
  exists req,
    Requestor.call Fixture.requestor "scan/purge" "delete" NoData
      [("olderthan", JInt 600)] = Some req
    /\ fst (@Requestor.request Fixture.rt Fixture.requestor "scan/purge" "delete"
              NoData [("olderthan", JInt 600)] true world0)
       = Ok (Requestor.set_body Fixture.requestor (JList [])).
Proof.
  destruct (C4_request_fails_unless_200 Fixture.rt Fixture.requestor
              "scan/purge" "delete" NoData [("olderthan", JInt 600)] true world0)
    as (req & Hcall & _ & _ & _ & Hok).
  - cbn. auto.
  - exists req. split; [exact Hcall|].
    cbn in Hcall. injection Hcall as <-. exact (Hok eq_refl).
Defined.

(** ** Target filtering *)

Section Filtering.

Context {N : Netaddr}.

Lemma in_filters_reaches (a : ip) (pre post : list string) (bad : string)
      (e : exn) :
  Forall (passes a) pre ->
  IPNetwork bad = Raise e ->
  in_filters a (pre ++ bad :: post) = Raise e.
Proof.
  intros Hpre Hbad. induction Hpre as [|i pre (n & Hn & Hc) _ IH]; cbn.
  - now rewrite Hbad.
  - now rewrite Hn, Hc.
Qed.

Lemma target_filter_not_ip (t : string) (filters : list string) :
  IPAddress t = Raise AddrFormatError -> target_filter t filters = Ok false.
Proof. intros H. unfold target_filter. now rewrite H. Qed.

Lemma in_filters_total (a : ip) (filters : list string) :
  Forall (fun i => is_ok (IPNetwork i) = true) filters ->
  is_ok (in_filters a filters) = true.
Proof.
  induction 1 as [|i filters Hi _ IH]; cbn; [reflexivity|].
  destruct (IPNetwork i) as [n|e]; [|discriminate].
  now destruct (contains a n).
Qed.

Lemma target_filter_total (t : string) (filters : list string) :
  Forall (fun i => is_ok (IPNetwork i) = true) filters ->
  plain_target t ->
  is_ok (target_filter t filters) = true.
Proof.
  intros Hf Ht. unfold target_filter, plain_target in *.
  destruct (IPAddress t) as [a|[]]; try contradiction; try reflexivity.
  now apply in_filters_total.
Qed.

Lemma filter_targets_spec (targets filters kept : list string) :
  filter_targets targets filters = Ok kept ->
  kept = List.filter (fun t => negb (excluded filters t)) targets.
Proof.
  revert kept. induction targets as [|x rest IH]; intros kept; cbn.
  - now intros [= <-].
  - unfold excluded at 1.
    destruct (target_filter x filters) as [drop|e]; [|discriminate].
    destruct (filter_targets rest filters) as [kept'|e]; [|discriminate].
    intros [= <-]. rewrite (IH kept' eq_refl). now destruct drop.
Qed.

Lemma filter_sublist (f : string -> bool) (l : list string) :
  sublist (List.filter f l) l.
Proof.
  induction l as [|x l IH]; cbn; [constructor|].
  destruct (f x); now constructor.
Qed.

Lemma filter_count_occ (f : string -> bool) (l : list string) (t : string) :
  count_occ string_dec (List.filter f l) t
  = if f t then count_occ string_dec l t else 0%nat.
Proof.
  induction l as [|x l IH]; cbn.
  - now destruct (f t).
  - destruct (f x) eqn:Ex; cbn; destruct (string_dec x t) as [->|Hne];
      rewrite IH; try reflexivity.
    + now rewrite Ex.
    + now rewrite Ex.
Qed.

Lemma filter_targets_total (targets filters : list string) :
  Forall (fun i => is_ok (IPNetwork i) = true) filters ->
  Forall plain_target targets ->
  is_ok (filter_targets targets filters) = true.
Proof.
  intros Hf. induction 1 as [|x rest Hx _ IH]; cbn; [reflexivity|].
  pose proof (target_filter_total x filters Hf Hx) as Hok.
  destruct (target_filter x filters) as [drop|e]; [|discriminate].
  destruct (filter_targets rest filters) as [kept|e]; [|discriminate].
  reflexivity.
Qed.

End Filtering.

(** C2, as the code has it.  Loading the filter file returns its lines as
    they are and parses none of them, so a malformed entry is no failure at
    load time.  The failure arises when an IP target is checked and reaches
    the malformed entry, every earlier entry parsing and not containing
    it, and it ends the filtering of the whole list.  A target on which
    [IPAddress] raises [AddrFormatError] is kept without any entry being
    parsed; a target on which it raises another exception fails with that
    exception, whatever the entries are. *)
Theorem C2_malformed_entry_fails_per_target
    (R : Runtime) (N : Netaddr) (path : string)
    (pre post : list string) (bad : string) (e : exn) :
  readlines path = Ok (pre ++ bad :: post)%list ->
  IPNetwork bad = Raise e ->
  load_subnet_filters (Some path) = Ok (pre ++ bad :: post)%list
  /\ (forall t a, IPAddress t = Ok a -> Forall (passes a) pre ->
                  target_filter t (pre ++ bad :: post) = Raise e
                  /\ forall before after,
                       is_ok (filter_targets (before ++ t :: after)
                                             (pre ++ bad :: post)) = false)
  /\ (forall t, IPAddress t = Raise AddrFormatError ->
                target_filter t (pre ++ bad :: post) = Ok false)
  /\ (forall targets, Forall (fun t => IPAddress t = Raise AddrFormatError) targets ->
                      filter_targets targets (pre ++ bad :: post) = Ok targets)
  /\ (forall t e', IPAddress t = Raise e' -> e' <> AddrFormatError ->
                   target_filter t (pre ++ bad :: post) = Raise e'
                   /\ forall before after,
                        is_ok (filter_targets (before ++ t :: after)
                                              (pre ++ bad :: post)) = false).
Proof.
  intros Hread Hbad.
  assert (Hlist : forall t e0 filters,
            target_filter t filters = Raise e0 ->
            forall before after,
              is_ok (filter_targets (before ++ t :: after) filters) = false).
  { intros t e0 filters Hraise before after.
    induction before as [|b before IH]; cbn.
    - now rewrite Hraise.
    - destruct (target_filter b _) as [drop|]; [|reflexivity].
      destruct (filter_targets (before ++ t :: after) _) as [kept|];
        [discriminate IH | reflexivity]. }
  split; [exact Hread|]. split; [|split; [|split]].
  - intros t a Ht Hpre.
    assert (Hraise : target_filter t (pre ++ bad :: post) = Raise e).
    { unfold target_filter. rewrite Ht. now apply in_filters_reaches. }
    split; [exact Hraise | exact (Hlist _ _ _ Hraise)].
  - intros t Ht. now apply target_filter_not_ip.
  - intros targets Hall. induction Hall as [|t targets Ht _ IH]; cbn.
    + reflexivity.
    + rewrite (target_filter_not_ip _ _ Ht), IH. reflexivity.
  - intros t e' Ht Hne.
    assert (Hraise : target_filter t (pre ++ bad :: post) = Raise e').
    { unfold target_filter. rewrite Ht. destruct e'; try reflexivity.
      now elim Hne. }
    split; [exact Hraise | exact (Hlist _ _ _ Hraise)].
Qed.

(** A file whose second line is malformed loads, its lines ending in the
    newline [readlines] keeps; the line fails the check of 11.1.1.1 and of
    no other of these targets. *)
Lemma C2_malformed_entry_loads :
  @load_subnet_filters Fixture.rt (Some "subnets.txt")
  = Ok [("10.0.0.0/8" ++ nl)%string; ("not-a-subnet" ++ nl)%string]
  /\ @IPNetwork Fixture.ipv4 ("10.0.0.0/8" ++ nl)%string = Ok (167772160, 8)
  /\ @IPNetwork Fixture.ipv4 ("not-a-subnet" ++ nl)%string = Raise AddrFormatError
  /\ @target_filter Fixture.ipv4 "11.1.1.1"
       [("10.0.0.0/8" ++ nl)%string; ("not-a-subnet" ++ nl)%string]
     = Raise AddrFormatError
  /\ @domain_filter Fixture.rt Fixture.ipv4 "10.0.0.1,example.com"
       (Some "subnets.txt") = Ok "example.com"
  /\ @domain_filter Fixture.rt Fixture.ipv4 "10.0.0.1,example.com,11.1.1.1"
       (Some "subnets.txt") = Raise AddrFormatError.
Proof. repeat split. Qed.

Lemma C2_malformed_entry_fails_per_target_witness :
  let lines := [("10.0.0.0/8" ++ nl)%string; ("not-a-subnet" ++ nl)%string] in
  @load_subnet_filters Fixture.rt (Some "subnets.txt") = Ok lines
  /\ @target_filter Fixture.ipv4 "11.1.1.1" lines = Raise AddrFormatError
  /\ @target_filter Fixture.ipv4 "example.com" lines = Ok false
  /\ @target_filter Fixture.ipv4 "10.9.0.0/16" lines
     = Raise (ValueError
                "IPAddress() does not support netmasks or subnet prefixes! See documentation for details.").
Proof.
  intros lines.
  destruct (C2_malformed_entry_fails_per_target Fixture.rt Fixture.ipv4
              "subnets.txt" [("10.0.0.0/8" ++ nl)%string] []
              ("not-a-subnet" ++ nl)%string AddrFormatError
              eq_refl eq_refl) as (Hload & Hip & Hname & _ & Hother).
  split; [exact Hload|]. split; [|split].
  - refine (proj1 (Hip "11.1.1.1" 184615169 eq_refl _)).
    constructor; [|constructor].
    exists (167772160, 8). split; reflexivity.
  - exact (Hname "example.com" eq_refl).
  - refine (proj1 (Hother "10.9.0.0/16" _ eq_refl _)). discriminate.
Defined.

(** C10. The list kept by target filtering is the target list without the
    excluded targets: the same targets in the same order with the same
    multiplicities; so is the comma-separated string [domain] rebuilds.
    Filtering returns whenever every filter entry parses and every target
    is an address or fails as [AddrFormatError]. *)
Theorem C10_filtering_keeps_order_and_multiplicity
    (R : Runtime) (N : Netaddr) (targets filters : list string) :
  (forall kept,
      filter_targets targets filters = Ok kept ->
      kept = List.filter (fun t => negb (excluded filters t)) targets
      /\ sublist kept targets
      /\ forall t, count_occ string_dec kept t
                   = if excluded filters t then 0%nat
                     else count_occ string_dec targets t)
  /\ (forall line path out,
        load_subnet_filters path = Ok filters ->
        split "," line = targets ->
        domain_filter line path = Ok out ->
        out = join "," (List.filter (fun t => negb (excluded filters t)) targets))
  /\ (Forall (fun i => is_ok (IPNetwork i) = true) filters ->
      Forall plain_target targets ->
      is_ok (filter_targets targets filters) = true).
Proof.
  split; [|split].
  - intros kept Hk. apply filter_targets_spec in Hk. subst kept.
    split; [reflexivity|]. split; [apply filter_sublist|].
    intros t. rewrite filter_count_occ. now destruct (excluded filters t).
  - intros line path out Hload Hsplit. unfold domain_filter.
    rewrite Hload, Hsplit.
    destruct (filter_targets targets filters) as [kept|] eqn:Hk; [|discriminate].
    intros [= <-]. now rewrite (filter_targets_spec _ _ _ Hk).
  - apply filter_targets_total.
Qed.

Lemma C10_filtering_keeps_order_and_multiplicity_witness :
  @filter_targets Fixture.ipv4
    ["b.example"; "10.1.1.1"; "a.example"; "b.example"; "192.168.0.1"]
    ["10.0.0.0/8"]
  = Ok ["b.example"; "a.example"; "b.example"; "192.168.0.1"]
  /\ sublist ["b.example"; "a.example"; "b.example"; "192.168.0.1"]
       ["b.example"; "10.1.1.1"; "a.example"; "b.example"; "192.168.0.1"].
Proof.
  destruct (C10_filtering_keeps_order_and_multiplicity Fixture.rt Fixture.ipv4
              ["b.example"; "10.1.1.1"; "a.example"; "b.example"; "192.168.0.1"]
              ["10.0.0.0/8"]) as (Hkept & _ & _).
  split; [reflexivity|].
  exact (proj1 (proj2 (Hkept _ eq_refl))).
Defined.

(** ** Ownership annotation *)

Section Ownership.

Context {R : Runtime}.
Local Open Scope list_scope.

Lemma assoc_dict_set_eq (k : string) (v : json) (kv : list (string * json)) :
  assoc k (dict_set k v kv) = Some v.
Proof.
  induction kv as [|[k' v'] kv IH]; cbn.
  - now rewrite String.eqb_refl.
  - destruct (String.eqb k k') eqn:E; cbn; now rewrite E.
Qed.

Lemma assoc_dict_set_ne (k k' : string) (v : json) (kv : list (string * json)) :
  k <> k' -> assoc k' (dict_set k v kv) = assoc k' kv.
Proof.
  intros Hne. induction kv as [|[k0 v0] kv IH]; cbn.
  - destruct (String.eqb_spec k' k); [congruence | reflexivity].
  - destruct (String.eqb_spec k k0) as [->|Hk]; cbn.
    + destruct (String.eqb_spec k' k0); [congruence | reflexivity].
    + now rewrite IH.
Qed.

Lemma keys_dict_set (k k' : string) (v : json) (kv : list (string * json)) :
  In k' (map fst (dict_set k v kv)) <-> k' = k \/ In k' (map fst kv).
Proof.
  induction kv as [|[k0 v0] kv IH]; cbn.
  - intuition.
  - destruct (String.eqb_spec k k0) as [->|Hk]; cbn; [intuition|].
    rewrite IH. intuition.
Qed.

Lemma lookup_map {A B} (f : A -> B) (l : list A) (i : nat) :
  map f l !! i = option_map f (l !! i).
Proof.
  revert i. induction l as [|a l IH]; intros [|i]; cbn; auto.
Qed.

(** *** The annotation loops *)

Variable respmap : list (string * json).
Variable own : string -> json.

Lemma annotate_index_loop (x : string) (info : json) (w : World)
      (rest done : list HostResult) :
  assoc x respmap = Some info ->
  Services.owner_object info = Ok (own x) ->
  fold_m (seq (length done) (length rest)) (Services.annotate_at respmap x)
         (done ++ rest) w
  = (Ok (done ++ map (annotated own x) rest), w).
Proof.
  intros Hx Ho. revert done.
  induction rest as [|e rest IH]; intros done; cbn [length seq fold_m map].
  - reflexivity.
  - unfold bind. unfold Services.annotate_at at 1.
    rewrite (list_lookup_middle done rest e (length done) eq_refl).
    change (annotated own x e)
      with (if String.eqb (hostname e) x then set_owner e (own x) else e).
    destruct (String.eqb (hostname e) x) eqn:E; cbn [negb].
    + rewrite Hx. unfold bind, lift. rewrite Ho. unfold ret.
      replace (<[length done := set_owner e (own x)]> (done ++ e :: rest))
        with ((done ++ [set_owner e (own x)]) ++ rest).
      * specialize (IH (done ++ [set_owner e (own x)])).
        rewrite length_app in IH. cbn [length] in IH.
        replace (length done + 1)%nat with (S (length done)) in IH by lia.
        rewrite IH. now rewrite <- app_assoc.
      * rewrite insert_app_r_alt by lia.
        rewrite Nat.sub_diag. cbn. now rewrite <- app_assoc.
    + unfold ret.
      specialize (IH (done ++ [e])).
      rewrite length_app in IH. cbn [length] in IH.
      replace (length done + 1)%nat with (S (length done)) in IH by lia.
      rewrite <- app_assoc in IH. cbn [app] in IH.
      rewrite IH. now rewrite <- app_assoc.
Qed.

Lemma annotate_host_run (x : string) (info : json) (w : World)
      (ds : list HostResult) :
  assoc x respmap = Some info ->
  Services.owner_object info = Ok (own x) ->
  Services.annotate_host respmap ds x w = (Ok (map (annotated own x) ds), w).
Proof.
  intros Hx Ho. unfold Services.annotate_host.
  exact (annotate_index_loop x info w ds [] Hx Ho).
Qed.

Lemma annotate_hosts_run (ks : list string) (w : World) (ds : list HostResult) :
  (forall x, In x ks ->
     exists info, assoc x respmap = Some info
                  /\ Services.owner_object info = Ok (own x)) ->
  fold_m ks (Services.annotate_host respmap) ds w
  = (Ok (map (annotated_all own ks) ds), w).
Proof.
  revert ds. induction ks as [|x ks IH]; intros ds Hks; cbn [fold_m].
  - unfold ret. f_equal. f_equal. induction ds as [|e ds IHd]; cbn; congruence.
  - destruct (Hks x (or_introl eq_refl)) as (info & Hx & Ho).
    unfold bind. rewrite (annotate_host_run x info w ds Hx Ho).
    rewrite IH by (intros y Hy; apply Hks; now right).
    f_equal. f_equal. rewrite map_map. apply map_ext. intros e.
    unfold annotated_all, annotated. rewrite seen_cons.
    destruct (String.eqb_spec (hostname e) x) as [E|E]; cbn [orb].
    + cbn [hostname set_owner]. rewrite E.
      now destruct (seen x ks).
    + reflexivity.
Qed.

End Ownership.

Section Lookups.

Context {R : Runtime}.
Local Open Scope list_scope.

Variable self : ScanAPIServices.
Hypothesis service_ok : owner_service_ok self.

Lemma sends_nil (w : World) : sends w [] = w.
Proof. destruct w. unfold sends. cbn. now rewrite app_nil_r. Qed.

Lemma sends_sends (w : World) (a b : list Request) :
  sends (sends w a) b = sends w (a ++ b).
Proof. unfold sends. cbn. now rewrite app_assoc. Qed.

Lemma info_of_answer (hist : list Request) (h : string) :
  let r := respond hist (Services.owner_request self h) in
  exists info,
    info_of r = Some info
    /\ Services.owner_object info = Ok (owner_of_answer r)
    /\ (status_code r <> 200 -> owner_of_answer r = unset_owner).
Proof.
  cbn zeta. unfold owner_of_answer, info_of.
  destruct (Z.eqb_spec
              (status_code (respond hist (Services.owner_request self h))) 200)
    as [E|E].
  - destruct (service_ok hist h E) as (j & o & Hj & Ho).
    exists j. rewrite Hj, Ho. repeat split. intros Hne. now elim Hne.
  - exists Services.unset_info. repeat split.
Qed.

Lemma lookup_answer_is_answer (hosts : list string) (hist : list Request)
      (h : string) :
  exists hist',
    lookup_answer self hist hosts h
    = respond hist' (Services.owner_request self h).
Proof.
  revert hist. induction hosts as [|y hs IH]; intros hist; cbn [lookup_answer].
  - eauto.
  - destruct (String.eqb_spec y h) as [->|Hne]; [eauto | apply IH].
Qed.

Lemma looked_up_owner (hosts : list string) (hist : list Request) (h : string) :
  let r := lookup_answer self hist hosts h in
  exists info,
    info_of r = Some info
    /\ Services.owner_object info = Ok (owner_of_answer r)
    /\ (status_code r <> 200 -> owner_of_answer r = unset_owner).
Proof.
  cbn zeta. destruct (lookup_answer_is_answer hosts hist h) as [hist' ->].
  apply info_of_answer.
Qed.

Lemma lookup_owner_run (rm : list (string * json)) (x : string) (w : World) :
  exists info,
    info_of (respond (sent w) (Services.owner_request self x)) = Some info
    /\ Services.lookup_owner self rm x w
       = (Ok (dict_set x info rm), sends w [Services.owner_request self x]).
Proof.
  destruct (info_of_answer (sent w) x) as (info & Hinfo & _).
  exists info. split; [exact Hinfo|].
  unfold Services.lookup_owner, bind, http. unfold info_of in Hinfo.
  destruct (Z.eqb (status_code (respond (sent w) (Services.owner_request self x))) 200).
  - now rewrite Hinfo.
  - now injection Hinfo as <-.
Qed.

Lemma lookups_run (hosts : list string) (rm0 : list (string * json)) (w : World) :
  List.NoDup hosts ->
  exists rm,
    fold_m hosts (Services.lookup_owner self) rm0 w
    = (Ok rm, sends w (map (Services.owner_request self) hosts))
    /\ (forall h, In h hosts ->
          assoc h rm = info_of (lookup_answer self (sent w) hosts h))
    /\ (forall h, ~ In h hosts -> assoc h rm = assoc h rm0)
    /\ (forall h, In h (map fst rm) <-> In h hosts \/ In h (map fst rm0)).
Proof.
  intros Hnd. revert rm0 w.
  induction Hnd as [|x hosts Hx Hnd IH]; intros rm0 w.
  - exists rm0. cbn. rewrite sends_nil. repeat split; intuition.
  - destruct (lookup_owner_run rm0 x w) as (info & Hinfo & Hrun).
    destruct (IH (dict_set x info rm0) (sends w [Services.owner_request self x]))
      as (rm & Hfold & Hin & Hout & Hkeys).
    exists rm. cbn [fold_m]. unfold bind. rewrite Hrun, Hfold, sends_sends.
    split; [reflexivity|]. split; [|split].
    + intros h [<-|Hh]; cbn [lookup_answer].
      * rewrite String.eqb_refl, (Hout x Hx), assoc_dict_set_eq. now symmetry.
      * destruct (String.eqb_spec x h) as [->|Hne]; [contradiction|].
        exact (Hin h Hh).
    + intros h Hh. rewrite Hout by (intros Hc; apply Hh; now right).
      apply assoc_dict_set_ne. intros ->. apply Hh. now left.
    + intros h. rewrite Hkeys, keys_dict_set. cbn. intuition.
Qed.

Lemma submit_indicator_ok (x : HostResult) (w : World) :
  exists w', Services.submit_indicator self x w = (Ok tt, w')
             /\ stdout w' = stdout w.
Proof.
  unfold Services.submit_indicator, bind, now, http.
  destruct (negb _); cbn; eauto.
Qed.

Lemma execute_indicators_ok (w : World) :
  exists w', Services.execute_indicators self w = (Ok tt, w')
             /\ stdout w' = stdout w.
Proof.
  unfold Services.execute_indicators. revert w.
  induction (details (_content self)) as [|x ds IH]; intros w; cbn [for_each].
  - exists w. split; reflexivity.
  - destruct (submit_indicator_ok x w) as (w1 & H1 & Ho1).
    destruct (IH w1) as (w2 & H2 & Ho2).
    exists w2. unfold bind. rewrite H1, H2. split; [reflexivity | congruence].
Qed.

(** One indicator is posted per host entry, in the order of the entries, and
    it is the record computed from that entry. *)
Lemma execute_indicators_posts (w : World) :
  exists w' reqs,
    Services.execute_indicators self w = (Ok tt, w')
    /\ sent w' = sent w ++ reqs
    /\ Forall2 (fun x req =>
                  exists ts, req = Services.indicator_request self
                                     (indicator (zone (_content self)) ts x))
               (details (_content self)) reqs.
Proof.
  unfold Services.execute_indicators. revert w.
  induction (details (_content self)) as [|x ds IH]; intros w; cbn [for_each].
  - exists w, []. rewrite app_nil_r. repeat split. constructor.
  - assert (Hstep : exists w1,
              Services.submit_indicator self x w = (Ok tt, w1)
              /\ sent w1 = sent w ++ [Services.indicator_request self
                                        (indicator (zone (_content self)) (utcnow w) x)]).
    { unfold Services.submit_indicator, bind, now, http.
      destruct (negb _); cbn; eauto. }
    destruct Hstep as (w1 & Hw1 & Hs1).
    destruct (IH w1) as (w' & reqs & Hrun & Hsent & Hall).
    exists w', (Services.indicator_request self
                  (indicator (zone (_content self)) (utcnow w) x) :: reqs).
    unfold bind. rewrite Hw1, Hrun. split; [reflexivity|]. split.
    + rewrite Hsent, Hs1, <- app_assoc. reflexivity.
    + constructor; [eauto | exact Hall].
Qed.

Context {L : RuntimeLaws R}.

(** The whole of [execute_ownership]: one lookup per key of the set of
    hostnames, then every entry annotated from the lookup of its hostname. *)
Lemma execute_ownership_run (w : World) :
  let ds := details (_content self) in
  let hosts := set_iter (map hostname ds) in
  let own := fun h => owner_of_answer (lookup_answer self (sent w) hosts h) in
  Services.execute_ownership self w
  = (Ok (Services.set_details self (map (fun e => set_owner e (own (hostname e))) ds)),
     sends w (map (Services.owner_request self) hosts)).
Proof.
  intros ds hosts own. unfold Services.execute_ownership. fold ds. fold hosts.
  destruct (lookups_run hosts [] w (set_iter_NoDup _))
    as (rm & Hfold & Hin & _ & Hkeys).
  unfold bind. rewrite Hfold.
  assert (Hown : forall x, In x (dict_iter (map fst rm)) ->
            exists info, assoc x rm = Some info
                         /\ Services.owner_object info = Ok (own x)).
  { intros x Hx. apply dict_iter_In, Hkeys in Hx. destruct Hx as [Hx|[]].
    rewrite (Hin x Hx). unfold own.
    destruct (looked_up_owner hosts (sent w) x) as (info & Hi & Ho & _).
    eauto. }
  rewrite (annotate_hosts_run rm own _ _ ds Hown). unfold ret.
  f_equal. f_equal. f_equal. apply map_ext_in. intros e He.
  unfold annotated_all.
  assert (Hseen : seen (hostname e) (dict_iter (map fst rm)) = true).
  { apply seen_In, dict_iter_In, Hkeys. left. apply set_iter_In.
    now apply in_map. }
  now rewrite Hseen.
Qed.

End Lookups.

Section Enrichment.

Context {R : Runtime} {L : RuntimeLaws R}.
Local Open Scope list_scope.

Lemma annotated_entry (own : string -> json) (ds : list HostResult)
      (y : nat) (e' : HostResult) :
  map (fun e => set_owner e (own (hostname e))) ds !! y = Some e' ->
  exists e, ds !! y = Some e /\ e' = set_owner e (own (hostname e)).
Proof.
  rewrite lookup_map. destruct (ds !! y) as [e|]; cbn; [|discriminate].
  intros [= <-]. eauto.
Qed.

End Enrichment.

Lemma owner_object_inv (info o : json) :
  Services.owner_object info = Ok o ->
  exists op tm tk,
    getitem info "operator" = Ok op
    /\ getitem info "team" = Ok tm
    /\ getitem info "triagekey" = Ok tk
    /\ o = JDict [("operator", op); ("team", tm); ("v2bkey", tk)].
Proof.
  unfold Services.owner_object.
  destruct (getitem info "operator") as [op|]; [|discriminate].
  destruct (getitem info "team") as [tm|]; [|discriminate].
  destruct (getitem info "triagekey") as [tk|]; [|discriminate].
  intros [= <-]. exists op, tm, tk. repeat split.
Qed.

(** C6. Ownership annotation makes one lookup for each distinct hostname of
    the result set and no other request.  A lookup answered with another
    status than 200 stands for the unset OwnerInfo instead of failing.  In
    the document that is returned, each entry has received as its [owner]
    the object made of the [operator], [team] and [triagekey] (as
    [v2bkey]) of the lookup of its hostname, so entries sharing a hostname
    have the same owner object: the unset one when the lookup was not
    answered with 200. *)
Theorem C6_one_lookup_per_hostname
    (R : Runtime) (L : RuntimeLaws R) (self : ScanAPIServices) (w : World) :
  owner_service_ok self ->
  let ds := details (_content self) in
  let hosts := set_iter (map hostname ds) in
  exists self',
    Services.execute_ownership self w
    = (Ok self', sends w (map (Services.owner_request self) hosts))
    /\ (forall h, In h (map hostname ds) -> count_occ string_dec hosts h = 1%nat)
    /\ (forall h, ~ In h (map hostname ds) -> count_occ string_dec hosts h = 0%nat)
    /\ length (details (_content self')) = length ds
    /\ (forall y e, ds !! y = Some e ->
          let r := lookup_answer self (sent w) hosts (hostname e) in
          exists e' info op tm tk,
            details (_content self') !! y = Some e'
            /\ hostname e' = hostname e
            /\ (if Z.eqb (status_code r) 200
                then json_loads (text r) = Some info
                else info = JDict [("operator", JStr "unset");
                                   ("team", JStr "unset");
                                   ("triagekey", JStr "unset-unset")])
            /\ getitem info "operator" = Ok op
            /\ getitem info "team" = Ok tm
            /\ getitem info "triagekey" = Ok tk
            /\ owner e' = Some (JDict [("operator", op); ("team", tm);
                                       ("v2bkey", tk)])
            /\ e' = set_owner e (JDict [("operator", op); ("team", tm);
                                        ("v2bkey", tk)])
            /\ (status_code r <> 200 ->
                owner e' = Some (JDict [("operator", JStr "unset");
                                        ("team", JStr "unset");
                                        ("v2bkey", JStr "unset-unset")])))
    /\ (forall y1 y2 e1 e2,
          details (_content self') !! y1 = Some e1 ->
          details (_content self') !! y2 = Some e2 ->
          hostname e1 = hostname e2 ->
          owner e1 = owner e2 /\ owner e1 <> None).
Proof.
  intros Hok ds hosts.
  set (own := fun h => owner_of_answer (lookup_answer self (sent w) hosts h)).
  exists (Services.set_details self (map (fun e => set_owner e (own (hostname e))) ds)).
  split; [apply (execute_ownership_run self Hok w)|].
  cbn [Services.set_details _content details].
  split; [|split; [|split; [|split]]].
  - intros h Hh. apply NoDup_count_occ'; [apply set_iter_NoDup|].
    now apply set_iter_In.
  - intros h Hh. apply count_occ_not_In. intros Hc. apply Hh.
    now apply set_iter_In.
  - apply length_map.
  - intros y e He.
    set (r := lookup_answer self (sent w) hosts (hostname e)).
    destruct (looked_up_owner self Hok hosts (sent w) (hostname e))
      as (info & Hi & Ho & Hunset).
    fold r in Hi, Ho, Hunset.
    change (own (hostname e)) with (owner_of_answer r).
    destruct (owner_object_inv info _ Ho) as (op & tm & tk & Hop & Htm & Htk & Hown).
    exists (set_owner e (owner_of_answer r)), info, op, tm, tk.
    split; [rewrite lookup_map, He; reflexivity|].
    split; [reflexivity|]. split.
    { unfold info_of in Hi. destruct (Z.eqb (status_code r) 200).
      - exact Hi.
      - now injection Hi as <-. }
    split; [exact Hop|]. split; [exact Htm|]. split; [exact Htk|].
    rewrite Hown. split; [reflexivity|]. split; [reflexivity|].
    intros Hne. cbn [owner set_owner]. rewrite <- Hown, (Hunset Hne). reflexivity.
  - intros y1 y2 e1 e2 H1 H2 Hh.
    apply annotated_entry in H1 as (a1 & _ & ->).
    apply annotated_entry in H2 as (a2 & _ & ->).
    cbn in *. rewrite Hh. split; [reflexivity | discriminate].
Qed.

(** C7. Running the enrichment pipeline returns a document with the same
    zone and completion flag and as many host entries, in the same order;
    each entry differs from the original one in its [owner] only: the
    vulnerabilities and every other field are the original ones. *)
Theorem C7_enrichment_only_sets_owner
    (R : Runtime) (L : RuntimeLaws R) (self : ScanAPIServices) (w : World) :
  owner_service_ok self ->
  let ds := details (_content self) in
  exists doc' w',
    Services.execute self w = (Ok doc', w')
    /\ zone doc' = zone (_content self)
    /\ completed doc' = completed (_content self)
    /\ length (details doc') = length ds
    /\ map hostname (details doc') = map hostname ds
    /\ (forall y e, ds !! y = Some e ->
          exists e' o,
            details doc' !! y = Some e'
            /\ e' = set_owner e o
            /\ hostname e' = hostname e
            /\ ipaddress e' = ipaddress e
            /\ os e' = os e
            /\ vulnerabilities e' = vulnerabilities e
            /\ scan_start e' = scan_start e
            /\ scan_end e' = scan_end e
            /\ credentialed_checks e' = credentialed_checks e
            /\ exempt_vulnerabilities e' = exempt_vulnerabilities e
            /\ hfields e' = hfields e
            /\ owner e' = Some o).
Proof.
  intros Hok ds.
  destruct (execute_indicators_ok self w) as (w1 & Hind & _).
  pose proof (execute_ownership_run self Hok w1) as Hown. cbn zeta in Hown.
  fold ds in Hown.
  set (own := fun h => owner_of_answer
                         (lookup_answer self (sent w1)
                            (set_iter (map hostname ds)) h)) in *.
  eexists _, _. split.
  - unfold Services.execute, bind. rewrite Hind, Hown. reflexivity.
  - cbn [_content Services.set_details zone completed details].
    split; [reflexivity|]. split; [reflexivity|].
    split; [apply length_map|]. split.
    + rewrite map_map. reflexivity.
    + intros y e He. exists (set_owner e (own (hostname e))), (own (hostname e)).
      rewrite lookup_map, He. repeat split.
Qed.

(** ** The concrete runtime obeys the laws *)

Lemma fixture_laws : RuntimeLaws Fixture.rt.
Proof.
  split; cbn; unfold Fixture.first_occurrences.
  - intros l. apply NoDup_rev, NoDup_nodup.
  - intros l x. rewrite <- in_rev, nodup_In, <- in_rev. reflexivity.
  - intros ks x. reflexivity.
Qed.

Lemma fixture_service_ok (ds : list HostResult) :
  @owner_service_ok Fixture.rt (Fixture.services_of ds).
Proof.
  intros hist h. cbn. unfold Fixture.services, Fixture.has_param. cbn.
  destruct (String.eqb h "h1"); cbn; [|discriminate].
  intros _. exists Fixture.owner_h1. eexists. split; reflexivity.
Qed.

Lemma C6_one_lookup_per_hostname_witness :
  let self := Fixture.services_of
                [Fixture.host "h1" "10.0.0.1"; Fixture.host "h2" "10.0.0.2";
                 Fixture.host "h1" "10.0.0.3"] in
  exists self',
    @Services.execute_ownership Fixture.rt self world0
    = (Ok self',
       sends world0 [Services.owner_request self "h1";
                     Services.owner_request self "h2"])
    /\ map hostname (details (_content self')) = ["h1"; "h2"; "h1"]
    /\ map owner (details (_content self'))
       = [Some (JDict [("operator", JStr "opsA"); ("team", JStr "teamA");
                       ("v2bkey", JStr "opsA-teamA")]);
          Some (JDict [("operator", JStr "unset"); ("team", JStr "unset");
                       ("v2bkey", JStr "unset-unset")]);
          Some (JDict [("operator", JStr "opsA"); ("team", JStr "teamA");
                       ("v2bkey", JStr "opsA-teamA")])].
Proof.
  intros self.
  destruct (C6_one_lookup_per_hostname Fixture.rt fixture_laws self world0
              (fixture_service_ok _))
    as (self' & Hrun & _ & _ & Hlen & Hentry & _).
  exists self'. split; [exact Hrun|].
  destruct (Hentry 0%nat (Fixture.host "h1" "10.0.0.1") eq_refl)
    as (a & ia & opa & tma & tka & Ha & Hna & Hia & Hopa & Htma & Htka & Hoa & _).
  destruct (Hentry 1%nat (Fixture.host "h2" "10.0.0.2") eq_refl)
    as (b & ib & opb & tmb & tkb & Hb & Hnb & _ & _ & _ & _ & _ & _ & Hob).
  destruct (Hentry 2%nat (Fixture.host "h1" "10.0.0.3") eq_refl)
    as (c & ic & opc & tmc & tkc & Hc & Hnc & Hic & Hopc & Htmc & Htkc & Hoc & _).
  vm_compute in Hia. injection Hia as <-.
  vm_compute in Hopa, Htma, Htka.
  injection Hopa as <-. injection Htma as <-. injection Htka as <-.
  vm_compute in Hic. injection Hic as <-.
  vm_compute in Hopc, Htmc, Htkc.
  injection Hopc as <-. injection Htmc as <-. injection Htkc as <-.
  assert (Hob' := Hob ltac:(vm_compute; discriminate)).
  destruct (details (_content self')) as [|a' [|b' [|c' [|d' rest]]]];
    try discriminate Hlen.
  cbn in Ha, Hb, Hc. injection Ha as ->. injection Hb as ->. injection Hc as ->.
  cbn [map]. rewrite Hna, Hnb, Hnc, Hoa, Hob', Hoc. split; reflexivity.
Defined.

Lemma C7_enrichment_only_sets_owner_witness :
  let self := Fixture.services_of
                [Fixture.host "h1" "10.0.0.1"; Fixture.host "h2" "10.0.0.2"] in
  exists doc' w',
    @Services.execute Fixture.rt self world0 = (Ok doc', w')
    /\ map hostname (details doc') = ["h1"; "h2"]
    /\ map vulnerabilities (details doc')
       = map vulnerabilities (details (_content self))
    /\ map hfields (details doc') = map hfields (details (_content self)).
Proof.
  intros self.
  destruct (C7_enrichment_only_sets_owner Fixture.rt fixture_laws self world0
              (fixture_service_ok _))
    as (doc' & w' & Hrun & _ & _ & Hlen & Hnames & Hentry).
  exists doc', w'. split; [exact Hrun|]. split; [exact Hnames|].
  destruct (Hentry 0%nat (Fixture.host "h1" "10.0.0.1") eq_refl)
    as (a & oa & Ha & _ & _ & _ & _ & Hva & _ & _ & _ & _ & Hfa & _).
  destruct (Hentry 1%nat (Fixture.host "h2" "10.0.0.2") eq_refl)
    as (b & ob & Hb & _ & _ & _ & _ & Hvb & _ & _ & _ & _ & Hfb & _).
  destruct (details doc') as [|a' [|b' [|c' rest]]]; try discriminate Hlen.
  cbn in Ha, Hb. injection Ha as ->. injection Hb as ->.
  cbn. rewrite Hva, Hvb, Hfa, Hfb. split; reflexivity.
Defined.

(** * Further properties of the client *)

(** ** Running the requestor's methods *)

Section Requestor_methods.

Context {R : Runtime}.
Local Open Scope list_scope.

Lemma request_json_run (self : ScanAPIRequestor) (ep method : string)
      (data_ : payload) (params_ : list (string * json)) (req : Request)
      (j : json) (w : World) :
  Requestor.call self ep method data_ params_ = Some req ->
  answers (sent w) req j ->
  Requestor.request self ep method data_ params_ true w
  = (Ok (Requestor.set_body self j), sends w [req]).
Proof.
  intros Hcall [Hs Hj]. rewrite (request_run _ _ _ _ _ _ req w Hcall).
  cbn zeta. rewrite Hs, Hj. reflexivity.
Qed.

Lemma request_results_run (self : ScanAPIRequestor) (scanid : json)
      (mincvss : option string) (nooutput : bool) (j : json) (w : World) :
  answers (sent w) (results_request self scanid mincvss nooutput) j ->
  request_results self scanid mincvss nooutput w
  = (Ok (Requestor.set_body self j, j),
     sends w [results_request self scanid mincvss nooutput]).
Proof.
  intros Ha. unfold request_results, bind.
  rewrite (request_json_run self "scan/results" "get" NoData _
             (results_request self scanid mincvss nooutput) j w eq_refl Ha).
  reflexivity.
Qed.

Lemma request_policies_run (self : ScanAPIRequestor) (j : json) (w : World) :
  answers (sent w) (policies_request self) j ->
  request_policies self w
  = (Ok (Requestor.set_body self j, j), sends w [policies_request self]).
Proof.
  intros Ha. unfold request_policies, bind.
  rewrite (request_json_run self "policies" "get" NoData []
             (policies_request self) j w eq_refl Ha).
  reflexivity.
Qed.

Lemma start_scan_run (self : ScanAPIRequestor) (targets policy : string)
      (j : json) (w : World) :
  answers (sent w) (scan_request self targets policy) j ->
  start_scan self targets policy w
  = (Ok (Requestor.set_body self j, j),
     sends w [scan_request self targets policy]).
Proof.
  intros Ha. unfold start_scan, bind.
  rewrite (request_json_run self "scan" "post"
             (Form [("targets", JStr targets); ("policy", JStr policy)]) []
             (scan_request self targets policy) j w eq_refl Ha).
  reflexivity.
Qed.

Lemma request_scan_completed_run (self : ScanAPIRequestor) (scanid : json)
      (j : json) (w : World) :
  answers (sent w) (results_request self scanid None false) j ->
  request_scan_completed self scanid w
  = (match getitem j "completed" with
     | Ok c => Ok (Requestor.set_body self j, c)
     | Raise e => Raise e
     end,
     sends w [results_request self scanid None false]).
Proof.
  intros Ha. unfold request_scan_completed, bind.
  rewrite (request_results_run _ _ _ _ j w Ha). cbn [snd fst]. unfold lift.
  now destruct (getitem j "completed").
Qed.

(** What a request does whatever the answer: one call, and a failure
    unless the answer is a 200 that decodes. *)
Lemma request_sends_one (self : ScanAPIRequestor) (ep method : string)
      (data_ : payload) (params_ : list (string * json)) (jsonresponse : bool)
      (req : Request) (w : World) :
  Requestor.call self ep method data_ params_ = Some req ->
  snd (Requestor.request self ep method data_ params_ jsonresponse w)
  = sends w [req].
Proof.
  intros Hcall. now rewrite (request_run _ _ _ _ _ _ req w Hcall).
Qed.

(** A request that expects JSON either returns the decoded body of a 200
    answer or fails; the call is made in both cases. *)
Lemma request_cases (self : ScanAPIRequestor) (ep method : string)
      (data_ : payload) (params_ : list (string * json)) (req : Request)
      (w : World) :
  Requestor.call self ep method data_ params_ = Some req ->
  (exists j, answers (sent w) req j
             /\ Requestor.request self ep method data_ params_ true w
                = (Ok (Requestor.set_body self j), sends w [req]))
  \/ (exists e, Requestor.request self ep method data_ params_ true w
                = (Raise e, sends w [req])).
Proof.
  intros Hcall. rewrite (request_run _ _ _ _ _ _ req w Hcall). cbn zeta.
  destruct (Z.eqb_spec (status_code (respond (sent w) req)) 200) as [Hs|Hs];
    cbn [negb]; [|right; eauto].
  destruct (json_loads (text (respond (sent w) req))) as [j|] eqn:Hj;
    [|right; eauto].
  left. exists j. repeat split; assumption.
Qed.

End Requestor_methods.

(** X1. A request method other than get, delete and post is refused with a
    [ValueError] before any HTTP call is made. *)
Theorem request_refuses_other_methods
    (R : Runtime) (self : ScanAPIRequestor) (ep method : string)
    (data_ : payload) (params_ : list (string * json)) (jsonresponse : bool)
    (w : World) :
  ~ In method ["get"; "delete"; "post"] ->
  Requestor.request self ep method data_ params_ jsonresponse w
  = (Raise (ValueError "invalid request method"), w).
Proof.
  intros Hm. unfold Requestor.request, Requestor.call, bind.
  destruct (String.eqb_spec method "get") as [->|_]; [elim Hm; cbn; auto|].
  destruct (String.eqb_spec method "delete") as [->|_]; [elim Hm; cbn; auto|].
  destruct (String.eqb_spec method "post") as [->|_]; [elim Hm; cbn; auto|].
  reflexivity.
Qed.

Lemma request_refuses_other_methods_witness :
  @Requestor.request Fixture.rt Fixture.requestor "scan" "put" NoData [] true world0
  = (Raise (ValueError "invalid request method"), world0).
Proof.
  apply (request_refuses_other_methods Fixture.rt).
  cbn. intros [E|[E|[E|[]]]]; discriminate E.
Defined.

(** X2. Completion of a scan is read from the [completed] key of the answer
    to one GET of [scan/results] that carries the scan id and neither a
    minimum CVSS nor the no-output flag; when the decoded answer has no
    such key the call fails with [KeyError] after the request was made, and
    with [TypeError] when the answer is not an object. *)
Theorem completion_is_the_completed_key
    (R : Runtime) (self : ScanAPIRequestor) (scanid j : json) (w : World) :
  answers (sent w) (results_request self scanid None false) j ->
  snd (request_scan_completed self scanid w)
  = sends w [results_request self scanid None false]
  /\ (forall kv c, j = JDict kv -> assoc "completed" kv = Some c ->
        fst (request_scan_completed self scanid w)
        = Ok (Requestor.set_body self j, c))
  /\ (forall kv, j = JDict kv -> assoc "completed" kv = None ->
        fst (request_scan_completed self scanid w) = Raise (KeyError "completed"))
  /\ ((forall kv, j <> JDict kv) ->
        fst (request_scan_completed self scanid w) = Raise TypeError).
Proof.
  intros Ha. rewrite (request_scan_completed_run self scanid j w Ha).
  cbn [fst snd]. split; [reflexivity|]. split; [|split].
  - intros kv c -> Hc. cbn. now rewrite Hc.
  - intros kv -> Hc. cbn. now rewrite Hc.
  - intros Hnd. destruct j; try reflexivity. now elim (Hnd kv).
Qed.

Lemma completion_is_the_completed_key_witness :
  fst (@request_scan_completed Station.rt Station.requestor (JStr "scan-7") world0)
  = Ok (Requestor.set_body Station.requestor Station.pending, JBool false).
Proof.
  destruct (completion_is_the_completed_key Station.rt Station.requestor
              (JStr "scan-7") Station.pending world0) as (_ & Hkey & _).
  - split; reflexivity.
  - exact (Hkey _ (JBool false) eq_refl eq_refl).
Defined.

(** ** Listing policies and starting a scan *)

Section Policies.

Context {R : Runtime} {Y : Pylib}.
Local Open Scope list_scope.

Lemma prints_nil (w : World) : prints w [] = w.
Proof. destruct w. unfold prints. cbn. now rewrite app_nil_r. Qed.

Lemma prints_prints (w : World) (a b : list string) :
  prints (prints w a) b = prints w (a ++ b).
Proof. unfold prints. cbn. now rewrite app_assoc. Qed.

Lemma print_lines_run (ps : list json) (lines : list string) (w : World) :
  map_result policy_line ps = Ok lines ->
  for_each ps (fun x => do line <- lift (policy_line x); write_stdout line) w
  = (Ok tt, prints w lines).
Proof.
  revert lines w. induction ps as [|x ps IH]; intros lines w Hm;
    cbn [map_result] in Hm; cbn [for_each].
  - injection Hm as <-. now rewrite prints_nil.
  - destruct (policy_line x) as [line|e] eqn:Hx; [|discriminate].
    destruct (map_result policy_line ps) as [ls|e] eqn:Hps; [|discriminate].
    injection Hm as <-. unfold bind at 1. unfold bind at 1. unfold lift at 1.
    unfold write_stdout at 1. cbv beta iota.
    rewrite (IH ls _ eq_refl). unfold prints. cbn. now rewrite <- app_assoc.
Qed.

Lemma print_lines_stop (good rest : list json) (bad : json)
      (lines : list string) (e : exn) (w : World) :
  map_result policy_line good = Ok lines ->
  policy_line bad = Raise e ->
  for_each (good ++ bad :: rest)
           (fun x => do line <- lift (policy_line x); write_stdout line) w
  = (Raise e, prints w lines).
Proof.
  revert lines w. induction good as [|x good IH]; intros lines w Hm Hbad;
    cbn [map_result] in Hm; cbn [for_each app].
  - injection Hm as <-. unfold bind, lift. rewrite Hbad. now rewrite prints_nil.
  - destruct (policy_line x) as [line|e'] eqn:Hx; [|discriminate].
    destruct (map_result policy_line good) as [ls|e'] eqn:Hps; [|discriminate].
    injection Hm as <-. unfold bind at 1. unfold bind at 1. unfold lift at 1.
    unfold write_stdout at 1. cbv beta iota.
    rewrite (IH ls _ eq_refl Hbad). unfold prints. cbn. now rewrite <- app_assoc.
Qed.

Lemma map_result_length {A B} (g : A -> result B) (l : list A) (l' : list B) :
  map_result g l = Ok l' -> length l' = length l.
Proof.
  revert l'. induction l as [|x l IH]; intros l'; cbn.
  - now intros [= <-].
  - destruct (g x); [|discriminate].
    destruct (map_result g l) as [ys|]; [|discriminate].
    intros [= <-]. cbn. now rewrite (IH ys eq_refl).
Qed.

Lemma get_policies_prints_lines (requestor : ScanAPIRequestor)
      (ps : list json) (lines : list string) (w : World) :
  answers (sent w) (policies_request requestor) (JList ps) ->
  map_result policy_line ps = Ok lines ->
  get_policies requestor w
  = (Ok (Requestor.set_body requestor (JList ps)),
     prints (sends w [policies_request requestor]) lines)
  /\ length lines = length ps.
Proof.
  intros Ha Hlines. split; [|now apply map_result_length in Hlines].
  unfold get_policies, bind at 1.
  rewrite (request_policies_run requestor (JList ps) w Ha). cbn [fst snd].
  unfold bind at 1. unfold lift at 1. cbn [iterate].
  unfold bind at 1. now rewrite (print_lines_run ps lines _ Hlines).
Qed.

End Policies.

(** X3. When the service answers the policy request with a list whose
    entries all have [id], [name] and [description], [get_policies] makes
    that one request and prints one line per policy, in the order of the
    list; an empty list prints nothing. *)
Theorem get_policies_prints_each_policy
    (R : Runtime) (Y : Pylib) (requestor : ScanAPIRequestor)
    (ps : list json) (lines : list string) (w : World) :
  answers (sent w) (policies_request requestor) (JList ps) ->
  map_result policy_line ps = Ok lines ->
  get_policies requestor w
  = (Ok (Requestor.set_body requestor (JList ps)),
     prints (sends w [policies_request requestor]) lines)
  /\ length lines = length ps.
Proof.
  intros Ha Hlines. split; [|now apply map_result_length in Hlines].
  unfold get_policies, bind at 1.
  rewrite (request_policies_run requestor (JList ps) w Ha). cbn [fst snd].
  unfold bind at 1. unfold lift at 1. cbn [iterate].
  unfold bind at 1. now rewrite (print_lines_run ps lines _ Hlines).
Qed.

Lemma get_policies_prints_each_policy_witness :
  @get_policies Station.rt Station.lib Station.requestor world0
  = (Ok (Requestor.set_body Station.requestor Station.policies),
     prints (sends world0 [policies_request Station.requestor])
       [("id=1 name='default' description='Default policy'" ++ nl)%string;
        ("id=2 name='deep' description='Deep scan'" ++ nl)%string]).
Proof.
  refine (proj1 (get_policies_prints_each_policy Station.rt Station.lib
                   Station.requestor _ _ world0 _ _)).
  - split; reflexivity.
  - reflexivity.
Defined.

(** X4. [get_policies] prints as it goes: when an entry of the list lacks
    one of the three keys (or is no object), the lines of the entries
    before it have been printed and the command fails with the error of
    that entry; the entries after it are not printed. *)
Theorem get_policies_stops_at_bad_entry
    (R : Runtime) (Y : Pylib) (requestor : ScanAPIRequestor)
    (good rest : list json) (bad : json) (lines : list string) (e : exn)
    (w : World) :
  answers (sent w) (policies_request requestor) (JList (good ++ bad :: rest)) ->
  map_result policy_line good = Ok lines ->
  policy_line bad = Raise e ->
  get_policies requestor w
  = (Raise e, prints (sends w [policies_request requestor]) lines).
Proof.
  intros Ha Hlines Hbad.
  unfold get_policies, bind at 1.
  rewrite (request_policies_run requestor _ w Ha). cbn [fst snd].
  unfold bind at 1. unfold lift at 1. cbn [iterate].
  unfold bind at 1. now rewrite (print_lines_stop good rest bad lines e _ Hlines Hbad).
Qed.

Lemma get_policies_stops_at_bad_entry_witness :
  let first := JDict [("id", JInt 1); ("name", JStr "default");
                      ("description", JStr "Default policy")] in
  let second := JDict [("id", JInt 2); ("name", JStr "deep")] in
  let svc := fun (_ : list Request) (_ : Request) =>
               {| status_code := 200;
                  text := Fixture.dumps (JList [first; second; first]) |} in
  @get_policies (Fixture.runtime svc [JList [first; second; first]] [])
     Station.lib Station.requestor world0
  = (Raise (KeyError "description"),
     prints (sends world0 [policies_request Station.requestor])
       [("id=1 name='default' description='Default policy'" ++ nl)%string]).
Proof.
  intros first second svc.
  apply (get_policies_stops_at_bad_entry
           (Fixture.runtime svc [JList [first; second; first]] []) Station.lib
           Station.requestor [first] [first] second).
  - split; reflexivity.
  - reflexivity.
  - reflexivity.
Defined.

(** X5. [run_scan] asks for the policies first and submits the scan only
    when the policy is the name of one of them: whatever the service
    answers, either the policy request is the only call made and no scan
    id is returned, or the scan request follows it and the policy was
    found among the names. *)
Theorem run_scan_checks_policy_first
    (R : Runtime) (requestor : ScanAPIRequestor) (targets policy : string)
    (w : World) :
  let out := run_scan requestor targets policy w in
  (sent (snd out) = (sent w ++ [policies_request requestor])%list
   /\ is_ok (fst out) = false)
  \/ (sent (snd out)
      = (sent w ++ [policies_request requestor;
                    scan_request requestor targets policy])%list
      /\ exists j xs names,
           answers (sent w) (policies_request requestor) j
           /\ iterate j = Ok xs
           /\ map_result (fun x => getitem x "name") xs = Ok names
           /\ policy_in policy names = true).
Proof.
  intros out. assert (Hout : out = run_scan requestor targets policy w)
    by reflexivity. clearbody out.
  destruct (request_cases requestor "policies" "get" NoData []
              (policies_request requestor) w eq_refl) as [(j & Ha & Hrun)|(e & Hrun)];
    unfold run_scan, request_policies in Hout; unfold bind at 1 in Hout;
    unfold bind at 1 in Hout; rewrite Hrun in Hout;
    [|subst out; left; split; reflexivity].
  unfold ret at 1 in Hout. cbn [fst snd] in Hout.
  unfold bind at 1 in Hout. unfold lift at 1 in Hout.
  cbn [Requestor.set_body body] in Hout.
  destruct (iterate j) as [xs|e] eqn:Hxs; [|subst out; left; split; reflexivity].
  unfold bind at 1 in Hout. unfold lift at 1 in Hout.
  destruct (map_result (fun x => getitem x "name") xs) as [names|e] eqn:Hn;
    [|subst out; left; split; reflexivity].
  destruct (policy_in policy names) eqn:Hin; cbn [negb] in Hout;
    [|subst out; left; split; reflexivity].
  right. split; [|exists j, xs, names; repeat split; solve [assumption | apply Ha]].
  unfold bind at 1 in Hout. unfold start_scan in Hout. unfold bind at 1 in Hout.
  destruct (request_cases (Requestor.set_body requestor j) "scan" "post"
              (Form [("targets", JStr targets); ("policy", JStr policy)]) []
              (scan_request requestor targets policy)
              (sends w [policies_request requestor]) eq_refl)
    as [(j' & _ & Hrun')|(e & Hrun')]; rewrite Hrun' in Hout.
  - unfold ret at 1 in Hout. cbn [fst snd] in Hout.
    unfold bind at 1 in Hout. unfold lift at 1 in Hout.
    destruct (getitem _ "scanid"); subst out; cbn; now rewrite <- app_assoc.
  - subst out. cbn. now rewrite <- app_assoc.
Qed.

(** X6. When the policy is not the name of any listed policy, [run_scan]
    writes the error to standard error and exits with status 1; the policy
    request is the only call made. *)
Theorem run_scan_unknown_policy_exits
    (R : Runtime) (requestor : ScanAPIRequestor) (targets policy : string)
    (j : json) (xs names : list json) (w : World) :
  answers (sent w) (policies_request requestor) j ->
  iterate j = Ok xs ->
  map_result (fun x => getitem x "name") xs = Ok names ->
  policy_in policy names = false ->
  run_scan requestor targets policy w
  = (Raise (SystemExit 1),
     warns (sends w [policies_request requestor])
       [("Error: policy " ++ policy ++ " not found" ++ nl)%string]).
Proof.
  intros Ha Hxs Hn Hin. unfold run_scan, bind at 1.
  rewrite (request_policies_run requestor j w Ha). cbn [fst snd].
  unfold bind at 1, lift at 1. rewrite Hxs.
  unfold bind at 1, lift at 1. rewrite Hn, Hin. reflexivity.
Qed.

Lemma run_scan_unknown_policy_exits_witness :
  @run_scan Station.rt Station.requestor "10.1.1.1" "quick" world0
  = (Raise (SystemExit 1),
     warns (sends world0 [policies_request Station.requestor])
       [("Error: policy quick not found" ++ nl)%string]).
Proof.
  apply (run_scan_unknown_policy_exits Station.rt Station.requestor
           "10.1.1.1" "quick" Station.policies
           [JDict [("id", JInt 1); ("name", JStr "default");
                   ("description", JStr "Default policy")];
            JDict [("id", JInt 2); ("name", JStr "deep");
                   ("description", JStr "Deep scan")]]
           [JStr "default"; JStr "deep"]).
  - split; reflexivity.
  - reflexivity.
  - reflexivity.
  - reflexivity.
Defined.

(** X7. When the policy is the name of a listed policy and the service
    accepts the scan, [run_scan] makes the policy request and then one
    form-encoded scan request with the targets and the policy, and returns
    the [scanid] of the answer. *)
Theorem run_scan_known_policy_submits
    (R : Runtime) (requestor : ScanAPIRequestor) (targets policy : string)
    (j j' scanid : json) (xs names : list json) (w : World) :
  answers (sent w) (policies_request requestor) j ->
  iterate j = Ok xs ->
  map_result (fun x => getitem x "name") xs = Ok names ->
  policy_in policy names = true ->
  answers (sent w ++ [policies_request requestor])%list
          (scan_request requestor targets policy) j' ->
  getitem j' "scanid" = Ok scanid ->
  run_scan requestor targets policy w
  = (Ok (Requestor.set_body requestor j', scanid),
     sends w [policies_request requestor;
              scan_request requestor targets policy]).
Proof.
  intros Ha Hxs Hn Hin Ha' Hid. unfold run_scan, bind at 1.
  rewrite (request_policies_run requestor j w Ha). cbn [fst snd].
  unfold bind at 1, lift at 1. rewrite Hxs.
  unfold bind at 1, lift at 1. rewrite Hn, Hin. cbn [negb].
  unfold bind at 1.
  rewrite (start_scan_run (Requestor.set_body requestor j) targets policy j'
             (sends w [policies_request requestor]) Ha').
  cbn [fst snd]. unfold bind at 1, lift at 1. rewrite Hid.
  unfold ret, sends. cbn. now rewrite <- app_assoc.
Qed.

Lemma run_scan_known_policy_submits_witness :
  @run_scan Station.rt Station.requestor "web.example" "deep" world0
  = (Ok (Requestor.set_body Station.requestor Station.started, JStr "scan-7"),
     sends world0 [policies_request Station.requestor;
                   scan_request Station.requestor "web.example" "deep"]).
Proof.
  apply (run_scan_known_policy_submits Station.rt Station.requestor
           "web.example" "deep" Station.policies Station.started (JStr "scan-7")
           [JDict [("id", JInt 1); ("name", JStr "default");
                   ("description", JStr "Default policy")];
            JDict [("id", JInt 2); ("name", JStr "deep");
                   ("description", JStr "Deep scan")]]
           [JStr "default"; JStr "deep"]).
  - split; reflexivity.
  - reflexivity.
  - reflexivity.
  - reflexivity.
  - split; reflexivity.
  - reflexivity.
Defined.

(** ** The event emitter *)

Section Emitter.

Context {R : Runtime} {S : Schema}.
Local Open Scope list_scope.

Lemma parse_results_run (sourcename zone_ : string) (ds : list HostResult)
      (w : World) :
  map_m (fun x => MozDef._parse_result sourcename x zone_) ds w
  = (Ok (map (event_of sourcename (utcnow w) zone_) ds), w).
Proof.
  induction ds as [|x ds IH]; cbn [map_m map]; [reflexivity|].
  unfold bind at 1. unfold MozDef._parse_result at 1, bind at 1, now at 1.
  unfold ret at 1. unfold bind at 1. rewrite IH. reflexivity.
Qed.

Lemma mozdef_init_run (resp : ScanResultDocument) (dest : string) (w : World) :
  MozDef.init resp dest w
  = (Ok {| _sourcename := "scanapi"; _mozdef_url := dest;
           _events := map (event_of "scanapi" (utcnow w) (zone resp)) (details resp);
           _use_stdout := String.eqb dest "stdout" |}, w).
Proof.
  unfold MozDef.init, bind. now rewrite parse_results_run.
Qed.

Lemma post_events_run (dest : string) (evs : list SecurityEvent) (w : World) :
  for_each evs (fun x => do _ <- http (event_post dest x); ret tt) w
  = (Ok tt, sends w (map (event_post dest) evs)).
Proof.
  revert w. induction evs as [|x evs IH]; intros w; cbn [for_each map].
  - now rewrite sends_nil.
  - unfold bind at 1. unfold bind at 1. unfold http at 1. unfold ret at 1.
    rewrite IH. unfold sends. cbn. now rewrite <- app_assoc.
Qed.

Lemma mozdef_post_run (m : ScanAPIMozDef) (w : World) :
  MozDef.post m w
  = if _use_stdout m then
      (Ok tt, prints w [(json_dumps (Some 4) (JList (map event_json (_events m)))
                         ++ nl)%string])
    else (Ok tt, sends w (map (event_post (_mozdef_url m)) (_events m))).
Proof.
  unfold MozDef.post. destruct (_use_stdout m); [reflexivity|].
  apply (post_events_run (_mozdef_url m)).
Qed.

End Emitter.

(** X8. Building the emitter reads the clock and nothing else: it makes no
    request and writes nothing.  It holds one event per host entry, in the
    order of the entries; each event takes over the host name, address,
    system, vulnerabilities, scan times and credentialed flag of its entry,
    and has an owner, respectively exempt vulnerabilities, exactly when
    the entry has.  Standard output is chosen exactly by the destination
    [stdout]. *)
Theorem emitter_has_one_event_per_host
    (R : Runtime) (resp : ScanResultDocument) (dest : string) (w : World) :
  exists m,
    MozDef.init resp dest w = (Ok m, w)
    /\ Forall2 carries (details resp) (_events m)
    /\ Forall (fun ev => ev_zone ev = zone resp /\ ev_version ev = 2) (_events m)
    /\ (_use_stdout m = true <-> dest = "stdout").
Proof.
  eexists. split; [apply mozdef_init_run|]. cbn [_events _use_stdout].
  split; [|split].
  - induction (details resp) as [|x ds IH]; cbn; constructor; [|exact IH].
    repeat split.
  - apply List.Forall_forall. intros ev Hev. apply in_map_iff in Hev.
    destruct Hev as (x & <- & _). split; reflexivity.
  - apply String.eqb_eq.
Qed.

(** X9. Delivery to standard output writes the whole list of events once,
    with indent 4, and makes no request.  Delivery to a URL makes one POST
    per event, in order, writes nothing, and succeeds whatever the collector
    answers: the status of the responses is not looked at. *)
Theorem emitter_delivery
    (R : Runtime) (S : Schema) (m : ScanAPIMozDef) (w : World) :
  (_use_stdout m = true ->
   MozDef.post m w
   = (Ok tt, prints w [(json_dumps (Some 4) (JList (map event_json (_events m)))
                        ++ nl)%string]))
  /\ (_use_stdout m = false ->
      MozDef.post m w
      = (Ok tt, sends w (map (event_post (_mozdef_url m)) (_events m)))).
Proof.
  rewrite mozdef_post_run. split; intros ->; reflexivity.
Qed.

Lemma emitter_delivery_witness :
  exists m,
    @MozDef.init Station.rt Station.document "https://mozdef/events" world0
    = (Ok m, world0)
    /\ status_code (Station.services [] (@event_post Station.rt Station.schema
                                           "https://mozdef/events"
                                           (event_of "scanapi" "" "dmz"
                                              (Fixture.host "h1" "10.0.0.1")))) = 503
    /\ @MozDef.post Station.rt Station.schema m world0
       = (Ok tt, sends world0
                   (map (@event_post Station.rt Station.schema "https://mozdef/events")
                      (_events m)))
    /\ length (_events m) = 3%nat.
Proof.
  eexists. split; [reflexivity|]. split; [reflexivity|]. split; [|reflexivity].
  refine (proj2 (emitter_delivery Station.rt Station.schema _ world0) _).
  reflexivity.
Defined.

(** ** Fetching results *)

Section Results.

Context {R : Runtime} {S : Schema}.
Local Open Scope list_scope.

Lemma poll_run (self : ScanAPIRequestor) (scanid : json) (b : bool) (w : World) :
  poll_says (sent w) (results_request self scanid None false) b ->
  exists j c,
    request_scan_completed self scanid w
    = (Ok (Requestor.set_body self j, c),
       sends w [results_request self scanid None false])
    /\ getitem j "completed" = Ok c
    /\ truthy c = b.
Proof.
  intros (j & c & Ha & Hc & Hb). exists j, c.
  rewrite (request_scan_completed_run self scanid j w Ha), Hc. auto.
Qed.

Lemma poll_cases (self : ScanAPIRequestor) (scanid : json) (w : World) :
  (exists j c,
     request_scan_completed self scanid w
     = (Ok (Requestor.set_body self j, c),
        sends w [results_request self scanid None false])
     /\ getitem j "completed" = Ok c)
  \/ (exists e,
        request_scan_completed self scanid w
        = (Raise e, sends w [results_request self scanid None false])).
Proof.
  remember (request_scan_completed self scanid w) as out eqn:Hout.
  unfold request_scan_completed, request_results in Hout.
  unfold bind at 1 in Hout. unfold bind at 1 in Hout.
  destruct (request_cases self "scan/results" "get" NoData
              [("scanid", scanid); ("mincvss", opt_json None); ("nooutput", JNull)]
              (results_request self scanid None false) w eq_refl)
    as [(j & _ & Hrun)|(e & Hrun)]; rewrite Hrun in Hout;
    [|right; exists e; exact Hout].
  unfold ret at 1 in Hout. cbn [fst snd] in Hout.
  unfold bind at 1 in Hout. unfold lift at 1 in Hout.
  cbn [Requestor.set_body body] in Hout.
  destruct (getitem j "completed") as [c|e] eqn:Hc.
  - left. exists j, c. split; [exact Hout | exact Hc].
  - right. exists e. exact Hout.
Qed.

(** The key of the indicator service, when one is needed. *)
Lemma get_results_with_key (getenv : string -> option string)
      (requestor : ScanAPIRequestor) (scanid : json)
      (mozdef_ mincvss_ serviceapi_ : option string) (csv_ nooutput_ : bool)
      (w : World) :
  serviceapi_ = None \/ (exists k, getenv "SERVICEAPIKEY" = Some k) ->
  exists sapikey,
    (serviceapi_ = None \/ getenv "SERVICEAPIKEY" = Some sapikey)
    /\ get_results getenv requestor scanid mozdef_ mincvss_ serviceapi_ csv_
         nooutput_ w
       = (do c <- request_scan_completed requestor scanid;
          if negb (truthy (snd c)) then
            do _ <- write_stdout ("Scan incomplete" ++ nl)%string;
            ret (fst c)
          else if csv_ then
            do t <- request_results_csv (fst c) scanid;
            do _ <- match snd t with
                    | JStr s => write_stdout s
                    | _ => raise TypeError
                    end;
            ret (fst t)
          else
            do r <- request_results (fst c) scanid mincvss_ nooutput_;
            do _ <-
              match serviceapi_ with
              | None =>
                  match mozdef_ with
                  | None => write_stdout (json_dumps (Some 4) (snd r) ++ nl)%string
                  | Some dest =>
                      do doc <- lift (read_document (snd r));
                      do m <- MozDef.init doc dest;
                      MozDef.post m
                  end
              | Some sapi =>
                  do doc <- lift (read_document (snd r));
                  do doc' <- Services.execute
                               {| _content := doc; _sapiurl := sapi;
                                  _sapikey := sapikey |};
                  match mozdef_ with
                  | None => write_stdout (json_dumps (Some 4) (document_json doc')
                                          ++ nl)%string
                  | Some dest =>
                      do m <- MozDef.init doc' dest;
                      MozDef.post m
                  end
              end;
            ret (fst r)) w.
Proof.
  intros Hkey. unfold get_results.
  destruct serviceapi_ as [sapi|].
  - destruct Hkey as [Hn|[k Hk]]; [discriminate|].
    exists k. split; [now right|]. rewrite Hk. reflexivity.
  - exists ""%string. split; [now left|]. reflexivity.
Qed.

End Results.

(** X10. When the indicator service is requested and [SERVICEAPIKEY] is not
    in the environment, [get_results] writes the error, exits with status 1
    and has made no request. *)
Theorem get_results_needs_the_service_key
    (R : Runtime) (S : Schema) (getenv : string -> option string)
    (requestor : ScanAPIRequestor) (scanid : json)
    (mozdef_ mincvss_ : option string) (sapi : string) (csv_ nooutput_ : bool)
    (w : World) :
  getenv "SERVICEAPIKEY" = None ->
  get_results getenv requestor scanid mozdef_ mincvss_ (Some sapi) csv_ nooutput_ w
  = (Raise (SystemExit 1),
     warns w [("Error: serviceapi integration requested but SERVICEAPIKEY not found in environment"
               ++ nl)%string]).
Proof.
  intros Hk. unfold get_results. rewrite Hk. reflexivity.
Qed.

Lemma get_results_needs_the_service_key_witness :
  @get_results Station.rt Station.schema (fun _ => None) Station.requestor
     (JStr "scan-7") None None (Some "https://sapi") false false world0
  = (Raise (SystemExit 1),
     warns world0 [("Error: serviceapi integration requested but SERVICEAPIKEY not found in environment"
                    ++ nl)%string]).
Proof.
  apply (get_results_needs_the_service_key Station.rt Station.schema).
  reflexivity.
Defined.

(** X11. A scan that is not completed is no error: [get_results] makes the
    completion poll only, prints [Scan incomplete] and returns; nothing is
    fetched, enriched or emitted, whatever the other options are. *)
Theorem get_results_incomplete_scan
    (R : Runtime) (S : Schema) (getenv : string -> option string)
    (requestor : ScanAPIRequestor) (scanid : json)
    (mozdef_ mincvss_ serviceapi_ : option string) (csv_ nooutput_ : bool)
    (w : World) :
  serviceapi_ = None \/ (exists k, getenv "SERVICEAPIKEY" = Some k) ->
  poll_says (sent w) (results_request requestor scanid None false) false ->
  exists j,
    get_results getenv requestor scanid mozdef_ mincvss_ serviceapi_ csv_
      nooutput_ w
    = (Ok (Requestor.set_body requestor j),
       prints (sends w [results_request requestor scanid None false])
         [("Scan incomplete" ++ nl)%string]).
Proof.
  intros Hkey Hpoll.
  destruct (get_results_with_key getenv requestor scanid mozdef_ mincvss_
              serviceapi_ csv_ nooutput_ w Hkey) as (k & _ & ->).
  destruct (poll_run requestor scanid false w Hpoll) as (j & c & Hrun & _ & Hc).
  exists j. unfold bind at 1. rewrite Hrun. cbn [fst snd]. rewrite Hc.
  reflexivity.
Qed.

Lemma get_results_incomplete_scan_witness :
  exists j,
    @get_results Station.rt Station.schema Station.environ Station.requestor
       (JStr "scan-7") (Some "https://mozdef/events") None (Some "https://sapi")
       true false world0
    = (Ok (Requestor.set_body Station.requestor j),
       prints (sends world0 [results_request Station.requestor (JStr "scan-7")
                               None false])
         [("Scan incomplete" ++ nl)%string]).
Proof.
  apply (get_results_incomplete_scan Station.rt Station.schema).
  - right. exists "k"%string. reflexivity.
  - exists Station.pending, (JBool false). repeat split.
Defined.

(** X12. With [csv] set and the scan completed, [get_results] fetches
    [scan/results/csv] after the completion poll and writes the text of the
    answer as it is; it neither asks for the JSON results nor enriches or
    emits, even when an indicator service and an event destination are
    given. *)
Theorem get_results_csv_bypasses_enrichment
    (R : Runtime) (S : Schema) (getenv : string -> option string)
    (requestor : ScanAPIRequestor) (scanid : json)
    (mozdef_ mincvss_ serviceapi_ : option string) (nooutput_ : bool)
    (w : World) :
  serviceapi_ = None \/ (exists k, getenv "SERVICEAPIKEY" = Some k) ->
  poll_says (sent w) (results_request requestor scanid None false) true ->
  let poll := results_request requestor scanid None false in
  let answer := respond (sent w ++ [poll])%list (csv_request requestor scanid) in
  status_code answer = 200 ->
  get_results getenv requestor scanid mozdef_ mincvss_ serviceapi_ true
    nooutput_ w
  = (Ok (Requestor.set_body requestor (JStr (text answer))),
     prints (sends w [poll; csv_request requestor scanid]) [text answer]).
Proof.
  intros Hkey Hpoll poll answer Hs.
  destruct (get_results_with_key getenv requestor scanid mozdef_ mincvss_
              serviceapi_ true nooutput_ w Hkey) as (k & _ & ->).
  destruct (poll_run requestor scanid true w Hpoll) as (j & c & Hrun & _ & Hc).
  unfold bind at 1. rewrite Hrun. cbn [fst snd]. rewrite Hc. cbn [negb].
  unfold bind at 1. unfold request_results_csv, bind at 1.
  rewrite (request_run (Requestor.set_body requestor j) "scan/results/csv" "get"
             NoData [("scanid", scanid)] false (csv_request requestor scanid)
             _ eq_refl).
  cbn zeta. cbn [sends sent]. fold poll. fold answer. rewrite Hs. cbn [negb Z.eqb].
  unfold ret, bind, write_stdout, prints, sends. cbn.
  now rewrite <- app_assoc.
Qed.

Lemma get_results_csv_bypasses_enrichment_witness :
  @get_results Station.rt Station.schema Station.environ Station.requestor
     (JStr "scan-7") (Some "https://mozdef/events") None (Some "https://sapi")
     true false
     (sends world0 [results_request Station.requestor (JStr "scan-7") None false;
                    results_request Station.requestor (JStr "scan-7") None false])
  = (Ok (Requestor.set_body Station.requestor (JStr "host,name,risk")),
     prints (sends world0
               [results_request Station.requestor (JStr "scan-7") None false;
                results_request Station.requestor (JStr "scan-7") None false;
                results_request Station.requestor (JStr "scan-7") None false;
                csv_request Station.requestor (JStr "scan-7")])
       ["host,name,risk"%string]).
Proof.
  apply (get_results_csv_bypasses_enrichment Station.rt Station.schema
           Station.environ Station.requestor (JStr "scan-7")
           (Some "https://mozdef/events") None (Some "https://sapi") false).
  - right. exists "k"%string. reflexivity.
  - exists Station.finished, (JBool true). repeat split.
  - reflexivity.
Defined.

(** X13. Without indicator service and event destination, a completed scan
    is fetched with a second [scan/results] request that carries the
    minimum CVSS and the no-output flag, and the decoded answer is printed
    with indent 4. *)
Theorem get_results_prints_the_document
    (R : Runtime) (S : Schema) (getenv : string -> option string)
    (requestor : ScanAPIRequestor) (scanid : json) (mincvss_ : option string)
    (nooutput_ : bool) (j : json) (w : World) :
  poll_says (sent w) (results_request requestor scanid None false) true ->
  let poll := results_request requestor scanid None false in
  let fetch := results_request requestor scanid mincvss_ nooutput_ in
  answers (sent w ++ [poll])%list fetch j ->
  get_results getenv requestor scanid None mincvss_ None false nooutput_ w
  = (Ok (Requestor.set_body requestor j),
     prints (sends w [poll; fetch]) [(json_dumps (Some 4) j ++ nl)%string]).
Proof.
  intros Hpoll poll fetch Ha. subst poll fetch.
  destruct (get_results_with_key getenv requestor scanid None mincvss_
              None false nooutput_ w (or_introl eq_refl)) as (k & _ & ->).
  destruct (poll_run requestor scanid true w Hpoll) as (j0 & c & Hrun & _ & Hc).
  unfold bind at 1. rewrite Hrun. cbn [fst snd]. rewrite Hc. cbn [negb].
  unfold bind at 1.
  rewrite (request_results_run (Requestor.set_body requestor j0) scanid
             mincvss_ nooutput_ j
             (sends w [results_request requestor scanid None false]) Ha).
  cbn [fst snd]. unfold ret, bind, write_stdout, prints, sends. cbn.
  now rewrite <- app_assoc.
Qed.

Lemma get_results_prints_the_document_witness :
  @get_results Station.rt Station.schema Station.environ Station.requestor
     (JStr "scan-7") None (Some "7.0") None false true
     (sends world0 [results_request Station.requestor (JStr "scan-7") None false;
                    results_request Station.requestor (JStr "scan-7") None false])
  = (Ok (Requestor.set_body Station.requestor Station.finished),
     prints (sends world0
               [results_request Station.requestor (JStr "scan-7") None false;
                results_request Station.requestor (JStr "scan-7") None false;
                results_request Station.requestor (JStr "scan-7") None false;
                results_request Station.requestor (JStr "scan-7") (Some "7.0") true])
       [(Fixture.dumps Station.finished ++ nl)%string]).
Proof.
  apply (get_results_prints_the_document Station.rt Station.schema
           Station.environ Station.requestor (JStr "scan-7") (Some "7.0") true
           Station.finished).
  - exists Station.finished, (JBool true). repeat split.
  - split; reflexivity.
Defined.

Section Enrich_and_emit.

Context {R : Runtime} {L : RuntimeLaws R}.
Local Open Scope list_scope.

(** The whole of [execute], for a well-behaved ownership service. *)
Lemma execute_run (self : ScanAPIServices) (w : World) :
  owner_service_ok self ->
  exists w0 own,
    Services.execute_indicators self w = (Ok tt, w0)
    /\ stdout w0 = stdout w
    /\ Services.execute self w
       = (Ok {| zone := zone (_content self);
                details := map (fun e => set_owner e (own (hostname e)))
                               (details (_content self));
                completed := completed (_content self) |},
          sends w0 (map (Services.owner_request self)
                        (set_iter (map hostname (details (_content self)))))).
Proof.
  intros Hok. destruct (execute_indicators_ok self w) as (w0 & Hind & Hout).
  pose proof (execute_ownership_run self Hok w0) as Hown. cbn zeta in Hown.
  exists w0,
    (fun h => owner_of_answer
                (lookup_answer self (sent w0)
                   (set_iter (map hostname (details (_content self)))) h)).
  split; [exact Hind|]. split; [exact Hout|].
  unfold Services.execute, bind. rewrite Hind, Hown. reflexivity.
Qed.

End Enrich_and_emit.

(** X14. With an indicator service, its key in the environment and an event
    destination other than [stdout], a completed scan is fetched, enriched
    and then emitted: the events are posted after the requests of the
    enrichment, one per host entry and in order, and every event carries
    an owner besides the host name and the vulnerabilities of its entry;
    nothing is printed. *)
Theorem get_results_enriches_then_emits
    (R : Runtime) (L : RuntimeLaws R) (S : Schema)
    (getenv : string -> option string) (requestor : ScanAPIRequestor)
    (scanid : json) (dest sapi k : string) (mincvss_ : option string)
    (nooutput_ : bool) (j : json) (doc : ScanResultDocument) (w : World) :
  getenv "SERVICEAPIKEY" = Some k ->
  dest <> "stdout" ->
  poll_says (sent w) (results_request requestor scanid None false) true ->
  let poll := results_request requestor scanid None false in
  let fetch := results_request requestor scanid mincvss_ nooutput_ in
  let services := {| _content := doc; _sapiurl := sapi; _sapikey := k |} in
  answers (sent w ++ [poll])%list fetch j ->
  read_document j = Ok doc ->
  owner_service_ok services ->
  exists w1 events,
    get_results getenv requestor scanid (Some dest) mincvss_ (Some sapi) false
      nooutput_ w
    = (Ok (Requestor.set_body requestor j),
       sends w1 (map (event_post dest) events))
    /\ (exists doc', Services.execute services (sends w [poll; fetch])
                     = (Ok doc', w1))
    /\ stdout w1 = stdout w
    /\ Forall2 (fun x ev =>
                  a_hostname (ev_asset ev) = hostname x
                  /\ ev_vulnerabilities ev = vulnerabilities x
                  /\ exists o, a_owner (ev_asset ev) = Some o)
               (details doc) events.
Proof.
  intros Hk Hdest Hpoll poll fetch services Ha Hdoc Hok. subst poll fetch.
  destruct (get_results_with_key getenv requestor scanid (Some dest) mincvss_
              (Some sapi) false nooutput_ w (or_intror (ex_intro _ k Hk)))
    as (k' & [Hn|Hk'] & ->); [discriminate|].
  assert (k' = k) as -> by congruence.
  destruct (poll_run requestor scanid true w Hpoll) as (j0 & c & Hrun & _ & Hc).
  unfold bind at 1. rewrite Hrun. cbn [fst snd]. rewrite Hc. cbn [negb].
  unfold bind at 1.
  rewrite (request_results_run (Requestor.set_body requestor j0) scanid
             mincvss_ nooutput_ j
             (sends w [results_request requestor scanid None false]) Ha).
  cbn [fst snd]. rewrite sends_sends. cbn [app].
  change (results_request (Requestor.set_body requestor j0) scanid mincvss_ nooutput_)
    with (results_request requestor scanid mincvss_ nooutput_).
  set (w2 := sends w [results_request requestor scanid None false;
                      results_request requestor scanid mincvss_ nooutput_]).
  destruct (execute_run services w2 Hok) as (w0 & own & _ & Hout & Hexec).
  set (w1 := sends w0 (map (Services.owner_request services)
                           (set_iter (map hostname (details (_content services)))))) in *.
  exists w1.
  exists (map (event_of "scanapi" (utcnow w1) (zone doc))
              (map (fun e => set_owner e (own (hostname e))) (details doc))).
  split; [|split; [|split]].
  - unfold bind at 1. unfold bind at 1. unfold lift at 1. rewrite Hdoc.
    unfold bind at 1. fold services. rewrite Hexec.
    unfold bind at 1. rewrite mozdef_init_run.
    rewrite mozdef_post_run. cbn [_use_stdout _events _mozdef_url zone details].
    destruct (String.eqb_spec dest "stdout") as [E|_]; [now elim Hdest|].
    reflexivity.
  - eexists. exact Hexec.
  - exact Hout.
  - cbn [_content services]. induction (details doc) as [|x ds IH]; cbn;
      constructor; [|exact IH].
    repeat split. eexists. reflexivity.
Qed.

Lemma station_laws : RuntimeLaws Station.rt.
Proof.
  split; cbn; unfold Fixture.first_occurrences.
  - intros l. apply NoDup_rev, NoDup_nodup.
  - intros l x. rewrite <- in_rev, nodup_In, <- in_rev. reflexivity.
  - intros ks x. reflexivity.
Qed.

Lemma station_service_ok (doc : ScanResultDocument) :
  @owner_service_ok Station.rt
     {| _content := doc; _sapiurl := "https://sapi"; _sapikey := "k" |}.
Proof.
  intros hist h. cbn. unfold Station.services, Fixture.services,
    Fixture.has_param. cbn.
  destruct (String.eqb h "h1"); cbn; [|discriminate].
  intros _. exists Fixture.owner_h1. eexists. split; reflexivity.
Qed.

Lemma get_results_enriches_then_emits_witness :
  exists w1 events,
    @get_results Station.rt Station.schema Station.environ Station.requestor
       (JStr "scan-7") (Some "https://mozdef/events") None (Some "https://sapi")
       false false
       (sends world0 [results_request Station.requestor (JStr "scan-7") None false;
                      results_request Station.requestor (JStr "scan-7") None false])
    = (Ok (Requestor.set_body Station.requestor Station.finished),
       sends w1 (map (@event_post Station.rt Station.schema "https://mozdef/events")
                     events))
    /\ length events = 3%nat.
Proof.
  destruct (get_results_enriches_then_emits Station.rt station_laws
              Station.schema Station.environ Station.requestor (JStr "scan-7")
              "https://mozdef/events" "https://sapi" "k" None false
              Station.finished Station.document
              (sends world0
                 [results_request Station.requestor (JStr "scan-7") None false;
                  results_request Station.requestor (JStr "scan-7") None false]))
    as (w1 & events & Hrun & _ & _ & Hall).
  - reflexivity.
  - discriminate.
  - exists Station.finished, (JBool true). repeat split.
  - split; reflexivity.
  - reflexivity.
  - apply station_service_ok.
  - exists w1, events. split; [exact Hrun|].
    apply Forall2_length in Hall. now rewrite <- Hall.
Defined.

(** ** Waiting for a scan *)

Section Waiting.

Context {R : Runtime}.
Local Open Scope list_scope.

Lemma sends_repeat_S (w : World) (req : Request) (n : nat) :
  sends (sends w [req]) (repeat req n) = sends w (repeat req (S n)).
Proof. rewrite sends_sends. reflexivity. Qed.

End Waiting.

(** X15. The wait returns only on a poll that reports completion: when it
    returns, at least one and at most [fuel] polls were made, all the same
    [scan/results] request and nothing else, nothing was written, and the
    body the requestor holds is an answer whose [completed] value is
    true. *)
Theorem wait_returns_on_completion_only
    (R : Runtime) (fuel : nat) (requestor requestor' : ScanAPIRequestor)
    (scanid : json) (w w' : World) :
  wait_completed fuel requestor scanid w = (Ok (Some requestor'), w') ->
  exists n c,
    (1 <= n <= fuel)%nat
    /\ w' = sends w (repeat (results_request requestor scanid None false) n)
    /\ getitem (body requestor') "completed" = Ok c
    /\ truthy c = true.
Proof.
  revert requestor w. induction fuel as [|fuel IH]; intros requestor w;
    cbn [wait_completed]; [discriminate|].
  unfold bind at 1.
  destruct (poll_cases requestor scanid w) as [(j & c & Hrun & Hc)|(e & Hrun)];
    rewrite Hrun; [|discriminate].
  cbn [fst snd]. destruct (truthy c) eqn:Hb; cbn [negb].
  - intros [= <- <-]. exists 1%nat, c. repeat split; [lia | lia | exact Hc | exact Hb].
  - intros Hrest. apply IH in Hrest. destruct Hrest as (n & c' & Hn & -> & Hc' & Hb').
    exists (S n), c'. split; [lia|]. split; [|split; assumption].
    change (results_request (Requestor.set_body requestor j) scanid None false)
      with (results_request requestor scanid None false).
    apply sends_repeat_S.
Qed.

Lemma wait_returns_on_completion_only_witness :
  exists requestor' n c,
    @wait_completed Station.rt 5 Station.requestor (JStr "scan-7") world0
    = (Ok (Some requestor'),
       sends world0 (repeat (results_request Station.requestor (JStr "scan-7")
                               None false) n))
    /\ n = 3%nat
    /\ getitem (body requestor') "completed" = Ok c
    /\ truthy c = true.
Proof.
  destruct (wait_returns_on_completion_only Station.rt 5 Station.requestor
              (Requestor.set_body Station.requestor Station.finished)
              (JStr "scan-7") world0
              (sends world0 (repeat (results_request Station.requestor
                                       (JStr "scan-7") None false) 3)))
    as (n & c & _ & _ & Hc & Hb).
  - reflexivity.
  - exists (Requestor.set_body Station.requestor Station.finished), 3%nat, c.
    split; [reflexivity|]. split; [reflexivity|]. split; assumption.
Defined.

(** X16. When the first [n] polls report a scan that is not completed and
    the next one reports completion, the wait returns after exactly
    [n + 1] polls, provided the fuel allows that many. *)
Theorem wait_polls_until_completion
    (R : Runtime) (n fuel : nat) (requestor : ScanAPIRequestor) (scanid : json)
    (w : World) :
  let req := results_request requestor scanid None false in
  (n < fuel)%nat ->
  (forall i, (i < n)%nat -> poll_says (sent w ++ repeat req i)%list req false) ->
  poll_says (sent w ++ repeat req n)%list req true ->
  exists requestor',
    wait_completed fuel requestor scanid w
    = (Ok (Some requestor'), sends w (repeat req (S n))).
Proof.
  intros req. subst req. revert fuel requestor w.
  induction n as [|n IH]; intros fuel requestor w Hfuel Hpending Hdone;
    (destruct fuel as [|fuel]; [lia|]); cbn [wait_completed]; unfold bind at 1.
  - cbn [repeat] in Hdone. rewrite app_nil_r in Hdone.
    destruct (poll_run requestor scanid true w Hdone) as (j & c & Hrun & _ & Hb).
    rewrite Hrun. cbn [fst snd]. rewrite Hb. cbn [negb]. eexists. reflexivity.
  - assert (H0 : poll_says (sent w) (results_request requestor scanid None false) false).
    { specialize (Hpending 0%nat ltac:(lia)). cbn [repeat] in Hpending.
      now rewrite app_nil_r in Hpending. }
    destruct (poll_run requestor scanid false w H0) as (j & c & Hrun & _ & Hb).
    rewrite Hrun. cbn [fst snd]. rewrite Hb. cbn [negb].
    destruct (IH fuel (Requestor.set_body requestor j)
                (sends w [results_request requestor scanid None false]))
      as (requestor' & Hwait).
    + lia.
    + intros i Hi. specialize (Hpending (S i) ltac:(lia)).
      cbn [sends sent]. rewrite <- app_assoc. exact Hpending.
    + cbn [sends sent]. rewrite <- app_assoc. exact Hdone.
    + exists requestor'. rewrite Hwait.
      change (results_request (Requestor.set_body requestor j) scanid None false)
        with (results_request requestor scanid None false).
      now rewrite sends_repeat_S.
Qed.

Lemma wait_polls_until_completion_witness :
  exists requestor',
    @wait_completed Station.rt 5 Station.requestor (JStr "scan-7") world0
    = (Ok (Some requestor'),
       sends world0 (repeat (results_request Station.requestor (JStr "scan-7")
                               None false) 3)).
Proof.
  apply (wait_polls_until_completion Station.rt 2 5 Station.requestor
           (JStr "scan-7") world0).
  - lia.
  - intros i Hi. exists Station.pending, (JBool false).
    destruct i as [|[|i]]; [| |lia]; repeat split.
  - exists Station.finished, (JBool true). repeat split.
Defined.

(** ** The command line *)

Section Commands.

Context {R : Runtime} {N : Netaddr} {Y : Pylib} {S : Schema}.
Local Open Scope list_scope.

Lemma config_run (environ : string -> option string) (u k : string) (w : World) :
  environ "SCANAPIURL" = Some u ->
  environ "SCANAPIKEY" = Some k ->
  config_from_env environ w = (Ok (u, k), w).
Proof. intros Hu Hk. unfold config_from_env. now rewrite Hu, Hk. Qed.

(** [domain] once the environment is read and neither [-P], [-r] nor [-D]
    is given. *)
Lemma domain_scan_branch (environ : string -> option string) (fuel : nat)
      (args : Args) (u k : string) (w : World) :
  environ "SCANAPIURL" = Some u ->
  environ "SCANAPIKEY" = Some k ->
  P args = false -> r args = None -> D args = None ->
  domain environ fuel args w
  = (do finished <-
       match s args with
       | Some targets_arg =>
           scan_command environ fuel (Requestor.init u k (noverify args)) args
             targets_arg
       | None =>
           do _ <- write_stdout ("Must specify something to do" ++ nl ++ nl)%string;
           do _ <- write_stdout help_text;
           raise (SystemExit 1)
       end;
     if (finished : bool) then raise (SystemExit 0) else ret tt) w.
Proof.
  intros Hu Hk HP Hr HD. unfold domain, bind at 1.
  rewrite (config_run environ u k w Hu Hk). cbn [fst snd].
  now rewrite HP, Hr, HD.
Qed.

End Commands.

Lemma parse_args_exits (code : Z) (out err : list string) (w : World) :
  parse_args (Exits code out err) w
  = (Raise (SystemExit code), warns (prints w out) err).
Proof.
  cbn [parse_args].
  assert (Hout : forall l w0, for_each l write_stdout w0 = (Ok tt, prints w0 l)).
  { induction l as [|x l IH]; intros w0.
    - destruct w0. unfold prints. cbn. now rewrite app_nil_r.
    - cbn [for_each]. unfold bind at 1. cbn [write_stdout]. rewrite IH.
      unfold prints, write_stdout. cbn. now rewrite <- app_assoc. }
  assert (Herr : forall l w0, for_each l write_stderr w0 = (Ok tt, warns w0 l)).
  { induction l as [|x l IH]; intros w0.
    - destruct w0. unfold warns. cbn. now rewrite app_nil_r.
    - cbn [for_each]. unfold bind at 1. cbn [write_stderr]. rewrite IH.
      unfold warns, write_stderr. cbn. now rewrite <- app_assoc. }
  unfold bind at 1. rewrite Hout. unfold bind at 1. rewrite Herr. reflexivity.
Qed.

(** X17. [domain] parses the command line before it reads the
    environment.  When [parse_args] leaves through [sys.exit] (status 0
    after the help text, status 2 for a command line it rejects), [domain]
    ends with that exit, having written what [parse_args] wrote and nothing
    about the environment, and no request is made.  Once [parse_args] has
    returned the options, whatever they are: without [SCANAPIURL] or
    [SCANAPIKEY] in the environment, [domain] stops before doing anything
    else; it names the missing variable (the URL when both are missing) on
    standard error and exits with status 1. *)
Theorem domain_needs_its_environment
    (R : Runtime) (N : Netaddr) (Y : Pylib) (S : Schema)
    (environ : string -> option string) (fuel : nat) (w : World) :
  environ "SCANAPIURL" = None \/ environ "SCANAPIKEY" = None ->
  exists v,
    environ v = None
    /\ (environ "SCANAPIURL" = None -> v = "SCANAPIURL")
    /\ (environ "SCANAPIURL" <> None -> v = "SCANAPIKEY")
    /\ (forall args,
          domain environ fuel args w
          = (Raise (SystemExit 1),
             warns w [("Error: environment variable '" ++ v ++ "' not found"
                       ++ nl)%string]))
    /\ (forall args,
          domain_of_command_line environ fuel (Namespace args) w
          = (Raise (SystemExit 1),
             warns w [("Error: environment variable '" ++ v ++ "' not found"
                       ++ nl)%string]))
    /\ (forall code out err,
          domain_of_command_line environ fuel (Exits code out err) w
          = (Raise (SystemExit code), warns (prints w out) err)).
Proof.
  intros Hmissing.
  assert (Hdomain : exists v,
    environ v = None
    /\ (environ "SCANAPIURL" = None -> v = "SCANAPIURL"%string)
    /\ (environ "SCANAPIURL" <> None -> v = "SCANAPIKEY"%string)
    /\ (forall args,
          domain environ fuel args w
          = (Raise (SystemExit 1),
             warns w [("Error: environment variable '" ++ v ++ "' not found"
                       ++ nl)%string]))).
  { destruct (environ "SCANAPIURL") as [u|] eqn:Hu.
    - destruct Hmissing as [Hm|Hm]; [discriminate|].
      exists "SCANAPIKEY"%string. repeat split; try assumption.
      + intros Hn. discriminate.
      + intros args. unfold domain, bind at 1. unfold config_from_env.
        now rewrite Hu, Hm.
    - exists "SCANAPIURL"%string. repeat split; try assumption.
      + intros Hn. now elim Hn.
      + intros args. unfold domain, bind at 1. unfold config_from_env.
        now rewrite Hu. }
  destruct Hdomain as (v & Hv & Hurl & Hkey & Hrun).
  exists v. split; [exact Hv|]. split; [exact Hurl|]. split; [exact Hkey|].
  split; [exact Hrun|]. split.
  - intros args. rewrite <- (Hrun args). reflexivity.
  - intros code out err. unfold domain_of_command_line, bind at 1.
    now rewrite parse_args_exits.
Qed.

Lemma domain_needs_its_environment_witness :
  let environ := fun v => if String.eqb v "SCANAPIURL" then Some "https://scan"
                          else None in
  @domain Station.rt Fixture.ipv4 Station.lib Station.schema
     environ 5 Station.no_args world0
  = (Raise (SystemExit 1),
     warns world0 [("Error: environment variable 'SCANAPIKEY' not found"
                    ++ nl)%string])
  /\ @domain_of_command_line Station.rt Fixture.ipv4 Station.lib Station.schema
       environ 5 (Namespace Station.no_args) world0
     = (Raise (SystemExit 1),
        warns world0 [("Error: environment variable 'SCANAPIKEY' not found"
                       ++ nl)%string])
  /\ @domain_of_command_line Station.rt Fixture.ipv4 Station.lib Station.schema
       environ 5 (Exits 0 [@help_text Station.lib] []) world0
     = (Raise (SystemExit 0), prints world0 [@help_text Station.lib])
  /\ @domain_of_command_line Station.rt Fixture.ipv4 Station.lib Station.schema
       environ 5
       (Exits 2 [] [("runscan.py: error: argument -s: expected one argument"
                     ++ nl)%string]) world0
     = (Raise (SystemExit 2),
        warns world0 [("runscan.py: error: argument -s: expected one argument"
                       ++ nl)%string]).
Proof.
  intros environ.
  destruct (domain_needs_its_environment Station.rt Fixture.ipv4 Station.lib
              Station.schema environ 5 world0)
    as (v & _ & _ & Hv & Hrun & Hargs & Hexit).
  - right. reflexivity.
  - rewrite Hrun, Hargs, !Hexit, Hv; [|discriminate].
    repeat split.
Defined.

(** X18. When nothing is asked for, or a scan is asked for without a
    policy, [domain] exits with status 1 and has made no request: in the
    first case it prints the notice and the help text, in the second the
    error about [-p], before the target file is even read. *)
Theorem domain_rejects_incomplete_arguments
    (R : Runtime) (N : Netaddr) (Y : Pylib) (S : Schema)
    (environ : string -> option string) (fuel : nat) (args : Args)
    (u k : string) (w : World) :
  environ "SCANAPIURL" = Some u ->
  environ "SCANAPIKEY" = Some k ->
  P args = false -> r args = None -> D args = None ->
  (s args = None ->
   domain environ fuel args w
   = (Raise (SystemExit 1),
      prints w [("Must specify something to do" ++ nl ++ nl)%string; help_text]))
  /\ (forall targets_arg, s args = Some targets_arg -> p args = None ->
      domain environ fuel args w
      = (Raise (SystemExit 1),
         warns w [("Error: policy must be specified with -p" ++ nl)%string])).
Proof.
  intros Hu Hk HP Hr HD.
  rewrite (domain_scan_branch environ fuel args u k w Hu Hk HP Hr HD).
  split.
  - intros ->. unfold bind, write_stdout, raise, prints. cbn.
    now rewrite <- app_assoc.
  - intros targets_arg -> Hp. unfold scan_command. rewrite Hp. reflexivity.
Qed.

Lemma domain_rejects_incomplete_arguments_witness :
  @domain Station.rt Fixture.ipv4 Station.lib Station.schema Station.environ 5
     Station.no_args world0
  = (Raise (SystemExit 1),
     prints world0 [("Must specify something to do" ++ nl ++ nl)%string;
                    "usage: runscan [-h] ..."%string]).
Proof.
  refine (proj1 (domain_rejects_incomplete_arguments Station.rt Fixture.ipv4
                   Station.lib Station.schema Station.environ 5 Station.no_args
                   "https://scan" "secret" world0 _ _ _ _ _) _);
    reflexivity.
Defined.

(** X19. [-P] has priority over every other command: with it, [domain]
    lists the policies and exits with status 0, and the policy request is
    the only call made, whatever [-r], [-D] and [-s] say. *)
Theorem domain_lists_policies_first
    (R : Runtime) (N : Netaddr) (Y : Pylib) (S : Schema)
    (environ : string -> option string) (fuel : nat) (args : Args)
    (u k : string) (ps : list json) (lines : list string) (w : World) :
  environ "SCANAPIURL" = Some u ->
  environ "SCANAPIKEY" = Some k ->
  P args = true ->
  let requestor := Requestor.init u k (noverify args) in
  answers (sent w) (policies_request requestor) (JList ps) ->
  map_result policy_line ps = Ok lines ->
  domain environ fuel args w
  = (Raise (SystemExit 0), prints (sends w [policies_request requestor]) lines).
Proof.
  intros Hu Hk HP requestor Ha Hlines. unfold domain, bind at 1.
  rewrite (config_run environ u k w Hu Hk). cbn [fst snd]. rewrite HP.
  fold requestor. unfold bind at 1. unfold bind at 1.
  destruct (get_policies_prints_lines requestor ps lines w Ha Hlines) as [-> _].
  reflexivity.
Qed.

Lemma domain_lists_policies_first_witness :
  let args := {| noverify := false; csv := false; filter_subnets := None;
                 mozdef := None; mincvss := None; nooutput := false;
                 serviceapi := None; s := Some "10.0.0.1"; p := Some "deep";
                 D := Some "600"; f := false; P := true; r := Some "scan-7" |} in
  @domain Station.rt Fixture.ipv4 Station.lib Station.schema Station.environ 5
     args world0
  = (Raise (SystemExit 0),
     prints (sends world0 [policies_request Station.requestor])
       [("id=1 name='default' description='Default policy'" ++ nl)%string;
        ("id=2 name='deep' description='Deep scan'" ++ nl)%string]).
Proof.
  intros args.
  apply (domain_lists_policies_first Station.rt Fixture.ipv4 Station.lib
           Station.schema Station.environ 5 args "https://scan" "secret"
           [JDict [("id", JInt 1); ("name", JStr "default");
                   ("description", JStr "Default policy")];
            JDict [("id", JInt 2); ("name", JStr "deep");
                   ("description", JStr "Deep scan")]]).
  - reflexivity.
  - reflexivity.
  - reflexivity.
  - split; reflexivity.
  - reflexivity.
Defined.

(** X20. [-D] with an argument that [int] rejects fails with the
    [ValueError] of the conversion: no purge request is made, nothing is
    printed, and the command does not end in an exit status. *)
Theorem domain_purge_rejects_non_integer
    (R : Runtime) (N : Netaddr) (Y : Pylib) (S : Schema)
    (environ : string -> option string) (fuel : nat) (args : Args)
    (u k seconds : string) (w : World) :
  environ "SCANAPIURL" = Some u ->
  environ "SCANAPIKEY" = Some k ->
  P args = false -> r args = None -> D args = Some seconds ->
  py_int seconds = None ->
  domain environ fuel args w
  = (Raise (ValueError "invalid literal for int()"), w).
Proof.
  intros Hu Hk HP Hr HD Hint. unfold domain, bind at 1.
  rewrite (config_run environ u k w Hu Hk). cbn [fst snd].
  rewrite HP, Hr, HD. unfold bind, purge_scans, Requestor.purge_scans, bind.
  rewrite Hint. reflexivity.
Qed.

Lemma domain_purge_rejects_non_integer_witness :
  let args := {| noverify := false; csv := false; filter_subnets := None;
                 mozdef := None; mincvss := None; nooutput := false;
                 serviceapi := None; s := None; p := None;
                 D := Some "5 minutes"; f := false; P := false; r := None |} in
  @domain Station.rt Fixture.ipv4 Station.lib Station.schema Station.environ 5
     args world0
  = (Raise (ValueError "invalid literal for int()"), world0).
Proof.
  intros args.
  apply (domain_purge_rejects_non_integer Station.rt Fixture.ipv4 Station.lib
           Station.schema Station.environ 5 args "https://scan" "secret"
           "5 minutes"); reflexivity.
Defined.

(** X21. A scan without [-f]: once the targets are read and filtered and
    [run_scan] has returned, [domain] prints the scan id and exits with
    status 0 when the id is a string, and fails with [TypeError] (the scan
    being already submitted) when it is not.  When reading or filtering
    the targets fails, the failure ends the command and no request is
    made. *)
Theorem domain_scan_without_follow
    (R : Runtime) (N : Netaddr) (Y : Pylib) (S : Schema)
    (environ : string -> option string) (fuel : nat) (args : Args)
    (u k targets_arg policy : string) (w : World) :
  environ "SCANAPIURL" = Some u ->
  environ "SCANAPIKEY" = Some k ->
  P args = false -> r args = None -> D args = None ->
  s args = Some targets_arg -> p args = Some policy -> f args = false ->
  let requestor := Requestor.init u k (noverify args) in
  (forall e, read_targets targets_arg = Raise e ->
             domain environ fuel args w = (Raise e, w))
  /\ (forall listed e,
        read_targets targets_arg = Ok listed ->
        domain_filter listed (filter_subnets args) = Raise e ->
        domain environ fuel args w = (Raise e, w))
  /\ (forall listed kept requestor' scanid w1,
        read_targets targets_arg = Ok listed ->
        domain_filter listed (filter_subnets args) = Ok kept ->
        run_scan requestor kept policy w = (Ok (requestor', scanid), w1) ->
        domain environ fuel args w
        = match scanid with
          | JStr id => (Raise (SystemExit 0), prints w1 [(id ++ nl)%string])
          | _ => (Raise TypeError, w1)
          end).
Proof.
  intros Hu Hk HP Hr HD Hs Hp Hf requestor.
  rewrite (domain_scan_branch environ fuel args u k w Hu Hk HP Hr HD).
  rewrite Hs. unfold scan_command. rewrite Hp. fold requestor.
  split; [|split].
  - intros e He. unfold bind, lift. now rewrite He.
  - intros listed e Hl He. unfold bind, lift. now rewrite Hl, He.
  - intros listed kept requestor' scanid w1 Hl Hkept Hrun.
    unfold bind at 1. unfold bind at 1. unfold lift at 1. rewrite Hl.
    unfold bind at 1. unfold lift at 1. rewrite Hkept.
    unfold bind at 1. rewrite Hrun, Hf. cbn [fst snd].
    destruct scanid; reflexivity.
Qed.

Lemma domain_scan_without_follow_witness :
  let args := {| noverify := false; csv := false;
                 filter_subnets := Some "subnets.txt";
                 mozdef := None; mincvss := None; nooutput := false;
                 serviceapi := None; s := Some "10.0.0.9,web.example";
                 p := Some "deep"; D := None; f := false; P := false;
                 r := None |} in
  @domain Station.rt Fixture.ipv4 Station.lib Station.schema Station.environ 5
     args world0
  = (Raise (SystemExit 0),
     prints (sends world0 [policies_request Station.requestor;
                           scan_request Station.requestor "web.example" "deep"])
       [("scan-7" ++ nl)%string]).
Proof.
  intros args.
  destruct (domain_scan_without_follow Station.rt Fixture.ipv4 Station.lib
              Station.schema Station.environ 5 args "https://scan" "secret"
              "10.0.0.9,web.example" "deep" world0
              eq_refl eq_refl eq_refl eq_refl eq_refl eq_refl eq_refl eq_refl)
    as (_ & _ & Hrun).
  exact (Hrun "10.0.0.9,web.example"%string "web.example"%string
           (Requestor.set_body Station.requestor Station.started)
           (JStr "scan-7") _ eq_refl eq_refl eq_refl).
Defined.

(** ** Preparing the targets *)

Section Targets.

Context {R : Runtime} {N : Netaddr} {Y : Pylib}.
Local Open Scope list_scope.

Lemma uncommented_filter (lines : list string) :
  Forall (fun x => x <> EmptyString) lines ->
  uncommented lines
  = Ok (List.filter (fun x => negb (String.prefix "#" x)) lines).
Proof.
  induction 1 as [|x lines Hx _ IH]; cbn [uncommented List.filter];
    [reflexivity|].
  destruct x as [|c x]; [now elim Hx|]. rewrite IH. cbn [String.prefix].
  destruct (ascii_dec "#" c) as [<-|Hne].
  - destruct x; reflexivity.
  - cbn [negb]. destruct (Ascii.eqb_spec c "#") as [->|_];
      [now elim Hne | reflexivity].
Qed.

Lemma split_nonempty (sep : ascii) (s0 : string) : split sep s0 <> [].
Proof.
  destruct s0 as [|c s0]; cbn; [discriminate|].
  destruct (Ascii.eqb c sep); [discriminate|].
  destruct (split sep s0); discriminate.
Qed.

Lemma join_cons (sep x : string) (y : string) (l : list string) :
  join sep (x :: y :: l) = (x ++ sep ++ join sep (y :: l))%string.
Proof. reflexivity. Qed.

Lemma join_split (sep : ascii) (s0 : string) :
  join (String sep EmptyString) (split sep s0) = s0.
Proof.
  induction s0 as [|c s0 IH]; [reflexivity|]. cbn [split].
  pose proof (split_nonempty sep s0) as Hne.
  destruct (split sep s0) as [|y l] eqn:Hs; [now elim Hne|].
  destruct (Ascii.eqb_spec c sep) as [->|_].
  - rewrite join_cons, IH. reflexivity.
  - destruct l as [|z l].
    + cbn in *. now rewrite IH.
    + rewrite join_cons, <- IH, join_cons. reflexivity.
Qed.

Lemma target_filter_no_filters (t : string) :
  plain_target t -> target_filter t [] = Ok false.
Proof.
  unfold plain_target, target_filter.
  destruct (IPAddress t) as [a|[]]; try contradiction; reflexivity.
Qed.

Lemma filter_targets_no_filters (targets : list string) :
  Forall plain_target targets -> filter_targets targets [] = Ok targets.
Proof.
  induction 1 as [|t targets Ht _ IH]; cbn; [reflexivity|].
  now rewrite (target_filter_no_filters t Ht), IH.
Qed.

Lemma in_filters_matches (a : ip) (filters : list string) :
  Forall (fun i => is_ok (IPNetwork i) = true) filters ->
  in_filters a filters = Ok (existsb (matches a) filters).
Proof.
  induction 1 as [|i filters Hi _ IH]; cbn [in_filters existsb];
    [reflexivity|].
  unfold matches at 1. destruct (IPNetwork i) as [n|e]; [|discriminate].
  destruct (contains a n); [reflexivity | exact IH].
Qed.

Lemma existsb_permutation {A} (g : A -> bool) (l l' : list A) :
  Permutation l l' -> existsb g l = existsb g l'.
Proof.
  induction 1 as [|x l l' _ IH|x y l|l l1 l2 _ IH1 _ IH2]; cbn.
  - reflexivity.
  - now rewrite IH.
  - destruct (g x), (g y); reflexivity.
  - congruence.
Qed.

End Targets.

(** X22. The [-s] argument names a target file when it can be opened: its
    lines whose first character is [#] are dropped and every other line,
    stripped, is a target, in the order of the file (a blank line gives an
    empty target, an indented [#] line is a target).  When opening fails
    with [IOError] the argument itself is the target list; any other
    failure ends the command. *)
Theorem read_targets_of_file_or_argument
    (R : Runtime) (Y : Pylib) (arg : string) :
  (readlines arg = Raise IOError -> read_targets arg = Ok arg)
  /\ (forall e, readlines arg = Raise e -> e <> IOError ->
                read_targets arg = Raise e)
  /\ (forall lines,
        readlines arg = Ok lines ->
        Forall (fun x => x <> EmptyString) lines ->
        read_targets arg
        = Ok (join "," (map py_strip
                          (List.filter (fun x => negb (String.prefix "#" x))
                                       lines)))).
Proof.
  unfold read_targets. split; [|split].
  - intros ->. reflexivity.
  - intros e -> Hne. destruct e; try reflexivity. now elim Hne.
  - intros lines -> Hlines. now rewrite (uncommented_filter lines Hlines).
Qed.

Lemma read_targets_of_file_or_argument_witness :
  @read_targets Station.rt Station.lib "targets.txt"
  = Ok "10.1.1.1,,# web,web.example"
  /\ @read_targets Station.rt Station.lib "10.1.1.1,web.example"
     = Ok "10.1.1.1,web.example".
Proof.
  split.
  - destruct (read_targets_of_file_or_argument Station.rt Station.lib
                "targets.txt") as (_ & _ & Hfile).
    rewrite (Hfile _ eq_refl); [reflexivity|].
    repeat constructor; discriminate.
  - destruct (read_targets_of_file_or_argument Station.rt Station.lib
                "10.1.1.1,web.example") as (Harg & _ & _).
    exact (Harg eq_refl).
Defined.

(** X23. When every filter entry parses, an IP target is excluded exactly
    when some entry contains it, so the answer does not depend on the
    order of the entries. *)
Theorem target_filter_ignores_filter_order
    (N : Netaddr) (t : string) (a : ip) (filters filters' : list string) :
  IPAddress t = Ok a ->
  Forall (fun i => is_ok (IPNetwork i) = true) filters ->
  Permutation filters filters' ->
  target_filter t filters = Ok (existsb (matches a) filters)
  /\ target_filter t filters' = target_filter t filters.
Proof.
  intros Ht Hparse Hperm. unfold target_filter. rewrite Ht.
  rewrite (in_filters_matches a filters Hparse).
  rewrite (in_filters_matches a filters'
             (Permutation_Forall Hperm Hparse)).
  split; [reflexivity|]. f_equal. symmetry. now apply existsb_permutation.
Qed.

Lemma target_filter_ignores_filter_order_witness :
  @target_filter Fixture.ipv4 "192.168.3.4" ["10.0.0.0/8"; "192.168.0.0/16"]
  = Ok true
  /\ @target_filter Fixture.ipv4 "192.168.3.4" ["192.168.0.0/16"; "10.0.0.0/8"]
     = @target_filter Fixture.ipv4 "192.168.3.4" ["10.0.0.0/8"; "192.168.0.0/16"].
Proof.
  destruct (target_filter_ignores_filter_order Fixture.ipv4 "192.168.3.4"
              3232236292 ["10.0.0.0/8"; "192.168.0.0/16"]
              ["192.168.0.0/16"; "10.0.0.0/8"]) as [Hin Hsame].
  - reflexivity.
  - repeat constructor.
  - apply perm_swap.
  - split; [exact Hin | exact Hsame].
Defined.

(** X24. Splitting a target string at the commas and joining the pieces
    with commas gives the string back; so without a filter file, a target
    string whose targets are addresses or fail as [AddrFormatError] is
    submitted unchanged. *)
Theorem unfiltered_targets_are_unchanged
    (R : Runtime) (N : Netaddr) (targets : string) :
  join "," (split "," targets) = targets
  /\ (Forall plain_target (split "," targets) ->
      domain_filter targets None = Ok targets).
Proof.
  split; [apply join_split|].
  intros Hplain. unfold domain_filter. cbn [load_subnet_filters].
  rewrite (filter_targets_no_filters _ Hplain). f_equal. apply join_split.
Qed.

Lemma unfiltered_targets_are_unchanged_witness :
  @domain_filter Station.rt Fixture.ipv4 "10.1.1.1,,web.example," None
  = Ok "10.1.1.1,,web.example,".
Proof.
  refine (proj2 (unfiltered_targets_are_unchanged Station.rt Fixture.ipv4
                   "10.1.1.1,,web.example,") _).
  repeat constructor.
Defined.

(** ** More on the enrichment *)

Section Severity.

Local Open Scope list_scope.

Lemma count_risk_cons (r0 : string) (v : Vulnerability) (l : list Vulnerability) :
  count_risk r0 (v :: l)
  = ((if String.eqb (risk v) r0 then 1 else 0) + count_risk r0 l)%Z.
Proof.
  unfold count_risk. cbn [List.filter].
  destruct (String.eqb (risk v) r0); cbn [length]; lia.
Qed.

Lemma count_risk_bounds (l : list Vulnerability) :
  (0 <= count_risk "critical" l /\ 0 <= count_risk "high" l
   /\ 0 <= count_risk "medium" l /\ 0 <= count_risk "low" l
   /\ count_risk "critical" l + count_risk "high" l
      + count_risk "medium" l + count_risk "low" l <= Z.of_nat (length l))%Z.
Proof.
  induction l as [|v l IH]; [unfold count_risk; cbn; lia|].
  rewrite !count_risk_cons. cbn [length]. rewrite Nat2Z.inj_succ.
  destruct (String.eqb_spec (risk v) "critical") as [E|_];
    [rewrite E; cbn; lia|].
  destruct (String.eqb_spec (risk v) "high") as [E|_];
    [rewrite E; cbn; lia|].
  destruct (String.eqb_spec (risk v) "medium") as [E|_];
    [rewrite E; cbn; lia|].
  destruct (String.eqb (risk v) "low"); lia.
Qed.

Lemma first_entries_from_length (earlier : list string) (vs : list Vulnerability) :
  (length (first_entries_from earlier vs) <= length vs)%nat.
Proof.
  revert earlier. induction vs as [|v vs IH]; intros earlier; cbn; [lia|].
  destruct (seen (name v) earlier); cbn; specialize (IH (name v :: earlier)); lia.
Qed.

Lemma first_entries_from_names (earlier : list string) (vs : list Vulnerability) :
  List.NoDup (map name (first_entries_from earlier vs))
  /\ (forall n, In n (map name (first_entries_from earlier vs)) ->
                ~ In n earlier /\ In n (map name vs)).
Proof.
  revert earlier. induction vs as [|v vs IH]; intros earlier; cbn.
  - split; [constructor | intros n []].
  - destruct (IH (name v :: earlier)) as [Hnd Hin].
    destruct (seen (name v) earlier) eqn:Hs; cbn.
    + split; [exact Hnd|]. intros n Hn. destruct (Hin n Hn) as [Hne Hvs].
      split; [intros Hc; apply Hne; now right | now right].
    + split.
      * constructor; [|exact Hnd]. intros Hc. destruct (Hin _ Hc) as [Hne _].
        apply Hne. now left.
      * intros n [<-|Hn].
        -- split; [|now left]. intros Hc. apply seen_In in Hc. congruence.
        -- destruct (Hin n Hn) as [Hne Hvs].
           split; [intros Hc; apply Hne; now right | now right].
Qed.

Lemma max_ordinal_le (vs : list Vulnerability) : max_ordinal vs <= 4.
Proof.
  unfold max_ordinal. induction vs as [|v vs IH]; cbn [fold_right]; [lia|].
  pose proof (ordinal_range (risk v)). lia.
Qed.

End Severity.

(** X25. The severity summary of a host: the four counts are not negative,
    their sum is at most the number of first-occurrence entries, which
    have pairwise distinct names and are at most as many as the entries;
    the level lies between 1 and 4, and the indicator is one of the five
    labels. *)
Theorem severity_summary_bounds (x : HostResult) :
  let d := host_details x in
  let firsts := first_entries (vulnerabilities x) in
  0 <= maximum d /\ 0 <= high d /\ 0 <= medium d /\ 0 <= low d
  /\ maximum d + high d + medium d + low d <= Z.of_nat (length firsts)
  /\ List.NoDup (map name firsts)
  /\ (length firsts <= length (vulnerabilities x))%nat
  /\ 1 <= level (host_tally x) <= 4
  /\ In (host_lind x) ["maximum"; "high"; "medium"; "low"; "unknown"].
Proof.
  intros d firsts.
  pose proof (buckets_host_details x) as Hb.
  destruct (buckets_host_tally x) as [Ht _]. cbn zeta in Ht.
  rewrite <- Hb in Ht. unfold buckets in Ht. injection Ht as H1 H2 H3 H4.
  fold d in H1, H2, H3, H4. fold firsts in H1, H2, H3, H4.
  rewrite H1, H2, H3, H4.
  destruct (count_risk_bounds firsts) as (B1 & B2 & B3 & B4 & B5).
  repeat (split; [assumption|]).
  split; [apply (first_entries_from_names [])|].
  split; [apply first_entries_from_length|].
  assert (Hlevel : 1 <= level (host_tally x) <= 4).
  { rewrite level_host_tally. split; [apply max_ordinal_ge | apply max_ordinal_le]. }
  split; [exact Hlevel|].
  unfold host_lind, lind_of. destruct (credentialed_checks x); cbn.
  - repeat (destruct (Z.eqb _ _)); auto.
  - auto 6.
Qed.

(** X26. Submitting the indicators never fails: whatever the indicator
    service answers, one indicator is posted per host entry, in order and
    computed from that entry, and nothing is written to standard output.
    At most one warning per entry goes to standard error: none when every
    answer is a 200, one per entry when no answer is. *)
Theorem indicators_tolerate_failures
    (R : Runtime) (self : ScanAPIServices) (w : World) :
  exists w' reqs msgs,
    Services.execute_indicators self w = (Ok tt, w')
    /\ sent w' = (sent w ++ reqs)%list
    /\ stdout w' = stdout w
    /\ stderr w' = (stderr w ++ msgs)%list
    /\ Forall2 (fun x req =>
                  exists ts, req = Services.indicator_request self
                                     (indicator (zone (_content self)) ts x))
               (details (_content self)) reqs
    /\ (length msgs <= length (details (_content self)))%nat
    /\ ((forall hist q, status_code (respond hist q) = 200) -> msgs = [])
    /\ ((forall hist q, status_code (respond hist q) <> 200) ->
        length msgs = length (details (_content self))).
Proof.
  unfold Services.execute_indicators. revert w.
  induction (details (_content self)) as [|x ds IH]; intros w; cbn [for_each].
  - exists w, [], []. rewrite !app_nil_r. repeat split; auto.
  - set (req := Services.indicator_request self
                  (indicator (zone (_content self)) (utcnow w) x)).
    assert (Hstep : exists msg : list string,
              Services.submit_indicator self x w
              = (Ok tt, {| sent := sent w ++ [req]; stdout := stdout w;
                           stderr := stderr w ++ msg |})
              /\ (length msg <= 1)%nat
              /\ (status_code (respond (sent w) req) = 200 -> msg = [])
              /\ (status_code (respond (sent w) req) <> 200 -> length msg = 1%nat)).
    { unfold Services.submit_indicator, bind, now, http. fold req.
      destruct (Z.eqb_spec (status_code (respond (sent w) req)) 200) as [E|E];
        cbn [negb].
      - exists []. rewrite app_nil_r. repeat split; auto. intros Hc. now elim Hc.
      - eexists [_]. repeat split; auto. intros Hc. now elim E. }
    destruct Hstep as (msg & Hrun & Hle & H200 & Hne).
    destruct (IH {| sent := sent w ++ [req]; stdout := stdout w;
                    stderr := stderr w ++ msg |})
      as (w' & reqs & msgs & Hrest & Hsent & Hout & Herr & Hall & Hlen & Hgood & Hbad).
    exists w', (req :: reqs), (msg ++ msgs)%list.
    unfold bind. rewrite Hrun, Hrest. cbn [sent stdout stderr] in *.
    split; [reflexivity|]. split; [now rewrite Hsent, <- app_assoc|].
    split; [exact Hout|]. split; [now rewrite Herr, <- app_assoc|].
    split; [constructor; [now exists (utcnow w) | exact Hall]|].
    rewrite length_app. cbn [length]. split; [lia|]. split.
    + intros Hg. rewrite (H200 (Hg _ _)), (Hgood Hg). reflexivity.
    + intros Hb. rewrite (Hne (Hb _ _)), (Hbad Hb). reflexivity.
Qed.

(** X27. The enrichment posts the indicators before it looks up any owner:
    the requests of [execute] are one indicator per host entry, computed
    from the entry as it was fetched, followed by one owner lookup per
    distinct hostname. *)
Theorem enrichment_posts_indicators_first
    (R : Runtime) (L : RuntimeLaws R) (self : ScanAPIServices) (w : World) :
  owner_service_ok self ->
  exists doc' w' posts,
    Services.execute self w = (Ok doc', w')
    /\ sent w'
       = (sent w ++ posts
          ++ map (Services.owner_request self)
                 (set_iter (map hostname (details (_content self)))))%list
    /\ Forall2 (fun x req =>
                  exists ts, req = Services.indicator_request self
                                     (indicator (zone (_content self)) ts x))
               (details (_content self)) posts.
Proof.
  intros Hok.
  destruct (execute_indicators_posts self w) as (w0 & posts & Hind & Hsent & Hall).
  pose proof (execute_ownership_run self Hok w0) as Hown. cbn zeta in Hown.
  eexists _, _, posts. split.
  - unfold Services.execute, bind. rewrite Hind, Hown. reflexivity.
  - split; [|exact Hall]. cbn [sends sent]. now rewrite Hsent, <- app_assoc.
Qed.

Lemma enrichment_posts_indicators_first_witness :
  let self := Fixture.services_of
                [Fixture.host "h1" "10.0.0.1"; Fixture.host "h2" "10.0.0.2";
                 Fixture.host "h1" "10.0.0.3"] in
  exists doc' w' posts,
    @Services.execute Fixture.rt self world0 = (Ok doc', w')
    /\ sent w' = (posts ++ [Services.owner_request self "h1";
                            Services.owner_request self "h2"])%list
    /\ length posts = 3%nat.
Proof.
  intros self.
  destruct (enrichment_posts_indicators_first Fixture.rt fixture_laws self world0
              (fixture_service_ok _)) as (doc' & w' & posts & Hrun & Hsent & Hall).
  exists doc', w', posts. split; [exact Hrun|]. split; [exact Hsent|].
  apply Forall2_length in Hall. now rewrite <- Hall.
Defined.

(** X28. Only the status decides between the answer and the default owner:
    when the first lookup is answered with a 200 whose body is no JSON,
    the ownership annotation fails with [ValueError] right there; no
    further lookup is made and no entry is annotated. *)
Theorem ownership_fails_on_undecodable_answer
    (R : Runtime) (self : ScanAPIServices) (x : string) (rest : list string)
    (w : World) :
  set_iter (map hostname (details (_content self))) = x :: rest ->
  status_code (respond (sent w) (Services.owner_request self x)) = 200 ->
  json_loads (text (respond (sent w) (Services.owner_request self x))) = None ->
  Services.execute_ownership self w
  = (Raise (ValueError "No JSON object could be decoded"),
     sends w [Services.owner_request self x]).
Proof.
  intros Hhosts Hs Hj. unfold Services.execute_ownership. rewrite Hhosts.
  cbn [fold_m]. unfold bind at 1. unfold bind at 1.
  unfold Services.lookup_owner at 1, bind at 1, http at 1.
  rewrite Hs, Hj. reflexivity.
Qed.

Lemma ownership_fails_on_undecodable_answer_witness :
  let svc := fun (_ : list Request) (_ : Request) =>
               {| status_code := 200; text := "<html>maintenance</html>" |} in
  let self := Fixture.services_of
                [Fixture.host "h1" "10.0.0.1"; Fixture.host "h2" "10.0.0.2"] in
  @Services.execute_ownership (Fixture.runtime svc [] []) self world0
  = (Raise (ValueError "No JSON object could be decoded"),
     sends world0 [Services.owner_request self "h1"]).
Proof.
  intros svc self.
  apply (ownership_fails_on_undecodable_answer (Fixture.runtime svc [] []) self
           "h1" ["h2"]); reflexivity.
Defined.
